(** * Shallow embedding of [lib/model.py] (Mask R-CNN network definition)

    Tensors in NCHW layout are nested lists [batch][channel][row][column].
    Python integers are [Z]; a Python exception is [None].  Tensor sizes are
    far below 2^53, so [math.ceil(float(a) / float(b))] is the exact ceiling of
    the quotient and [math.floor(p / 2)] the exact floor.

    The source file carries unresolved merge markers: the network classes
    stand on one side of them, [compute_loss] and the training loop on the
    other.  Both sides are embedded as they are written. *)

From Stdlib Require Import ZArith Lia.
From stdpp Require Import base option list strings gmap.

Local Open Scope Z_scope.

(** ** Tensors as nested lists *)

Abbreviation plane A := (list (list A)) (only parsing).
Abbreviation tensor4 A := (list (list (list (list A)))) (only parsing).

(** [x.size()[2]] and [x.size()[3]], read off the first plane. *)
Definition size2 {A} (x : tensor4 A) : Z :=
  match x with
  | (p :: _) :: _ => Z.of_nat (length p)
  | _ => 0
  end.

Definition size3 {A} (x : tensor4 A) : Z :=
  match x with
  | ((r :: _) :: _) :: _ => Z.of_nat (length r)
  | _ => 0
  end.

(** Every batch entry has [C] channels, every channel [H] rows of [W] cells. *)
Definition plane_shaped {A} (H W : nat) (p : plane A) : Prop :=
  length p = H ∧ Forall (λ r, length r = W) p.

Definition shaped {A} (N C H W : nat) (x : tensor4 A) : Prop :=
  length x = N ∧
  Forall (λ img, length img = C ∧ Forall (plane_shaped H W) img) x.

(** A three-dimensional tensor of size [B] x [M] x [K]. *)
Definition shaped3 {A} (B M K : nat) (t : list (list (list A))) : Prop :=
  length t = B ∧ Forall (λ m, length m = M ∧ Forall (λ c, length c = K) m) t.

(** Indexing with a Python-style integer that must be in range. *)
Definition lookupZ {A} (l : list A) (i : Z) : option A :=
  if i <? 0 then None else l !! Z.to_nat i.

Definition cell {A} (x : tensor4 A) (n c : nat) (i j : Z) : option A :=
  img ← x !! n; p ← img !! c; r ← lookupZ p i; lookupZ r j.

(** Indexing with in-range naturals. *)
Definition lookup3 {A} (t : list (list (list A))) (b i j : nat) : option A :=
  m ← t !! b; r ← m !! i; r !! j.

Definition lookup4 {A} (x : tensor4 A) (n c h w : nat) : option A :=
  img ← x !! n; p ← img !! c; r ← p !! h; r !! w.

(** ** [math.ceil(float(a) / float(b))]: raises on a zero divisor *)
Definition ceil_div (a b : Z) : option Z :=
  if b =? 0 then None else Some (- ((- a) / b)).

(** ** PyTorch primitives used by the module *)

(** [F.pad(..., 'constant', 0)] along one dimension: a non-negative amount
    adds cells, a negative amount crops, and cropping more cells than there
    are is an error. *)
Definition pad1 {B} (z : B) (lo hi : Z) (xs : list B) : option (list B) :=
  let len := Z.of_nat (length xs) in
  if len + Z.min lo 0 + Z.min hi 0 <? 0 then None
  else Some (replicate (Z.to_nat lo) z
             ++ drop (Z.to_nat (- lo)) (take (Z.to_nat (len + hi)) xs)
             ++ replicate (Z.to_nat hi) z).

(** [F.pad(input, (left, right, top, bottom), 'constant', 0)] on NCHW data:
    the first pair pads the LAST dimension (columns), the second pair the one
    before it (rows). *)
Definition F_pad_plane {A} (zero : A) (pads : Z * Z * Z * Z) (p : plane A)
  : option (plane A) :=
  let '(pad_left, pad_right, pad_top, pad_bottom) := pads in
  rows ← mapM (pad1 zero pad_left pad_right) p;
  let width := match rows with r :: _ => length r | [] => 0%nat end in
  pad1 (replicate width zero) pad_top pad_bottom rows.

Definition F_pad {A} (zero : A) (pads : Z * Z * Z * Z) (x : tensor4 A)
  : option (tensor4 A) :=
  mapM (mapM (F_pad_plane zero pads)) x.

(** Output length of [nn.Conv2d] / [nn.MaxPool2d] along one spatial dimension
    with no padding and dilation 1 (PyTorch's documented formula); the window
    must fit into the input. *)
Definition conv_out_size (n k s : Z) : option Z :=
  if (n <? k) || (s <=? 0) then None else Some ((n - k) / s + 1).

(** ** class SamePad2d *)

Record SamePad2d := { kernel_size : Z * Z; stride : Z * Z }.

(** [torch.nn.modules.utils._pair] on an integer. *)
Definition _pair (x : Z) : Z * Z := (x, x).

Definition SamePad2d_init (kernel_size stride : Z) : SamePad2d :=
  {| kernel_size := _pair kernel_size; stride := _pair stride |}.

(** The four amounts computed by [SamePad2d.forward], with the source's
    variable names: [in_width] is read from dimension 2 and [in_height] from
    dimension 3. *)
Definition SamePad2d_pads (self : SamePad2d) (sz2 sz3 : Z)
  : option (Z * Z * Z * Z) :=
  let in_width := sz2 in
  let in_height := sz3 in
  out_width ← ceil_div in_width (stride self).1;
  out_height ← ceil_div in_height (stride self).2;
  let pad_along_width :=
    (out_width - 1) * (stride self).1 + (kernel_size self).1 - in_width in
  let pad_along_height :=
    (out_height - 1) * (stride self).2 + (kernel_size self).2 - in_height in
  let pad_left := pad_along_width / 2 in
  let pad_top := pad_along_height / 2 in
  let pad_right := pad_along_width - pad_left in
  let pad_bottom := pad_along_height - pad_top in
  Some (pad_left, pad_right, pad_top, pad_bottom).

Definition SamePad2d_forward {A} (zero : A) (self : SamePad2d)
    (input : tensor4 A) : option (tensor4 A) :=
  pads ← SamePad2d_pads self (size2 input) (size3 input);
  F_pad zero pads input.

(** [SamePad2d(k, s)] followed by a convolution with kernel [k], stride [s]
    and no padding of its own: the spatial size of the result. *)
Definition samepad_conv_size {A} (zero : A) (k s : Z) (input : tensor4 A)
  : option (Z * Z) :=
  padded ← SamePad2d_forward zero (SamePad2d_init k s) input;
  h ← conv_out_size (size2 padded) k s;
  w ← conv_out_size (size3 padded) k s;
  Some (h, w).

(** A constant [N]x[C]x[H]x[W] tensor. *)
Definition full {A} (N C H W : nat) (v : A) : tensor4 A :=
  replicate N (replicate C (replicate H (replicate W v))).

(** ** Layers as the constructors describe them *)

(** The parameter-carrying PyTorch layers the file instantiates, and
    [SamePad2d]. *)
Inductive prim :=
  | Conv2d (in_channels out_channels kernel stride padding : Z)
  | BatchNorm2d (num_features : Z)
  | ReLU
  | SamePad (m : SamePad2d)
  | MaxPool2d (kernel stride : Z)
  | Linear (in_features out_features : Z)
  | Softmax (dim : Z).

(** [class Bottleneck]: what [__init__] stores. *)
Record Bottleneck := {
  conv1 : prim; bn1 : prim; padding2 : prim; conv2 : prim; bn2 : prim;
  conv3 : prim; bn3 : prim; relu : prim;
  downsample : option (list prim);
  block_stride : Z }.

Definition expansion : Z := 4.

Definition Bottleneck_init (inplanes planes stride : Z)
    (downsample : option (list prim)) : Bottleneck :=
  {| conv1 := Conv2d inplanes planes 1 stride 0;
     bn1 := BatchNorm2d planes;
     padding2 := SamePad (SamePad2d_init 3 1);
     conv2 := Conv2d planes planes 3 1 0;
     bn2 := BatchNorm2d planes;
     conv3 := Conv2d planes (planes * 4) 1 1 0;
     bn3 := BatchNorm2d (planes * 4);
     relu := ReLU;
     downsample := downsample;
     block_stride := stride |}.

Inductive layer :=
  | Prim (p : prim)
  | Block (b : Bottleneck).

(** An [nn.Sequential] is the list of its layers. *)
Abbreviation Sequential := (list layer) (only parsing).

(** ** class ResNet *)

(** [ResNet.make_layer]; [self.inplanes] is threaded through explicitly. *)
Definition make_layer (inplanes : Z) (planes blocks stride : Z)
  : Sequential * Z :=
  let downsample :=
    if bool_decide (stride ≠ 1 ∨ inplanes ≠ planes * expansion) then
      Some [Conv2d inplanes (planes * expansion) 1 stride 0;
            BatchNorm2d (planes * expansion)]
    else None in
  let first := Block (Bottleneck_init inplanes planes stride downsample) in
  let inplanes := planes * expansion in
  (first :: ((λ _, Block (Bottleneck_init inplanes planes 1 None))
               <$> seqZ 1 (blocks - 1)),
   inplanes).

(** A module attribute is a module or [None]. *)
Record ResNet := {
  inplanes : Z;
  layers : list Z;
  stage5 : bool;
  C1 : Sequential; C2 : Sequential; C3 : Sequential; C4 : Sequential;
  C5 : option Sequential }.

Definition architectures : list string := ["resnet50"; "resnet101"]%string.

Definition blocks_of : gmap string Z :=
  {[ "resnet50"%string := 6; "resnet101"%string := 23 ]}.

(** [ResNet.__init__]; [None] is the failed [assert] (or a failed lookup). *)
Definition ResNet_init (architecture : string) (stage5 : bool)
  : option ResNet :=
  if bool_decide (architecture ∈ architectures) then
    let inplanes := 64 in
    n ← blocks_of !! architecture;
    let layers := [3; 4; n; 3] in
    let C1 := [Prim (Conv2d 3 64 7 2 3); Prim (BatchNorm2d 64); Prim ReLU;
               Prim (SamePad (SamePad2d_init 3 2)); Prim (MaxPool2d 3 2)] in
    l0 ← layers !! 0%nat;
    let '(C2, inplanes) := make_layer inplanes 64 l0 1 in
    l1 ← layers !! 1%nat;
    let '(C3, inplanes) := make_layer inplanes 128 l1 2 in
    l2 ← layers !! 2%nat;
    let '(C4, inplanes) := make_layer inplanes 256 l2 2 in
    if stage5 then
      l3 ← layers !! 3%nat;
      let '(C5, inplanes) := make_layer inplanes 512 l3 2 in
      Some {| inplanes := inplanes; layers := layers; stage5 := stage5;
              C1 := C1; C2 := C2; C3 := C3; C4 := C4; C5 := Some C5 |}
    else
      Some {| inplanes := inplanes; layers := layers; stage5 := stage5;
              C1 := C1; C2 := C2; C3 := C3; C4 := C4; C5 := None |}
  else None.

(** ** More PyTorch primitives on nested lists *)

(** [nn.MaxPool2d(kernel_size=1, stride=s)] along one dimension: a window of
    one cell, so output cell [i] is input cell [i * s]. *)
Definition pool1 {B} (s : Z) (l : list B) : option (list B) :=
  n ← conv_out_size (Z.of_nat (length l)) 1 s;
  mapM (λ i, lookupZ l (i * s)) (seqZ 0 n).

Definition MaxPool2d_k1 {A} (s : Z) (x : tensor4 A) : option (tensor4 A) :=
  mapM (mapM (λ p : plane A, rows ← pool1 s p; mapM (pool1 s) rows)) x.

(** [F.upsample(x, scale_factor=s)] in its default nearest-neighbour mode:
    every cell is repeated [s] times along both spatial dimensions. *)
Definition repeat_each {B} (s : nat) (l : list B) : list B :=
  l ≫= replicate s.

Definition F_upsample {A} (x : tensor4 A) (scale_factor : nat) : tensor4 A :=
  map (map (λ p : plane A,
    repeat_each scale_factor (map (repeat_each scale_factor) p))) x.

(** Element-wise binary operation with PyTorch's broadcasting rule along one
    dimension: equal lengths, or one of the two has length one.  An in-place
    operation cannot grow its left operand. *)
Definition bzip {B} (inplace : bool) (f : B → B → option B) (a b : list B)
  : option (list B) :=
  if bool_decide (length a = length b) then mapM (λ p, f p.1 p.2) (zip a b)
  else match a, b with
       | _, [y] => mapM (λ x, f x y) a
       | [x], _ => if inplace then None else mapM (f x) b
       | _, _ => None
       end.

Definition tensor_add {A} (add : A → A → A) (inplace : bool)
    (x y : tensor4 A) : option (tensor4 A) :=
  bzip inplace (bzip inplace (bzip inplace (bzip inplace
    (λ u v, Some (add u v))))) x y.

(** ** class FPN: what [__init__] stores *)

Record FPN := {
  fpn_out_channels : Z;
  fpn_C1 : option Sequential; fpn_C2 : option Sequential;
  fpn_C3 : option Sequential; fpn_C4 : option Sequential;
  fpn_C5 : option Sequential;
  P6 : prim;
  P5_conv1 : prim; P5_conv2 : list prim;
  P4_conv1 : prim; P4_conv2 : list prim;
  P3_conv1 : prim; P3_conv2 : list prim;
  P2_conv1 : prim; P2_conv2 : list prim }.

Definition FPN_init (C1 C2 C3 C4 C5 : option Sequential) (out_channels : Z)
  : FPN :=
  let smooth := [SamePad (SamePad2d_init 3 1);
                 Conv2d out_channels out_channels 3 1 0] in
  {| fpn_out_channels := out_channels;
     fpn_C1 := C1; fpn_C2 := C2; fpn_C3 := C3; fpn_C4 := C4; fpn_C5 := C5;
     P6 := MaxPool2d 1 2;
     P5_conv1 := Conv2d 2048 out_channels 1 1 0; P5_conv2 := smooth;
     P4_conv1 := Conv2d 1024 out_channels 1 1 0; P4_conv2 := smooth;
     P3_conv1 := Conv2d 512 out_channels 1 1 0; P3_conv2 := smooth;
     P2_conv1 := Conv2d 256 out_channels 1 1 0; P2_conv2 := smooth |}.

(** ** Running the modules *)

Section Execution.
Context {A : Type} (zero : A) (add : A → A → A).

(** Convolution, batch normalisation, ReLU and max pooling over windows
    larger than one cell compute with learned parameters and floating
    point; what they return is a parameter of the development. *)
Context (numeric : prim → tensor4 A → option (tensor4 A)).

Definition run_prim (p : prim) (x : tensor4 A) : option (tensor4 A) :=
  match p with
  | SamePad m => SamePad2d_forward zero m x
  | MaxPool2d 1 s => MaxPool2d_k1 s x
  | _ => numeric p x
  end.

Fixpoint run_prims (ps : list prim) (x : tensor4 A) : option (tensor4 A) :=
  match ps with
  | [] => Some x
  | p :: ps => x ← run_prim p x; run_prims ps x
  end.

(** [Bottleneck.forward] *)
Definition Bottleneck_forward (self : Bottleneck) (x : tensor4 A)
  : option (tensor4 A) :=
  let residual := x in
  out ← run_prim (conv1 self) x;
  out ← run_prim (bn1 self) out;
  out ← run_prim (relu self) out;
  out ← run_prim (padding2 self) out;
  out ← run_prim (conv2 self) out;
  out ← run_prim (bn2 self) out;
  out ← run_prim (relu self) out;
  out ← run_prim (conv3 self) out;
  out ← run_prim (bn3 self) out;
  residual ← match downsample self with
             | Some ds => run_prims ds x
             | None => Some residual
             end;
  out ← tensor_add add true out residual;
  run_prim (relu self) out.

Definition run_layer (l : layer) (x : tensor4 A) : option (tensor4 A) :=
  match l with
  | Prim p => run_prim p x
  | Block b => Bottleneck_forward b x
  end.

Fixpoint Sequential_forward (ls : Sequential) (x : tensor4 A)
  : option (tensor4 A) :=
  match ls with
  | [] => Some x
  | l :: ls => x ← run_layer l x; Sequential_forward ls x
  end.

(** Calling a module attribute: calling [None] raises [TypeError]. *)
Definition call (m : option Sequential) (x : tensor4 A)
  : option (tensor4 A) :=
  match m with
  | Some ls => Sequential_forward ls x
  | None => None
  end.

(** [ResNet.forward] *)
Definition ResNet_forward (self : ResNet) (x : tensor4 A)
  : option (tensor4 A) :=
  x ← Sequential_forward (C1 self) x;
  x ← Sequential_forward (C2 self) x;
  x ← Sequential_forward (C3 self) x;
  x ← Sequential_forward (C4 self) x;
  x ← call (C5 self) x;
  Some x.

(** [ResNet.stages] *)
Definition ResNet_stages (self : ResNet) : list (option Sequential) :=
  [Some (C1 self); Some (C2 self); Some (C3 self); Some (C4 self); C5 self].

(** [FPN.forward] *)
Definition FPN_forward (self : FPN) (x : tensor4 A)
  : option (list (tensor4 A)) :=
  x ← call (fpn_C1 self) x;
  x ← call (fpn_C2 self) x;
  let c2_out := x in
  x ← call (fpn_C3 self) x;
  let c3_out := x in
  x ← call (fpn_C4 self) x;
  let c4_out := x in
  x ← call (fpn_C5 self) x;
  p5_out ← run_prim (P5_conv1 self) x;
  l4 ← run_prim (P4_conv1 self) c4_out;
  p4_out ← tensor_add add false l4 (F_upsample p5_out 2);
  l3 ← run_prim (P3_conv1 self) c3_out;
  p3_out ← tensor_add add false l3 (F_upsample p4_out 2);
  l2 ← run_prim (P2_conv1 self) c2_out;
  p2_out ← tensor_add add false l2 (F_upsample p3_out 2);
  p5_out ← run_prims (P5_conv2 self) p5_out;
  p4_out ← run_prims (P4_conv2 self) p4_out;
  p3_out ← run_prims (P3_conv2 self) p3_out;
  p2_out ← run_prims (P2_conv2 self) p2_out;
  p6_out ← run_prim (P6 self) p5_out;
  Some [p2_out; p3_out; p4_out; p5_out; p6_out].
End Execution.

(** ** Reordering a feature map into a flat per-anchor sequence *)

Definition size0 {A} (x : tensor4 A) : Z := Z.of_nat (length x).

(** [x.permute(0, 2, 3, 1).contiguous()]: from [batch][channel][row][column]
    to [batch][row][column][channel]. *)
Definition permute_0231 {A} (x : tensor4 A) : tensor4 A :=
  let H := Z.to_nat (size2 x) in
  let W := Z.to_nat (size3 x) in
  map (λ img : list (plane A),
    map (λ h, map (λ w, omap (λ p : plane A, p !! h ≫= (.!! w)) img)
                  (seq 0 W))
        (seq 0 H)) x.

(** Row-major storage of a contiguous tensor. *)
Definition flatten4 {A} (x : tensor4 A) : list A := concat (concat (concat x)).

(** [x.view(d0, -1, k)]: the middle dimension is inferred from the number of
    elements; an impossible request raises. *)
Definition view3 {A} (x : tensor4 A) (d0 k : Z)
  : option (list (list (list A))) :=
  let flat := flatten4 x in
  let total := Z.of_nat (length flat) in
  if (d0 * k <=? 0) || negb (total mod (d0 * k) =? 0) then None
  else
    let m := total / (d0 * k) in
    Some (reshape (replicate (Z.to_nat m) (Z.to_nat k))
            <$> reshape (replicate (Z.to_nat d0) (Z.to_nat (m * k))) flat).

(** ** [nn.Softmax(dim)] *)

(** Rows and columns of a matrix of equally long rows exchanged. *)
Fixpoint transpose {B} (m : list (list B)) : list (list B) :=
  match m with
  | [] => []
  | [r] => map (λ v, [v]) r
  | r :: m => zip_with cons r (transpose m)
  end.

Section Softmax.
(** [softmax1]: the library's softmax of one vector, computed in floating
    point.  The module applies it to every slice along [dim]; a [dim] that
    the tensor does not have raises. *)
Context {A : Type} (softmax1 : list A → list A).

(** On a matrix. *)
Definition Softmax_forward2 (dim : Z) (m : list (list A))
  : option (list (list A)) :=
  if bool_decide (dim = 1 ∨ dim = -1) then Some (map softmax1 m)
  else if bool_decide (dim = 0 ∨ dim = -2) then
    Some (transpose (map softmax1 (transpose m)))
  else None.

(** On a three-dimensional tensor. *)
Definition Softmax_forward (dim : Z) (t : list (list (list A)))
  : option (list (list (list A))) :=
  if bool_decide (dim = 2 ∨ dim = -1) then Some (map (map softmax1) t)
  else if bool_decide (dim = 1 ∨ dim = -2) then
    Some (map (λ m, transpose (map softmax1 (transpose m))) t)
  else if bool_decide (dim = 0 ∨ dim = -3) then
    Some (transpose (map (λ m, transpose (map softmax1 (transpose m)))
                       (transpose t)))
  else None.
End Softmax.

(** ** class RPN *)

Record RPN := {
  anchors_per_location : Z;
  anchor_stride : Z;
  depth : Z;
  rpn_padding : prim;
  conv_shared : prim;
  rpn_relu : prim;
  conv_class : prim;
  rpn_softmax : prim;
  conv_bbox : prim }.

Definition RPN_init (anchors_per_location anchor_stride depth : Z) : RPN :=
  {| anchors_per_location := anchors_per_location;
     anchor_stride := anchor_stride;
     depth := depth;
     rpn_padding := SamePad (SamePad2d_init 3 anchor_stride);
     conv_shared := Conv2d depth 512 3 anchor_stride 0;
     rpn_relu := ReLU;
     conv_class := Conv2d 512 (2 * anchors_per_location) 1 1 0;
     rpn_softmax := Softmax 2;
     conv_bbox := Conv2d 512 (4 * anchors_per_location) 1 1 0 |}.

Section RPNExecution.
Context {A : Type} (zero : A).
Context (numeric : prim → tensor4 A → option (tensor4 A)).
Context (softmax1 : list A → list A).

Definition call_softmax (p : prim) (t : list (list (list A)))
  : option (list (list (list A))) :=
  match p with
  | Softmax dim => Softmax_forward softmax1 dim t
  | _ => None
  end.

(** [RPN.forward]; the result list is
    [[rpn_class_logits, rpn_probs, rpn_bbox]]. *)
Definition RPN_forward (self : RPN) (x : tensor4 A)
  : option (list (list (list (list A)))) :=
  x ← run_prim zero numeric (rpn_padding self) x;
  x ← run_prim zero numeric (conv_shared self) x;
  x ← run_prim zero numeric (rpn_relu self) x;
  rpn_class_logits ← run_prim zero numeric (conv_class self) x;
  let rpn_class_logits := permute_0231 rpn_class_logits in
  rpn_class_logits ← view3 rpn_class_logits (size0 x) 2;
  rpn_probs ← call_softmax (rpn_softmax self) rpn_class_logits;
  rpn_bbox ← run_prim zero numeric (conv_bbox self) x;
  let rpn_bbox := permute_0231 rpn_bbox in
  rpn_bbox ← view3 rpn_bbox (size0 x) 4;
  Some [rpn_class_logits; rpn_probs; rpn_bbox].
End RPNExecution.

(** ** Shapes: what each layer does to [x.size()] *)

Definition numel (s : list Z) : Z := foldr Z.mul 1 s.

(** [x.view] on a target size with at most one inferred ([-1]) entry. *)
Definition view_shape (target s : list Z) : option (list Z) :=
  let known := numel (filter (λ d, d ≠ -1) target) in
  match length (filter (λ d, d = -1) target) with
  | 0%nat => if numel s =? known then Some target else None
  | 1%nat =>
      if (known =? 0) || negb (numel s mod known =? 0) then None
      else Some (map (λ d, if d =? -1 then numel s / known else d) target)
  | _ => None
  end.

(** What a layer makes of [x.size()], [None] where it raises.  A module is
    in training mode once constructed, and there [BatchNorm2d] raises on a
    single value per channel. *)
Definition prim_shape (p : prim) (s : list Z) : option (list Z) :=
  match p with
  | Conv2d cin cout k st pad =>
      match s with
      | [n; c; h; w] =>
          if c =? cin then
            h' ← conv_out_size (h + 2 * pad) k st;
            w' ← conv_out_size (w + 2 * pad) k st;
            Some [n; cout; h'; w']
          else None
      | _ => None
      end
  | BatchNorm2d f =>
      (* a module is in training mode once constructed: batch statistics
         need more than one value per channel *)
      match s with
      | [n; c; h; w] =>
          if c =? f then if n * h * w =? 1 then None else Some s else None
      | _ => None
      end
  | ReLU => Some s
  | SamePad m =>
      match s with
      | [n; c; h; w] =>
          '(pad_left, pad_right, pad_top, pad_bottom) ← SamePad2d_pads m h w;
          if (h + pad_top + pad_bottom <? 0) || (w + pad_left + pad_right <? 0)
          then None
          else Some [n; c; h + pad_top + pad_bottom; w + pad_left + pad_right]
      | _ => None
      end
  | MaxPool2d k st =>
      match s with
      | [n; c; h; w] =>
          h' ← conv_out_size h k st;
          w' ← conv_out_size w k st;
          Some [n; c; h'; w']
      | _ => None
      end
  | Linear fin fout =>
      match reverse s with
      | d :: rest => if d =? fin then Some (reverse (fout :: rest)) else None
      | [] => None
      end
  | Softmax dim =>
      let r := Z.of_nat (length s) in
      if (- r <=? dim) && (dim <? r) then Some s else None
  end.

(** ** class Classifier *)

Record Classifier := {
  cls_depth : Z;
  pool_size : Z;
  image_shape : list Z;
  num_classes : Z;
  cls_conv1 : prim; cls_bn1 : prim; cls_conv2 : prim; cls_bn2 : prim;
  cls_relu : prim;
  linear_class : prim;
  cls_softmax : prim;
  linear_bbox : prim }.

Definition Classifier_init (depth pool_size : Z) (image_shape : list Z)
    (num_classes : Z) : Classifier :=
  {| cls_depth := depth;
     pool_size := pool_size;
     image_shape := image_shape;
     num_classes := num_classes;
     cls_conv1 := Conv2d depth 1024 pool_size 1 0;
     cls_bn1 := BatchNorm2d 1024;
     cls_conv2 := Conv2d 1024 1024 1 1 0;
     cls_bn2 := BatchNorm2d 1024;
     cls_relu := ReLU;
     linear_class := Linear 1024 num_classes;
     cls_softmax := Softmax 1;
     linear_bbox := Linear 1024 (num_classes * 4) |}.

(** Modelled from the spec: [lib.layers.pyramid_roi_align] is imported, not
    defined, by this file.  It pools each of the [num_rois] boxes to a fixed
    output size from the pyramid feature maps of [channels] channels. *)
Definition pyramid_roi_align_shape (num_rois channels pool_size : Z) : list Z :=
  [num_rois; channels; pool_size; pool_size].

(** [Classifier.forward] on shapes, up to [x = x.view(-1, 1024)]. *)
Definition Classifier_features_shape (self : Classifier)
    (num_rois channels : Z) : option (list Z) :=
  let x := pyramid_roi_align_shape num_rois channels (pool_size self) in
  x ← prim_shape (cls_conv1 self) x;
  x ← prim_shape (cls_bn1 self) x;
  x ← prim_shape (cls_relu self) x;
  x ← prim_shape (cls_conv2 self) x;
  x ← prim_shape (cls_bn2 self) x;
  x ← prim_shape (cls_relu self) x;
  view_shape [-1; 1024] x.

(** [Classifier.forward] on shapes: those of
    [[mrcnn_class_logits, mrcnn_probs, mrcnn_bbox]]. *)
Definition Classifier_forward_shape (self : Classifier)
    (num_rois channels : Z) : option (list (list Z)) :=
  x ← Classifier_features_shape self num_rois channels;
  mrcnn_class_logits ← prim_shape (linear_class self) x;
  mrcnn_probs ← prim_shape (cls_softmax self) mrcnn_class_logits;
  mrcnn_bbox ← prim_shape (linear_bbox self) x;
  d0 ← mrcnn_bbox !! 0%nat;
  mrcnn_bbox ← view_shape [d0; -1; 4] mrcnn_bbox;
  Some [mrcnn_class_logits; mrcnn_probs; mrcnn_bbox].

(** A matrix of [N] rows of [M] entries. *)
Definition mat_shaped {A} (N M : nat) (m : list (list A)) : Prop :=
  length m = N ∧ Forall (λ r, length r = M) m.

(** [x.view(-1, k)] on a contiguous four-dimensional tensor. *)
Definition view2 {A} (x : tensor4 A) (k : Z) : option (list (list A)) :=
  let flat := flatten4 x in
  let total := Z.of_nat (length flat) in
  if (k <=? 0) || negb (total mod k =? 0) then None
  else Some (reshape (replicate (Z.to_nat (total / k)) (Z.to_nat k)) flat).

(** [m.view(d0, -1, k)] on a contiguous matrix. *)
Definition view3_rows {A} (m : list (list A)) (d0 k : Z)
  : option (list (list (list A))) :=
  let flat := concat m in
  let total := Z.of_nat (length flat) in
  if (d0 * k <=? 0) || negb (total mod (d0 * k) =? 0) then None
  else
    let n := total / (d0 * k) in
    Some (reshape (replicate (Z.to_nat n) (Z.to_nat k))
            <$> reshape (replicate (Z.to_nat d0) (Z.to_nat (n * k))) flat).

Section ClassifierExecution.
Context {A Rois : Type}.

(** [lib.layers.pyramid_roi_align] is imported, not defined, by this file;
    so are the numeric layers, [nn.Linear] on matrices and the library's
    softmax of one vector. *)
Context (pyramid_roi_align :
           Rois → list (tensor4 A) → Z → list Z → option (tensor4 A)).
Context (numeric : prim → tensor4 A → option (tensor4 A)).
Context (linear : prim → list (list A) → option (list (list A))).
Context (softmax1 : list A → list A).

Definition call_softmax2 (p : prim) (m : list (list A))
  : option (list (list A)) :=
  match p with
  | Softmax dim => Softmax_forward2 softmax1 dim m
  | _ => None
  end.

(** [Classifier.forward(x, rois)]; the result list is
    [[mrcnn_class_logits, mrcnn_probs, mrcnn_bbox]]. *)
Definition Classifier_forward (self : Classifier) (x : list (tensor4 A))
    (rois : Rois)
  : option (list (list A) * list (list A) * list (list (list A))) :=
  x ← pyramid_roi_align rois x (pool_size self) (image_shape self);
  x ← numeric (cls_conv1 self) x;
  x ← numeric (cls_bn1 self) x;
  x ← numeric (cls_relu self) x;
  x ← numeric (cls_conv2 self) x;
  x ← numeric (cls_bn2 self) x;
  x ← numeric (cls_relu self) x;
  x ← view2 x 1024;
  mrcnn_class_logits ← linear (linear_class self) x;
  mrcnn_probs ← call_softmax2 (cls_softmax self) mrcnn_class_logits;
  mrcnn_bbox ← linear (linear_bbox self) x;
  mrcnn_bbox ← view3_rows mrcnn_bbox (Z.of_nat (length mrcnn_bbox)) 4;
  Some (mrcnn_class_logits, mrcnn_probs, mrcnn_bbox).
End ClassifierExecution.

(** ** Loss composition *)

Section Loss.
(** [T]: tensors; [S]: scalar losses with their addition and the integer
    [0] that Python's [sum] starts from. *)
Context {T S : Type} (add : S → S → S) (zero : S).

(** The five loss functions are called, not defined, by this file. *)
Context (compute_rpn_class_loss : T → T → S)
        (compute_rpn_bbox_loss : T → T → T → S)
        (compute_mrcnn_class_loss : T → T → S)
        (compute_mrcnn_bbox_loss : T → T → T → S)
        (compute_mrcnn_mask_loss : T → T → T → S).

(** Python's built-in [sum]. *)
Definition sum (outputs : list S) : S := foldl add zero outputs.

(** [compute_loss]; indexing [inputs] out of range raises. *)
Definition compute_loss (target_rpn_match target_rpn_bbox : T)
    (inputs : list T) : option (S * list S) :=
  rpn_class_logits ← inputs !! 0%nat;
  rpn_pred_bbox ← inputs !! 1%nat;
  target_class_ids ← inputs !! 2%nat;
  mrcnn_class_logits ← inputs !! 3%nat;
  target_deltas ← inputs !! 4%nat;
  mrcnn_bbox ← inputs !! 5%nat;
  target_mask ← inputs !! 6%nat;
  mrcnn_mask ← inputs !! 7%nat;
  let rpn_class_loss :=
    compute_rpn_class_loss target_rpn_match rpn_class_logits in
  let rpn_bbox_loss :=
    compute_rpn_bbox_loss target_rpn_bbox target_rpn_match rpn_pred_bbox in
  let mrcnn_class_loss :=
    compute_mrcnn_class_loss target_class_ids mrcnn_class_logits in
  let mrcnn_bbox_loss :=
    compute_mrcnn_bbox_loss target_deltas target_class_ids mrcnn_bbox in
  let mrcnn_mask_loss :=
    compute_mrcnn_mask_loss target_mask target_class_ids mrcnn_mask in
  let outputs := [rpn_class_loss; rpn_bbox_loss; mrcnn_class_loss;
                  mrcnn_bbox_loss; mrcnn_mask_loss] in
  Some (sum outputs, outputs).
End Loss.

(** ** The five loss terms *)

(** The precomputed anchor-match target of one anchor. *)
Inductive anchor_match := Foreground | Background | Neutral.

Section LossTerms.
(** Scalars with the mean of a non-empty list of per-target penalties; the
    penalties themselves (cross-entropy, smooth-L1, binary cross-entropy)
    are floating-point functions and stay parameters. *)
Context {S Logits Box Mask : Type} (zero : S) (mean : list S → S).
Context (cross_entropy : Logits → Z → S)
        (smooth_l1 : Box → Box → S)
        (binary_cross_entropy : Mask → Mask → S).

(** Modelled from the spec: the reduction shared by the five loss functions,
    which this file calls but does not define.  A loss averages the
    penalties of its target set and contributes zero when that set is
    empty. *)
Definition loss_over (penalties : list S) : S :=
  match penalties with
  | [] => zero
  | _ => mean penalties
  end.

(** Modelled from the spec: [compute_rpn_class_loss], not defined in this
    file.  Cross-entropy over foreground/background, ignoring anchors marked
    neutral. *)
Definition rpn_class_loss (rpn_match : list anchor_match)
    (rpn_class_logits : list Logits) : S :=
  loss_over (omap (λ ml : anchor_match * Logits,
               match ml.1 with
               | Foreground => Some (cross_entropy ml.2 1)
               | Background => Some (cross_entropy ml.2 0)
               | Neutral => None
               end) (zip rpn_match rpn_class_logits)).

(** Modelled from the spec: [compute_rpn_bbox_loss], not defined in this
    file.  Smooth-L1 over positive anchors only, normalised by the positive
    count. *)
Definition rpn_bbox_loss (target_bbox : list Box)
    (rpn_match : list anchor_match) (rpn_bbox : list Box) : S :=
  loss_over (omap (λ mtp : anchor_match * (Box * Box),
               match mtp.1 with
               | Foreground => Some (smooth_l1 mtp.2.1 mtp.2.2)
               | _ => None
               end) (zip rpn_match (zip target_bbox rpn_bbox))).

(** Modelled from the spec: [compute_mrcnn_class_loss], not defined in this
    file.  Cross-entropy of every target RoI. *)
Definition mrcnn_class_loss (target_class_ids : list Z)
    (mrcnn_class_logits : list Logits) : S :=
  loss_over (zip_with (λ c l, cross_entropy l c)
               target_class_ids mrcnn_class_logits).

(** Modelled from the spec: [compute_mrcnn_bbox_loss], not defined in this
    file.  Smooth-L1, evaluated only at the ground-truth class's predicted
    box; the positive RoIs are those with a class id above the background
    id 0. *)
Definition mrcnn_bbox_loss (target_deltas : list Box)
    (target_class_ids : list Z) (mrcnn_bbox : list (list Box)) : S :=
  loss_over (omap (λ ctp : Z * (Box * list Box),
               if 0 <? ctp.1 then
                 smooth_l1 ctp.2.1 <$> lookupZ ctp.2.2 ctp.1
               else None)
               (zip target_class_ids (zip target_deltas mrcnn_bbox))).

(** Modelled from the spec: [compute_mrcnn_mask_loss], not defined in this
    file.  Binary cross-entropy at the ground-truth class channel only, over
    the positive RoIs. *)
Definition mrcnn_mask_loss (target_mask : list Mask)
    (target_class_ids : list Z) (mrcnn_mask : list (list Mask)) : S :=
  loss_over (omap (λ ctp : Z * (Mask * list Mask),
               if 0 <? ctp.1 then
                 binary_cross_entropy ctp.2.1 <$> lookupZ ctp.2.2 ctp.1
               else None)
               (zip target_class_ids (zip target_mask mrcnn_mask))).
End LossTerms.

(** ** Stated properties *)

(** The frame property of [SamePad2d]: the input survives unchanged at offset
    [(pad_top, pad_left)], every other output cell is [zero], and each
    right/bottom amount exceeds its left/top amount by at most one. *)
Definition SamePad2d_frame {A} (zero : A) (self : SamePad2d) (x : tensor4 A)
  : Prop :=
  ∃ pad_left pad_right pad_top pad_bottom y,
    SamePad2d_pads self (size2 x) (size3 x)
      = Some (pad_left, pad_right, pad_top, pad_bottom) ∧
    SamePad2d_forward zero self x = Some y ∧
    (∀ n c i j v, cell x n c i j = Some v →
                  cell y n c (pad_top + i) (pad_left + j) = Some v) ∧
    (∀ n c i j v, cell y n c i j = Some v →
                  cell x n c (i - pad_top) (j - pad_left) = None → v = zero) ∧
    (pad_right - pad_left = 0 ∨ pad_right - pad_left = 1) ∧
    (pad_bottom - pad_top = 0 ∨ pad_bottom - pad_top = 1).

Global Instance plane_shaped_dec {A} H W (p : plane A) :
  Decision (plane_shaped H W p).
Proof. unfold plane_shaped. apply _. Defined.

Global Instance shaped_dec {A} N C H W (x : tensor4 A) :
  Decision (shaped N C H W x).
Proof. unfold shaped. apply _. Defined.

(** ** Sample instances for running the modules *)

(** A runnable stand-in for the numeric layers: a 3x3 convolution keeps the
    interior of its input, every other layer is the identity. *)
Definition numeric_sample (p : prim) (x : tensor4 Z) : option (tensor4 Z) :=
  match p with
  | Conv2d _ _ 3 _ _ => F_pad 0 (-1, -1, -1, -1) x
  | _ => Some x
  end.


(** For the region proposal network: a 1x1 convolution repeats the first
    input channel [out_channels] times. *)
Definition numeric_sample_rpn (p : prim) (x : tensor4 Z)
  : option (tensor4 Z) :=
  match p with
  | Conv2d _ out_channels 1 _ _ =>
      Some (map (λ img : list (plane Z),
                   replicate (Z.to_nat out_channels) (default [] (head img))) x)
  | Conv2d _ _ 3 _ _ => F_pad 0 (-1, -1, -1, -1) x
  | _ => Some x
  end.

Definition sample_features : tensor4 Z := [[ [[1; 2]; [3; 4]] ]].

(** A stand-in for the library's softmax of a vector. *)
Definition softmax1_sample (v : list Z) : list Z := map (λ _, 1) v.

(** ** Shapes through the backbone, the pyramid and the mask head *)

(** Element-wise addition of two tensors of equal rank with PyTorch's
    broadcasting rule, dimension by dimension; an in-place addition cannot
    grow its left operand. *)
Definition add_shape (inplace : bool) (a b : list Z) : option (list Z) :=
  if bool_decide (length a = length b) then
    mapM (λ d : Z * Z,
            if d.1 =? d.2 then Some d.1
            else if d.2 =? 1 then Some d.1
            else if (d.1 =? 1) && negb inplace then Some d.2
            else None) (zip a b)
  else None.

(** [F.upsample(x, scale_factor)] on a four-dimensional tensor. *)
Definition F_upsample_shape (s : list Z) (scale_factor : Z) : option (list Z) :=
  match s with
  | [n; c; h; w] => Some [n; c; h * scale_factor; w * scale_factor]
  | _ => None
  end.

Fixpoint prims_shape (ps : list prim) (s : list Z) : option (list Z) :=
  match ps with
  | [] => Some s
  | p :: ps => s ← prim_shape p s; prims_shape ps s
  end.

(** [Bottleneck.forward] on shapes. *)
Definition Bottleneck_shape (self : Bottleneck) (x : list Z)
  : option (list Z) :=
  let residual := x in
  out ← prim_shape (conv1 self) x;
  out ← prim_shape (bn1 self) out;
  out ← prim_shape (relu self) out;
  out ← prim_shape (padding2 self) out;
  out ← prim_shape (conv2 self) out;
  out ← prim_shape (bn2 self) out;
  out ← prim_shape (relu self) out;
  out ← prim_shape (conv3 self) out;
  out ← prim_shape (bn3 self) out;
  residual ← match downsample self with
             | Some ds => prims_shape ds x
             | None => Some residual
             end;
  out ← add_shape true out residual;
  prim_shape (relu self) out.

Definition layer_shape (l : layer) (s : list Z) : option (list Z) :=
  match l with
  | Prim p => prim_shape p s
  | Block b => Bottleneck_shape b s
  end.

Fixpoint Sequential_shape (ls : Sequential) (s : list Z) : option (list Z) :=
  match ls with
  | [] => Some s
  | l :: ls => s ← layer_shape l s; Sequential_shape ls s
  end.

Definition call_shape (m : option Sequential) (s : list Z)
  : option (list Z) :=
  match m with
  | Some ls => Sequential_shape ls s
  | None => None
  end.

(** [ResNet.forward] on shapes. *)
Definition ResNet_forward_shape (self : ResNet) (x : list Z)
  : option (list Z) :=
  x ← Sequential_shape (C1 self) x;
  x ← Sequential_shape (C2 self) x;
  x ← Sequential_shape (C3 self) x;
  x ← Sequential_shape (C4 self) x;
  x ← call_shape (C5 self) x;
  Some x.

(** An [FPN] constructed from the list [resnet.stages()]: the pyramid over the five stages
    of a backbone. *)
Definition FPN_of_stages (stages : list (option Sequential))
    (out_channels : Z) : option FPN :=
  match stages with
  | [C1; C2; C3; C4; C5] => Some (FPN_init C1 C2 C3 C4 C5 out_channels)
  | _ => None
  end.

(** [FPN.forward] on shapes. *)
Definition FPN_forward_shape (self : FPN) (x : list Z)
  : option (list (list Z)) :=
  x ← call_shape (fpn_C1 self) x;
  x ← call_shape (fpn_C2 self) x;
  let c2_out := x in
  x ← call_shape (fpn_C3 self) x;
  let c3_out := x in
  x ← call_shape (fpn_C4 self) x;
  let c4_out := x in
  x ← call_shape (fpn_C5 self) x;
  p5_out ← prim_shape (P5_conv1 self) x;
  l4 ← prim_shape (P4_conv1 self) c4_out;
  u5 ← F_upsample_shape p5_out 2;
  p4_out ← add_shape false l4 u5;
  l3 ← prim_shape (P3_conv1 self) c3_out;
  u4 ← F_upsample_shape p4_out 2;
  p3_out ← add_shape false l3 u4;
  l2 ← prim_shape (P2_conv1 self) c2_out;
  u3 ← F_upsample_shape p3_out 2;
  p2_out ← add_shape false l2 u3;
  p5_out ← prims_shape (P5_conv2 self) p5_out;
  p4_out ← prims_shape (P4_conv2 self) p4_out;
  p3_out ← prims_shape (P3_conv2 self) p3_out;
  p2_out ← prims_shape (P2_conv2 self) p2_out;
  p6_out ← prim_shape (P6 self) p5_out;
  Some [p2_out; p3_out; p4_out; p5_out; p6_out].

(** ** class Mask *)

(** The layers of the mask head: those of [prim], a transposed convolution
    and the sigmoid. *)
Inductive mask_layer :=
  | MaskPrim (p : prim)
  | ConvTranspose2d (in_channels out_channels kernel stride : Z)
  | Sigmoid.

(** PyTorch's output size of a transposed convolution without padding:
    [(n - 1) * stride + kernel]. *)
Definition mask_layer_shape (l : mask_layer) (s : list Z) : option (list Z) :=
  match l with
  | MaskPrim p => prim_shape p s
  | ConvTranspose2d cin cout k st =>
      match s with
      | [n; c; h; w] =>
          if (c =? cin) && (0 <? h) && (0 <? w) && (0 <? st) then
            Some [n; cout; (h - 1) * st + k; (w - 1) * st + k]
          else None
      | _ => None
      end
  | Sigmoid => Some s
  end.

Record Mask := {
  mask_depth : Z;
  mask_pool_size : Z;
  mask_image_shape : list Z;
  mask_num_classes : Z;
  mask_padding : mask_layer;
  mask_conv1 : mask_layer; mask_bn1 : mask_layer;
  mask_conv2 : mask_layer; mask_bn2 : mask_layer;
  mask_conv3 : mask_layer; mask_bn3 : mask_layer;
  mask_conv4 : mask_layer; mask_bn4 : mask_layer;
  deconv : mask_layer;
  conv5 : mask_layer;
  sigmoid : mask_layer;
  mask_relu : mask_layer }.

Definition Mask_init (depth pool_size : Z) (image_shape : list Z)
    (num_classes : Z) : Mask :=
  {| mask_depth := depth;
     mask_pool_size := pool_size;
     mask_image_shape := image_shape;
     mask_num_classes := num_classes;
     mask_padding := MaskPrim (SamePad (SamePad2d_init 3 1));
     mask_conv1 := MaskPrim (Conv2d depth 256 3 1 0);
     mask_bn1 := MaskPrim (BatchNorm2d 256);
     mask_conv2 := MaskPrim (Conv2d 256 256 3 1 0);
     mask_bn2 := MaskPrim (BatchNorm2d 256);
     mask_conv3 := MaskPrim (Conv2d 256 256 3 1 0);
     mask_bn3 := MaskPrim (BatchNorm2d 256);
     mask_conv4 := MaskPrim (Conv2d 256 256 3 1 0);
     mask_bn4 := MaskPrim (BatchNorm2d 256);
     deconv := ConvTranspose2d 256 256 2 2;
     conv5 := MaskPrim (Conv2d 256 num_classes 1 1 0);
     sigmoid := Sigmoid;
     mask_relu := MaskPrim ReLU |}.

(** [Mask.forward] on shapes: the shape of [x] after its last statement
    (the listing ends with the sigmoid). *)
Definition Mask_forward (self : Mask) (num_rois channels : Z)
  : option (list Z) :=
  let x := pyramid_roi_align_shape num_rois channels (mask_pool_size self) in
  x ← mask_layer_shape (mask_padding self) x;
  x ← mask_layer_shape (mask_conv1 self) x;
  x ← mask_layer_shape (mask_bn1 self) x;
  x ← mask_layer_shape (mask_relu self) x;
  x ← mask_layer_shape (mask_padding self) x;
  x ← mask_layer_shape (mask_conv2 self) x;
  x ← mask_layer_shape (mask_bn2 self) x;
  x ← mask_layer_shape (mask_relu self) x;
  x ← mask_layer_shape (mask_padding self) x;
  x ← mask_layer_shape (mask_conv3 self) x;
  x ← mask_layer_shape (mask_bn3 self) x;
  x ← mask_layer_shape (mask_relu self) x;
  x ← mask_layer_shape (mask_padding self) x;
  x ← mask_layer_shape (mask_conv4 self) x;
  x ← mask_layer_shape (mask_bn4 self) x;
  x ← mask_layer_shape (mask_relu self) x;
  x ← mask_layer_shape (deconv self) x;
  x ← mask_layer_shape (mask_relu self) x;
  x ← mask_layer_shape (conv5 self) x;
  mask_layer_shape (sigmoid self) x.

(** ** Python exceptions and integer helpers of the training and test loops *)

Inductive exn :=
  | ZeroDivisionError
  | StopIteration
  | IndexError
  | AssertionError
  | ValueError.

Inductive result (A : Type) :=
  | Ok (a : A)
  | Raise (e : exn).
Arguments Ok {A} a.
Arguments Raise {A} e.

Global Instance result_ret : MRet result := λ A a, Ok a.
Global Instance result_bind : MBind result := λ A B f m,
  match m with
  | Ok a => f a
  | Raise e => Raise e
  end.

(** [a % b] *)
Definition py_mod (a b : Z) : result Z :=
  if b =? 0 then Raise ZeroDivisionError else Ok (a mod b).

(** [math.ceil(a / b)] and [math.floor(a / b)] on integers. *)
Definition py_ceil_div (a b : Z) : result Z :=
  if b =? 0 then Raise ZeroDivisionError else Ok (- ((- a) / b)).

Definition py_floor_div (a b : Z) : result Z :=
  if b =? 0 then Raise ZeroDivisionError else Ok (a / b).

(** [l[i]], with Python's negative indices. *)
Definition py_index {A} (l : list A) (i : Z) : result A :=
  let len := Z.of_nat (length l) in
  let j := if i <? 0 then i + len else i in
  match lookupZ l j with
  | Some a => Ok a
  | None => Raise IndexError
  end.

(** [l[a:b]] *)
Definition py_slice {A} (l : list A) (a b : Z) : list A :=
  let len := Z.of_nat (length l) in
  let norm i := if i <? 0 then Z.max (i + len) 0 else Z.min i len in
  take (Z.to_nat (norm b - norm a)) (drop (Z.to_nat (norm a)) l).

(** [range(a, b)] *)
Definition range (a b : Z) : list Z := seqZ a (b - a).

(** The fields of [model.config] the loops read. *)
Record Config := {
  BATCH_SIZE : Z;
  GPU_COUNT : Z;
  SAVE_TIME_WITHIN_EPOCH : Z;
  SHOW_INTERVAL : Z }.

(** ** [train_epoch_new] and [train_epoch] *)

Section Training.
(** [P]: the parameters of the model together with the state of the
    optimizer; [G]: the gradient buffers; [S]: loss values. *)
Context {P G Batch S : Type}.

(** What the excluded collaborators compute: the loss of a batch (forward
    pass and [compute_loss]), the gradient [loss.backward()] adds to the
    buffers, [optimizer.zero_grad()], [clip_grad_norm] and
    [optimizer.step()]. *)
Context (loss_of : P → Batch → S) (grad_of : P → Batch → G).
Context (gzero : G) (gadd : G → G → G) (clip_grad_norm : G → G).
Context (optimizer_step : P → G → P).

(** [loss_sum] starts from the integer [0]; [s / n] for a non-zero [n]. *)
Context (szero : S) (sadd : S → S → S) (sdiv : S → Z → S).

(** What a call leaves behind: parameters, gradient buffers, the
    iterations logged by [print_log] and the checkpoints written by
    [torch.save] (iteration and parameters). *)
Record World := {
  params : P;
  grads : G;
  shown : list Z;
  saved : list (Z * P) }.

Definition set_params (p : P) (w : World) : World :=
  {| params := p; grads := grads w; shown := shown w; saved := saved w |}.
Definition set_grads (g : G) (w : World) : World :=
  {| params := params w; grads := g; shown := shown w; saved := saved w |}.
Definition print_log (i : Z) (w : World) : World :=
  {| params := params w; grads := grads w; shown := shown w ++ [i];
     saved := saved w |}.
Definition torch_save (i : Z) (w : World) : World :=
  {| params := params w; grads := grads w; shown := shown w;
     saved := saved w ++ [(i, params w)] |}.

Definition zero_grad (w : World) : World := set_grads gzero w.
Definition backward (inputs : Batch) (w : World) : World :=
  set_grads (gadd (grads w) (grad_of (params w) inputs)) w.
Definition clip (w : World) : World := set_grads (clip_grad_norm (grads w)) w.
Definition step_optimizer (w : World) : World :=
  set_params (optimizer_step (params w) (grads w)) w.

(** The body of the [for] loop of [train_epoch_new], over the remaining
    iteration numbers and the remaining batches of [data_iterator]. *)
Fixpoint train_epoch_new_loop (config : Config)
    (start_iter iter_per_epoch save_iter_base : Z)
    (iters : list Z) (data_iterator : list Batch)
    (w : World) (loss_sum : S) : World * result S :=
  match iters with
  | [] => (w, Ok loss_sum)
  | iter_ind :: iters =>
      match data_iterator with
      | [] => (w, Raise StopIteration)
      | inputs :: data_iterator =>
          let loss := loss_of (params w) inputs in
          let w := zero_grad w in
          let w := backward inputs w in
          let w := clip w in
          let w := step_optimizer w in
          match py_mod iter_ind (SHOW_INTERVAL config) with
          | Raise e => (w, Raise e)
          | Ok m =>
              let w := if (m =? 0) || (iter_ind =? start_iter)
                       then print_log iter_ind w else w in
              if iter_per_epoch =? 0 then (w, Raise ZeroDivisionError)
              else
                let loss_sum := sadd loss_sum (sdiv loss iter_per_epoch) in
                match py_mod iter_ind save_iter_base with
                | Raise e => (w, Raise e)
                | Ok m =>
                    let w := if m =? 0 then torch_save iter_ind w else w in
                    train_epoch_new_loop config start_iter iter_per_epoch
                      save_iter_base iters data_iterator w loss_sum
                end
          end
      end
  end.

(** [train_epoch_new(input_model, data_loader, optimizer,
    start_iter=...)] *)
Definition train_epoch_new (config : Config) (data_loader : list Batch)
    (start_iter : Z) (w : World) : World * result S :=
  let loss_sum := szero in
  let data_iterator := data_loader in
  match py_ceil_div (Z.of_nat (length data_loader)) (BATCH_SIZE config) with
  | Raise e => (w, Raise e)
  | Ok iter_per_epoch =>
      match py_floor_div iter_per_epoch (SAVE_TIME_WITHIN_EPOCH config) with
      | Raise e => (w, Raise e)
      | Ok save_iter_base =>
          train_epoch_new_loop config start_iter iter_per_epoch
            save_iter_base (range start_iter (iter_per_epoch + 1))
            data_iterator w loss_sum
      end
  end.

(** The [for] loop of [train_epoch] over the batches the generator still
    yields. *)
Fixpoint train_epoch_loop (config : Config) (steps : Z)
    (datagenerator : list Batch) (w : World)
    (batch_count : Z) (loss_sum : S) (step : Z) : World * result S :=
  match datagenerator with
  | [] => (w, Ok loss_sum)
  | inputs :: datagenerator =>
      let batch_count := batch_count + 1 in
      let loss := loss_of (params w) inputs in
      match py_mod batch_count (BATCH_SIZE config) with
      | Raise e => (w, Raise e)
      | Ok m =>
          let w := if m =? 0 then zero_grad w else w in
          let w := backward inputs w in
          let w := clip w in
          let w := if m =? 0 then step_optimizer w else w in
          let batch_count := if m =? 0 then 0 else batch_count in
          match py_mod step (SHOW_INTERVAL config) with
          | Raise e => (w, Raise e)
          | Ok ms =>
              let w := if ms =? 0 then print_log step w else w in
              if steps =? 0 then (w, Raise ZeroDivisionError)
              else
                let loss_sum := sadd loss_sum (sdiv loss steps) in
                if step =? steps - 1 then (w, Ok loss_sum)
                else train_epoch_loop config steps datagenerator w
                       batch_count loss_sum (step + 1)
          end
      end
  end.

(** [train_epoch(model, datagenerator, optimizer, steps, ...)] *)
Definition train_epoch (config : Config) (datagenerator : list Batch)
    (steps : Z) (w : World) : World * result S :=
  train_epoch_loop config steps datagenerator w 0 szero 0.
End Training.

(** ** Reference behaviour of the training loops *)

Section TrainingReference.
Context {P G Batch : Type}.
Context (grad_of : P → Batch → G).
Context (gzero : G) (gadd : G → G → G) (clip_grad_norm : G → G).
Context (optimizer_step : P → G → P).

(** One update from the clipped gradient of a single batch. *)
Definition sgd_update (p : P) (b : Batch) : P :=
  optimizer_step p (clip_grad_norm (gadd gzero (grad_of p b))).

(** An update at every batch. *)
Definition sgd (p : P) (batches : list Batch) : P := foldl sgd_update p batches.

(** An update at every [n]-th batch only, counting from [count]. *)
Fixpoint sgd_every (n : Z) (p : P) (count : Z) (batches : list Batch) : P :=
  match batches with
  | [] => p
  | b :: batches =>
      if (count + 1) mod n =? 0 then sgd_every n (sgd_update p b) 0 batches
      else sgd_every n p (count + 1) batches
  end.
End TrainingReference.

(** ** A toy instance of the training loops *)

(** Parameters, gradients, batches and losses are
    integers, the gradient of a batch is the batch, an update adds the
    gradient. *)
Definition toy_world : World (P:=Z) (G:=Z) :=
  {| params := 100; grads := 7; shown := []; saved := [] |}.
Definition toy_config (batch_size save_time : Z) : Config :=
  {| BATCH_SIZE := batch_size; GPU_COUNT := 1;
     SAVE_TIME_WITHIN_EPOCH := save_time; SHOW_INTERVAL := 3 |}.
Definition toy_loss (p b : Z) : Z := p * b.
Definition toy_grad (p b : Z) : Z := b.
Definition toy_clip (g : Z) : Z := g.
Definition toy_train_epoch_new :=
  train_epoch_new toy_loss toy_grad 0 Z.add toy_clip Z.add 0 Z.add Z.div.
Definition toy_train_epoch :=
  train_epoch toy_loss toy_grad 0 Z.add toy_clip Z.add 0 Z.add Z.div.
Definition toy_sgd := sgd toy_grad 0 Z.add toy_clip Z.add.
Definition toy_sgd_every := sgd_every toy_grad 0 Z.add toy_clip Z.add.

(** ** [test_model] and [_mold_inputs] *)

Section Testing.
(** [D]: one entry of the detection results, without its ["image_id"]. *)
Context {D : Type}.

(** The dataset: [dataset.image_info[ind]["id"]] and [dataset.image_ids]. *)
Context (image_info : list Z) (dataset_image_ids : list Z).

(** What the excluded collaborators leave for image [i] of a batch: the
    network applied to the molded batch, [_unmold_detections] and the result
    entries built from its detections (none where it returns [None]). *)
Context (detections_of : list Z → nat → list D).

(** [_mold_inputs]: one image per id; [np.stack] rejects an empty list.
    An image is identified with the id it was loaded from. *)
Definition _mold_inputs (image_ids : list Z) : result (list Z) :=
  match image_ids with
  | [] => Raise ValueError
  | _ => Ok image_ids
  end.

(** [image_ids or dataset.image_ids], then [image_ids[:limit]] for a
    positive [limit]. *)
Definition test_image_ids (limit : Z) (image_ids : option (list Z)) : list Z :=
  let image_ids :=
    match image_ids with
    | Some (id :: ids) => id :: ids
    | _ => dataset_image_ids
    end in
  if 0 <? limit then py_slice image_ids 0 limit else image_ids.

(** [for i, image in enumerate(images)]: the result entries of the images
    of one batch, from position [i] on. *)
Fixpoint test_model_images (coco_image_ids curr_image_ids : list Z) (i : nat)
    (images : list Z) (results : list (Z * D)) : result (list (Z * D)) :=
  match images with
  | [] => Ok results
  | image :: images =>
      id ← py_index curr_image_ids (Z.of_nat i);
      curr_coco_id ← py_index coco_image_ids id;
      let results :=
        results ++ map (pair curr_coco_id) (detections_of curr_image_ids i) in
      test_model_images coco_image_ids curr_image_ids (Datatypes.S i) images
        results
  end.

(** [for iter_ind in range(total_iter)] *)
Fixpoint test_model_loop (config : Config) (image_ids coco_image_ids : list Z)
    (iters : list Z) (results : list (Z * D)) (cnt : Z)
    : result (list (Z * D) * Z) :=
  match iters with
  | [] => Ok (results, cnt)
  | iter_ind :: iters =>
      let num_test_im := Z.of_nat (length image_ids) in
      let curr_image_ids :=
        py_slice image_ids (iter_ind * BATCH_SIZE config)
          (Z.min (iter_ind * BATCH_SIZE config + BATCH_SIZE config)
             num_test_im) in
      images ← _mold_inputs curr_image_ids;
      results ←
        test_model_images coco_image_ids curr_image_ids 0 images results;
      let cnt := cnt + Z.of_nat (length curr_image_ids) in
      _ ← py_mod iter_ind (SHOW_INTERVAL config * 10);
      test_model_loop config image_ids coco_image_ids iters results cnt
  end.

(** [test_model(input_model, valset, coco_api, limit, image_ids)], up to
    the results it hands to [torch.save]. *)
Definition test_model (config : Config) (limit : Z)
    (image_ids : option (list Z)) : result (list (Z * D)) :=
  let image_ids := test_image_ids limit image_ids in
  let num_test_im := Z.of_nat (length image_ids) in
  m ← py_mod num_test_im (BATCH_SIZE config);
  m ← py_mod m (GPU_COUNT config);
  if negb (m =? 0) then Raise AssertionError
  else
    coco_image_ids ← mapM (py_index image_info) image_ids;
    total_iter ← py_ceil_div num_test_im (BATCH_SIZE config);
    '(results, cnt) ←
      test_model_loop config image_ids coco_image_ids (range 0 total_iter)
        [] 0;
    (* t_prediction / len(image_ids) *)
    if num_test_im =? 0 then Raise ZeroDivisionError else Ok results.
End Testing.

(** The id [test_model] writes into the results of image [id]:
    [coco_image_ids[id]], where [coco_image_ids[k]] is the id of the [k]-th
    evaluated image. *)
Definition curr_coco_id_of (image_info image_ids : list Z) (id : Z) : Z :=
  default 0 (ind ← lookupZ image_ids id; lookupZ image_info ind).

Definition toy_detections (curr_image_ids : list Z) (i : nat) : list Z :=
  match curr_image_ids !! i with
  | Some id => [10 * id; 10 * id + 1]
  | None => []
  end.

Definition toy_det (id : Z) : list Z := [10 * id; 10 * id + 1].

(** ** [RPN.forward] on shapes *)

(** [x.permute(dims)] on [x.size()]: [dims] must name every dimension
    once. *)
Definition permute_shape (dims : list nat) (s : list Z) : option (list Z) :=
  if bool_decide (length dims = length s ∧ NoDup dims)
  then mapM (λ d, s !! d) dims
  else None.

(** The shapes of [[rpn_class_logits, rpn_probs, rpn_bbox]]. *)
Definition RPN_forward_shape (self : RPN) (x : list Z)
  : option (list (list Z)) :=
  x ← prim_shape (rpn_padding self) x;
  x ← prim_shape (conv_shared self) x;
  x ← prim_shape (rpn_relu self) x;
  rpn_class_logits ← prim_shape (conv_class self) x;
  rpn_class_logits ← permute_shape [0; 2; 3; 1]%nat rpn_class_logits;
  d0 ← x !! 0%nat;
  rpn_class_logits ← view_shape [d0; -1; 2] rpn_class_logits;
  rpn_probs ← prim_shape (rpn_softmax self) rpn_class_logits;
  rpn_bbox ← prim_shape (conv_bbox self) x;
  rpn_bbox ← permute_shape [0; 2; 3; 1]%nat rpn_bbox;
  rpn_bbox ← view_shape [d0; -1; 4] rpn_bbox;
  Some [rpn_class_logits; rpn_probs; rpn_bbox].





(** For the classification head: two RoIs pooled to [pool_size] cells a
    side, convolutions that return ones in one cell per output channel, and
    a linear layer whose rows count their entries. *)
Definition roi_align_sample (rois : unit) (x : list (tensor4 Z))
    (pool_size : Z) (image_shape : list Z) : option (tensor4 Z) :=
  Some (full 2 256 (Z.to_nat pool_size) (Z.to_nat pool_size) 0).

Definition numeric_sample_head (p : prim) (x : tensor4 Z)
  : option (tensor4 Z) :=
  match p with
  | Conv2d _ out_channels _ _ _ =>
      Some (full (length x) (Z.to_nat out_channels) 1 1 1)
  | _ => Some x
  end.

Definition linear_sample (p : prim) (m : list (list Z))
  : option (list (list Z)) :=
  match p with
  | Linear _ out_features => Some (map (λ _, seqZ 0 out_features) m)
  | _ => None
  end.

(** * Theorems *)

(** ** Option-monad bookkeeping *)

Lemma bind_Some_inv {X Y} (m : option X) (f : X → option Y) y :
  m ≫= f = Some y → ∃ x, m = Some x ∧ f x = Some y.
Proof. destruct m as [x|]; simpl; [eauto | discriminate]. Qed.



(** ** SamePad2d *)

Lemma pad1_length {B} (z : B) lo hi (xs ys : list B) :
  pad1 z lo hi xs = Some ys →
  Z.of_nat (length ys) = Z.of_nat (length xs) + lo + hi.
Proof.
  unfold pad1. case_match eqn:Hlt; [discriminate|].
  apply Z.ltb_ge in Hlt. intros [= <-].
  rewrite !length_app, !length_replicate, length_drop, length_take. lia.
Qed.

Lemma pad1_nonneg {B} (z : B) lo hi (xs : list B) :
  0 <= lo → 0 <= hi →
  pad1 z lo hi xs
  = Some (replicate (Z.to_nat lo) z ++ xs ++ replicate (Z.to_nat hi) z).
Proof.
  intros Hlo Hhi. unfold pad1.
  replace (_ <? 0) with false by (symmetry; apply Z.ltb_ge; lia).
  replace (Z.to_nat (- lo)) with 0%nat by lia.
  by rewrite drop_0, take_ge by lia.
Qed.






Lemma mapM_total {X Y} (f : X → option Y) (g : X → Y) (l : list X) :
  (∀ x, f x = Some (g x)) → mapM f l = Some (map g l).
Proof.
  intros Hf. apply mapM_Some. induction l; constructor; auto.
Qed.

Section PadPlane.
Context {A : Type} (zero : A).
Context (pad_left pad_right pad_top pad_bottom : Z).
Context (Hl : 0 <= pad_left) (Hr : 0 <= pad_right)
        (Ht : 0 <= pad_top) (Hb : 0 <= pad_bottom).

Let pad_row (r : list A) : list A :=
  replicate (Z.to_nat pad_left) zero ++ r
    ++ replicate (Z.to_nat pad_right) zero.

Lemma F_pad_plane_nonneg (p : plane A) :
  ∃ width,
    F_pad_plane zero (pad_left, pad_right, pad_top, pad_bottom) p
    = Some (replicate (Z.to_nat pad_top) (replicate width zero)
            ++ map pad_row p
            ++ replicate (Z.to_nat pad_bottom) (replicate width zero)).
Proof.
  unfold F_pad_plane.
  rewrite (mapM_total _ pad_row) by (intros r; by apply pad1_nonneg).
  cbn [mbind option_bind]. eexists. by apply pad1_nonneg.
Qed.


End PadPlane.



Lemma F_pad_nonneg_total {A} (zero : A) l r t b (x : tensor4 A) :
  0 <= l → 0 <= r → 0 <= t → 0 <= b →
  is_Some (F_pad zero (l, r, t, b) x).
Proof.
  intros. unfold F_pad. apply mapM_is_Some, Forall_forall. intros img _.
  apply mapM_is_Some, Forall_forall. intros p _.
  change (is_Some (F_pad_plane zero (l, r, t, b) p)).
  destruct (F_pad_plane_nonneg zero l r t b ltac:(done) ltac:(done)
              ltac:(done) ltac:(done) p) as [w ->]. eauto.
Qed.


(** The amounts computed for [kernel_size >= stride >= 1]. *)
Lemma SamePad2d_pads_nonneg (k s sz2 sz3 : Z) :
  1 <= s → s <= k →
  ∃ l r t b,
    SamePad2d_pads (SamePad2d_init k s) sz2 sz3 = Some (l, r, t, b) ∧
    0 <= l ∧ 0 <= t ∧
    (r - l = 0 ∨ r - l = 1) ∧ (b - t = 0 ∨ b - t = 1).
Proof.
  intros Hs Hk. unfold SamePad2d_pads, ceil_div. simpl.
  replace (s =? 0) with false by (symmetry; apply Z.eqb_neq; lia).
  cbn [mbind option_bind].
  do 4 eexists. split; [reflexivity|].
  pose proof (Z.mul_div_le (- sz2) s ltac:(lia)).
  pose proof (Z.mul_div_le (- sz3) s ltac:(lia)).
  set (pw := (- ((- sz2) / s) - 1) * s + k - sz2) in *.
  set (ph := (- ((- sz3) / s) - 1) * s + k - sz3) in *.
  assert (0 <= pw) by (unfold pw; nia).
  assert (0 <= ph) by (unfold ph; nia).
  pose proof (Z.div_mod pw 2 ltac:(lia)).
  pose proof (Z.div_mod ph 2 ltac:(lia)).
  pose proof (Z.mod_pos_bound pw 2 ltac:(lia)).
  pose proof (Z.mod_pos_bound ph 2 ltac:(lia)).
  pose proof (Z.div_pos pw 2 ltac:(lia) ltac:(lia)).
  pose proof (Z.div_pos ph 2 ltac:(lia) ltac:(lia)).
  lia.
Qed.

Lemma SamePad2d_forward_nonneg {A} (zero : A) (k s : Z) (x : tensor4 A) :
  1 <= s → s <= k →
  ∃ l r t b y,
    SamePad2d_pads (SamePad2d_init k s) (size2 x) (size3 x)
      = Some (l, r, t, b) ∧
    SamePad2d_forward zero (SamePad2d_init k s) x = Some y ∧
    0 <= l ∧ 0 <= t ∧
    (r - l = 0 ∨ r - l = 1) ∧ (b - t = 0 ∨ b - t = 1).
Proof.
  intros Hs Hk.
  destruct (SamePad2d_pads_nonneg k s (size2 x) (size3 x) Hs Hk)
    as (l & r & t & b & Hpads & Hl & Ht & Hlr & Htb).
  destruct (F_pad_nonneg_total zero l r t b x) as [y Hy]; [lia..|].
  exists l, r, t, b, y. repeat split; try done.
  unfold SamePad2d_forward. by rewrite Hpads.
Qed.


(** The split of each amount: right/bottom exceeds left/top by at most one,
    for every non-zero stride. *)
Lemma SamePad2d_pads_split (self : SamePad2d) (sz2 sz3 : Z) :
  (stride self).1 ≠ 0 → (stride self).2 ≠ 0 →
  ∃ pad_left pad_right pad_top pad_bottom,
    SamePad2d_pads self sz2 sz3
      = Some (pad_left, pad_right, pad_top, pad_bottom) ∧
    (pad_right - pad_left = 0 ∨ pad_right - pad_left = 1) ∧
    (pad_bottom - pad_top = 0 ∨ pad_bottom - pad_top = 1).
Proof.
  intros Hs1 Hs2. unfold SamePad2d_pads, ceil_div.
  replace ((stride self).1 =? 0) with false
    by (symmetry; by apply Z.eqb_neq).
  replace ((stride self).2 =? 0) with false
    by (symmetry; by apply Z.eqb_neq).
  cbn [mbind option_bind].
  do 4 eexists. split; [reflexivity|].
  split.
  - match goal with
    | |- context [?p - ?p / 2 - ?p / 2] =>
        pose proof (Z.div_mod p 2 ltac:(lia));
        pose proof (Z.mod_pos_bound p 2 ltac:(lia))
    end.
    lia.
  - match goal with
    | |- context [?p - ?p / 2 - ?p / 2] =>
        pose proof (Z.div_mod p 2 ltac:(lia));
        pose proof (Z.mod_pos_bound p 2 ltac:(lia))
    end.
    lia.
Qed.

(** C10: the claim fails where the stride exceeds the kernel size, as for
    an RPN with [anchor_stride = 4]: on a 4x4 input the computed amounts
    are [(-1, 0, -1, 0)], and [F.pad] with a negative amount removes the
    first row and the first column of the input instead of adding zeros. *)
Theorem SamePad2d_crops_input :
  let x : tensor4 Z :=
    [[ [[1; 2; 3; 4]; [5; 6; 7; 8]; [9; 10; 11; 12]; [13; 14; 15; 16]] ]] in
  SamePad2d_pads (SamePad2d_init 3 4) (size2 x) (size3 x)
    = Some (-1, 0, -1, 0) ∧
  SamePad2d_forward 0 (SamePad2d_init 3 4) x
    = Some [[ [[6; 7; 8]; [10; 11; 12]; [14; 15; 16]] ]] ∧
  ¬ SamePad2d_frame 0 (SamePad2d_init 3 4) x.
Proof.
  intros x. split; [reflexivity|]. split; [reflexivity|].
  intros (l & r & t & b & y & Hpads & Hy & Hin & _).
  vm_compute in Hpads. injection Hpads as <- <- <- <-.
  vm_compute in Hy. injection Hy as <-.
  specialize (Hin 0%nat 0%nat 0 0 1 eq_refl).
  vm_compute in Hin. discriminate.
Qed.

(** *** Sizes after padding *)

Lemma shaped_sizes {A} (N C H W : nat) (x : tensor4 A) :
  shaped N C H W x → (0 < N)%nat → (0 < C)%nat → (0 < H)%nat →
  size2 x = Z.of_nat H ∧ size3 x = Z.of_nat W.
Proof.
  intros [HN Hx] ???.
  destruct x as [|img x]; [simpl in HN; lia|].
  apply Forall_cons in Hx as [[HC Himg] _].
  destruct img as [|p img]; [simpl in HC; lia|].
  apply Forall_cons in Himg as [[Hp Hrows] _].
  destruct p as [|r p]; [simpl in Hp; lia|].
  apply Forall_cons in Hrows as [Hr _].
  split; [by rewrite <- Hp | by rewrite <- Hr].
Qed.

Lemma F_pad_plane_shape {A} (zero : A) l r t b (p q : plane A) (H W : nat) :
  plane_shaped H W p → (0 < H)%nat →
  F_pad_plane zero (l, r, t, b) p = Some q →
  Z.of_nat (length q) = Z.of_nat H + t + b ∧
  Forall (λ row, Z.of_nat (length row) = Z.of_nat W + l + r) q.
Proof.
  intros [HH HW] Hpos. unfold F_pad_plane. intros Hq.
  apply bind_Some_inv in Hq as (rows & Hrows & Hq).
  apply mapM_Some in Hrows.
  assert (Forall (λ row, Z.of_nat (length row) = Z.of_nat W + l + r) rows)
    as Hlens.
  { apply Forall_lookup. intros i row Hrow.
    destruct (Forall2_lookup_r _ _ _ _ _ Hrows Hrow) as (r0 & Hr0 & Hpad).
    apply pad1_length in Hpad. rewrite Forall_lookup in HW.
    by rewrite Hpad, (HW _ _ Hr0). }
  assert (length rows = H) as HlenR.
  { by rewrite <- (Forall2_length _ _ _ Hrows). }
  split.
  - apply pad1_length in Hq. by rewrite Hq, HlenR.
  - destruct rows as [|row0 rows]; [simpl in HlenR; lia|].
    pose proof (Forall_inv Hlens) as Hrow0. simpl in Hrow0.
    unfold pad1 in Hq. case_match; [done|]. injection Hq as <-.
    repeat apply Forall_app_2.
    + apply Forall_replicate. by rewrite length_replicate.
    + by apply Forall_drop, Forall_take.
    + apply Forall_replicate. by rewrite length_replicate.
Qed.

(** The padded sizes: the rows grow by the amounts computed from the column
    count, the columns by those computed from the row count. *)
Lemma SamePad2d_forward_size {A} (zero : A) self (x y : tensor4 A)
    (N C H W : nat) l r t b :
  shaped N C H W x → (0 < N)%nat → (0 < C)%nat → (0 < H)%nat →
  SamePad2d_pads self (Z.of_nat H) (Z.of_nat W) = Some (l, r, t, b) →
  SamePad2d_forward zero self x = Some y →
  0 < Z.of_nat H + t + b →
  size2 y = Z.of_nat H + t + b ∧ size3 y = Z.of_nat W + l + r.
Proof.
  intros Hx HN HC HH Hpads Hy Hrows.
  destruct (shaped_sizes _ _ _ _ _ Hx HN HC HH) as [Hs2 Hs3].
  unfold SamePad2d_forward in Hy. rewrite Hs2, Hs3, Hpads in Hy.
  cbn [mbind option_bind] in Hy.
  destruct Hx as [HlenN Himgs].
  destruct x as [|img x]; [simpl in HlenN; lia|].
  apply Forall_cons in Himgs as [[HlenC Hplanes] _].
  destruct img as [|p img]; [simpl in HlenC; lia|].
  apply Forall_cons in Hplanes as [Hp _].
  unfold F_pad in Hy. apply mapM_Some in Hy.
  apply Forall2_cons_inv_l in Hy as (img' & y' & Himg' & _ & ->).
  apply mapM_Some in Himg'.
  apply Forall2_cons_inv_l in Himg' as (q & img'' & Hq & _ & ->).
  destruct (F_pad_plane_shape zero l r t b p q H W Hp HH Hq) as [Hlen Hall].
  simpl. split; [done|].
  destruct q as [|row q]; [simpl in Hlen; lia|].
  by apply Forall_inv in Hall.
Qed.

Lemma ceil_div_pos (n s : Z) :
  0 < n → 0 < s →
  ∃ c, ceil_div n s = Some c ∧ 1 <= c ∧ n <= c * s ∧ (c - 1) * s < n.
Proof.
  intros Hn Hs. unfold ceil_div.
  replace (s =? 0) with false by (symmetry; apply Z.eqb_neq; lia).
  eexists. split; [reflexivity|].
  pose proof (Z.div_mod (- n) s ltac:(lia)).
  pose proof (Z.mod_pos_bound (- n) s Hs).
  nia.
Qed.

(** On square inputs the amounts of both dimensions agree, and the claimed
    size is reached. *)
Lemma samepad_conv_size_square {A} (zero : A) (k s : Z) (x : tensor4 A)
    (N C H : nat) :
  shaped N C H H x → (0 < N)%nat → (0 < C)%nat → (0 < H)%nat →
  1 <= s → s <= k →
  ∃ c, ceil_div (Z.of_nat H) s = Some c ∧
       samepad_conv_size zero k s x = Some (c, c).
Proof.
  intros Hx HN HC HH Hs Hk.
  destruct (ceil_div_pos (Z.of_nat H) s ltac:(lia) ltac:(lia))
    as (c & Hc & Hc1 & Hup & Hlow).
  exists c. split; [done|].
  destruct (SamePad2d_forward_nonneg zero k s x Hs Hk)
    as (l & r & t & b & y & Hpads & Hy & Hl & Ht & Hlr & Htb).
  destruct (shaped_sizes _ _ _ _ _ Hx HN HC HH) as [Hs2 Hs3].
  rewrite Hs2, Hs3 in Hpads.
  assert (l + r = (c - 1) * s + k - Z.of_nat H ∧
          t + b = (c - 1) * s + k - Z.of_nat H) as [Hlr' Htb'].
  { unfold SamePad2d_pads in Hpads. cbn [SamePad2d_init stride kernel_size
      _pair fst snd] in Hpads. rewrite Hc in Hpads.
    cbn [mbind option_bind] in Hpads. injection Hpads as <- <- <- <-. lia. }
  destruct (SamePad2d_forward_size zero (SamePad2d_init k s) x y N C H H
              l r t b)
    as [Hy2 Hy3]; [done..|lia|].
  unfold samepad_conv_size. rewrite Hy. cbn [mbind option_bind].
  rewrite Hy2, Hy3.
  replace (Z.of_nat H + t + b) with ((c - 1) * s + k) by lia.
  replace (Z.of_nat H + l + r) with ((c - 1) * s + k) by lia.
  unfold conv_out_size.
  replace ((c - 1) * s + k <? k) with false by (symmetry; apply Z.ltb_ge; nia).
  replace (s <=? 0) with false by (symmetry; apply Z.leb_gt; lia).
  cbn [orb mbind option_bind].
  replace ((c - 1) * s + k - k) with ((c - 1) * s) by lia.
  rewrite Z.div_mul by lia.
  by replace (c - 1 + 1) with c by lia.
Qed.

(** C1: on a 4x5 input, [SamePad2d(3, 2)] followed by a convolution with
    kernel 3 and stride 2 yields a 2x2 map, whereas [ceil(4/2)] by
    [ceil(5/2)] is 2x3: the amounts computed from one spatial dimension are
    applied to the other. *)
Theorem SamePad2d_nonsquare_size :
  SamePad2d_pads (SamePad2d_init 3 2) 4 5 = Some (0, 1, 1, 1) ∧
  (size2 <$> SamePad2d_forward 0 (SamePad2d_init 3 2) (full 1 1 4 5 0),
   size3 <$> SamePad2d_forward 0 (SamePad2d_init 3 2) (full 1 1 4 5 0))
    = (Some 6, Some 6) ∧
  samepad_conv_size 0 3 2 (full 1 1 4 5 0) = Some (2, 2) ∧
  (ceil_div 4 2, ceil_div 5 2) = (Some 2, Some 3).
Proof. repeat split; vm_compute; reflexivity. Qed.

(** ** ResNet *)

Lemma architecture_cases (architecture : string) :
  architecture ∈ architectures ↔
  architecture = "resnet50"%string ∨ architecture = "resnet101"%string.
Proof.
  unfold architectures. rewrite !elem_of_cons, elem_of_nil. tauto.
Qed.

(** C4: construction raises exactly for the names other than "resnet50" and
    "resnet101"; for these two names it succeeds, with 6 respectively 23
    blocks in the stage [C4] (the third entry of [layers]). *)
Theorem ResNet_init_architecture (stage5 : bool) :
  (∀ architecture,
     ResNet_init architecture stage5 = None ↔
     architecture ≠ "resnet50"%string ∧ architecture ≠ "resnet101"%string) ∧
  (∃ self, ResNet_init "resnet50" stage5 = Some self ∧
           layers self = [3; 4; 6; 3] ∧ Z.of_nat (length (C4 self)) = 6) ∧
  (∃ self, ResNet_init "resnet101" stage5 = Some self ∧
           layers self = [3; 4; 23; 3] ∧ Z.of_nat (length (C4 self)) = 23).
Proof.
  split; [|split].
  - intros architecture. unfold ResNet_init. case_bool_decide as Hin.
    + apply architecture_cases in Hin.
      split; [|intros [? ?]; tauto].
      destruct Hin as [-> | ->]; destruct stage5; vm_compute; discriminate.
    + rewrite architecture_cases in Hin. split; [tauto | done].
  - destruct stage5; eexists; (split; [vm_compute; reflexivity|]);
      split; reflexivity.
  - destruct stage5; eexists; (split; [vm_compute; reflexivity|]);
      split; reflexivity.
Qed.

Lemma ResNet_init_architecture_witness :
  ResNet_init "resnet18" true = None.
Proof.
  apply (proj1 (ResNet_init_architecture true)). split; discriminate.
Defined.

Lemma ResNet_init_C5 architecture stage5 self :
  ResNet_init architecture stage5 = Some self →
  stage5 = false → C5 self = None.
Proof.
  intros Hinit ->. unfold ResNet_init in Hinit.
  case_bool_decide as Hin; [|discriminate].
  apply architecture_cases in Hin.
  destruct Hin as [-> | ->]; vm_compute in Hinit; by inversion Hinit.
Qed.

(** C3: a ResNet built with [stage5=False] stores [None] as its fifth stage,
    and its forward pass calls that attribute: it raises on every input. *)
Theorem ResNet_forward_without_stage5 {A} (zero : A) add numeric
    architecture self (x : tensor4 A) :
  ResNet_init architecture false = Some self →
  C5 self = None ∧
  ResNet_forward zero add numeric self x = None.
Proof.
  intros Hinit.
  assert (C5 self = None) as HC5 by eauto using ResNet_init_C5.
  split; [done|].
  unfold ResNet_forward. rewrite HC5.
  destruct (Sequential_forward _ _ _ (C1 self) x) as [x1|]; [simpl|done].
  destruct (Sequential_forward _ _ _ (C2 self) x1) as [x2|]; [simpl|done].
  destruct (Sequential_forward _ _ _ (C3 self) x2) as [x3|]; [simpl|done].
  destruct (Sequential_forward _ _ _ (C4 self) x3) as [x4|]; done.
Qed.

Lemma ResNet_forward_without_stage5_witness :
  ∃ self, ResNet_init "resnet50" false = Some self ∧
          C5 self = None ∧
          ResNet_forward 0 Z.add (λ _ t, Some t) self (full 1 3 8 8 1) = None.
Proof.
  eexists. split; [vm_compute; reflexivity|].
  apply (ResNet_forward_without_stage5 0 Z.add (λ _ t, Some t) "resnet50").
  vm_compute; reflexivity.
Defined.

(** ** Feature pyramid *)





Lemma F_pad_plane_cols_nonneg {A} (zero : A) l r t b (p q : plane A)
    (H W : nat) :
  plane_shaped H W p → (0 < H)%nat →
  F_pad_plane zero (l, r, t, b) p = Some q →
  0 <= Z.of_nat W + l + r.
Proof.
  intros [HH HW] Hpos. unfold F_pad_plane. intros Hq.
  apply bind_Some_inv in Hq as (rows & Hrows & _).
  apply mapM_Some in Hrows.
  destruct p as [|r0 p]; [simpl in HH; lia|].
  apply Forall2_cons_inv_l in Hrows as (r0' & rows' & Hr0 & _ & ->).
  apply pad1_length in Hr0. apply Forall_inv in HW. lia.
Qed.

Lemma SamePad2d_pads_stride1 (k h w : Z) :
  SamePad2d_pads (SamePad2d_init k 1) h w
  = Some ((k - 1) / 2, k - 1 - (k - 1) / 2, (k - 1) / 2, k - 1 - (k - 1) / 2).
Proof.
  unfold SamePad2d_pads, ceil_div. cbn [SamePad2d_init stride kernel_size
    _pair fst snd Z.eqb mbind option_bind].
  rewrite !Z.div_1_r.
  replace ((- - h - 1) * 1 + k - h) with (k - 1) by lia.
  by replace ((- - w - 1) * 1 + k - w) with (k - 1) by lia.
Qed.






Section TensorAdd.
Context {A : Type} (add : A → A → A) (inplace : bool).





End TensorAdd.

Local Open Scope nat_scope.










Local Open Scope Z_scope.

Section FPNFacts.
Context {A : Type} (zero : A) (add : A → A → A).
Context (numeric : prim → tensor4 A → option (tensor4 A)).

End FPNFacts.

Section FPNLevels.
Context {A : Type} (zero : A) (add : A → A → A).
Context (numeric : prim → tensor4 A → option (tensor4 A)).

Local Open Scope nat_scope.

End FPNLevels.

Lemma full_shaped {A} (N C H W : nat) (v : A) :
  shaped N C H W (full N C H W v).
Proof.
  unfold full. split; [by rewrite length_replicate|].
  apply Forall_replicate. split; [by rewrite length_replicate|].
  apply Forall_replicate. split; [by rewrite length_replicate|].
  apply Forall_replicate. by rewrite length_replicate.
Qed.



(** ** Region proposal network *)

Local Open Scope nat_scope.

Lemma concat_lookup_uniform {B} (ls : list (list B)) (m i j : nat) :
  Forall (λ l, length l = m) ls → (j < m)%nat →
  concat ls !! (i * m + j)%nat = (l ← ls !! i; l !! j).
Proof.
  intros Hls Hj. revert i.
  induction Hls as [|l ls Hl _ IH]; intros i; [done|].
  simpl concat. destruct i as [|i]; simpl.
  - by rewrite lookup_app_l by lia.
  - rewrite lookup_app_r by lia. rewrite <- IH. f_equal. lia.
Qed.

Lemma concat_length_uniform {B} (ls : list (list B)) (m : nat) :
  Forall (λ l, length l = m) ls →
  length (concat ls) = (length ls * m)%nat.
Proof.
  induction 1 as [|l ls Hl _ IH]; [done|].
  simpl. rewrite length_app. lia.
Qed.

Lemma concat_uniform_Forall {B} (lss : list (list (list B))) (m : nat) :
  Forall (Forall (λ l, length l = m)) lss →
  Forall (λ l, length l = m) (concat lss).
Proof.
  induction 1 as [|ls lss Hls _ IH]; simpl; [constructor|].
  by apply Forall_app.
Qed.

Lemma reshape_lookup {B} (l : list B) (m k i : nat) :
  (0 < k)%nat → length l = (m * k)%nat → (i < m)%nat →
  reshape (replicate m k) l !! i = Some (take k (drop (i * k) l)).
Proof.
  intros. rewrite sublist_lookup_reshape by done.
  apply sublist_lookup_Some. nia.
Qed.

Lemma reshape_chunks_length {B} (l : list B) (m k : nat) :
  (m * k <= length l)%nat →
  Forall (λ c, length c = k) (reshape (replicate m k) l).
Proof.
  revert l. induction m as [|m IH]; intros l Hl; simpl; constructor.
  - rewrite length_take. lia.
  - apply IH. rewrite length_drop. lia.
Qed.

(** Two nested re-chunkings of row-major storage address the flat list. *)
Lemma reshape2_lookup {B} (flat : list B) (d0 m k b i j : nat) :
  length flat = d0 * (m * k) →
  b < d0 → i < m → j < k →
  lookup3 (fmap (M:=list) (reshape (replicate m k))
             (reshape (replicate d0 (m * k)) flat)) b i j
  = flat !! (b * (m * k) + (i * k + j)).
Proof.
  intros Hlen Hb Hi Hj. unfold lookup3.
  rewrite list_lookup_fmap, reshape_lookup by (done || nia).
  cbn [fmap option_fmap option_map mbind option_bind].
  rewrite reshape_lookup; [|lia| |done].
  - cbn [mbind option_bind].
    rewrite lookup_take_lt by done. rewrite lookup_drop.
    rewrite lookup_take_lt by nia. by rewrite lookup_drop.
  - rewrite length_take, length_drop. nia.
Qed.

Lemma omap_lookup_total {X Y} (f : X → option Y) (l : list X) (i : nat) :
  Forall (λ x, is_Some (f x)) l →
  omap f l !! i = (x ← l !! i; f x) ∧ length (omap f l) = length l.
Proof.
  intros Hl. revert i. induction Hl as [|x l [y Hy] _ IH]; intros i; [done|].
  change (omap f (x :: l))
    with (match f x with Some y => y :: omap f l | None => omap f l end).
  rewrite Hy. destruct i as [|i]; simpl.
  - split; [done|]. f_equal. apply (IH 0%nat).
  - split; [apply IH|]. f_equal. apply (IH 0%nat).
Qed.

Section Permute.
Context {A : Type} (C H W : nat).

Let gather (img : list (plane A)) (h w : nat) : list A :=
  omap (λ p : plane A, p !! h ≫= (.!! w)) img.

Let permute_img (img : list (plane A)) : list (list (list A)) :=
  map (λ h, map (λ w, gather img h w) (seq 0 W)) (seq 0 H).

Lemma gather_lookup (img : list (plane A)) h w c :
  length img = C → Forall (plane_shaped H W) img →
  (h < H)%nat → (w < W)%nat →
  gather img h w !! c = (p ← img !! c; r ← p !! h; r !! w)
  ∧ length (gather img h w) = C.
Proof.
  intros HC Himg Hh Hw.
  destruct (omap_lookup_total (λ p : plane A, p !! h ≫= (.!! w)) img c)
    as [Hlk Hlen].
  { eapply Forall_impl; [exact Himg|]. intros p [Hp Hrows]. simpl.
    destruct (lookup_lt_is_Some_2 p h ltac:(lia)) as [r Hr].
    rewrite Hr. cbn [mbind option_bind].
    apply lookup_lt_is_Some_2.
    rewrite Forall_lookup in Hrows. rewrite (Hrows _ _ Hr). done. }
  unfold gather. rewrite Hlk, Hlen. split; [|done].
  by destruct (img !! c).
Qed.

(** Row-major storage of one permuted image. *)
Lemma permute_img_flat (img : list (plane A)) h w c :
  length img = C → Forall (plane_shaped H W) img →
  (h < H)%nat → (w < W)%nat → (c < C)%nat →
  concat (concat (permute_img img)) !! ((h * W + w) * C + c)%nat
    = (p ← img !! c; r ← p !! h; r !! w)
  ∧ length (concat (concat (permute_img img))) = (H * W * C)%nat.
Proof.
  intros HC Himg Hh Hw Hc.
  assert (Forall (λ row, length row = W) (permute_img img)) as Hrows.
  { unfold permute_img. apply Forall_forall. intros row Hrow.
    apply list_elem_of_fmap in Hrow as (h' & -> & _).
    by rewrite length_map, length_seq. }
  assert (Forall (Forall (λ l, length l = C)) (permute_img img)) as Hcells.
  { unfold permute_img. apply Forall_forall. intros row Hrow.
    apply list_elem_of_fmap in Hrow as (h' & -> & Hh').
    apply elem_of_seq in Hh'.
    apply Forall_forall. intros l Hlin.
    apply list_elem_of_fmap in Hlin as (w' & -> & Hw').
    apply elem_of_seq in Hw'.
    apply gather_lookup; (done || lia). }
  assert (length (permute_img img) = H) as HlenP.
  { unfold permute_img. by rewrite length_map, length_seq. }
  split.
  - rewrite (concat_lookup_uniform _ C) by
      (done || by apply concat_uniform_Forall).
    rewrite (concat_lookup_uniform _ W) by done.
    unfold permute_img at 1. rewrite list_lookup_fmap.
    rewrite lookup_seq_lt by done.
    cbn [fmap option_fmap option_map mbind option_bind].
    rewrite list_lookup_fmap, lookup_seq_lt by done.
    cbn [fmap option_fmap option_map mbind option_bind].
    by apply gather_lookup.
  - rewrite (concat_length_uniform _ C) by by apply concat_uniform_Forall.
    rewrite (concat_length_uniform _ W) by done. by rewrite HlenP.
Qed.
End Permute.

Lemma flatten4_concat {A} (x : tensor4 A) :
  flatten4 x = concat (map (λ img, concat (concat img)) x).
Proof.
  unfold flatten4. induction x as [|img x IH]; [done|].
  simpl. by rewrite !concat_app, IH.
Qed.

(** The reordering of [RPN.forward]: entry [j] of flat anchor
    [(h * W + w) * a + slot] is channel [slot * k + j] at location [(h, w)]. *)
Lemma view3_permute {A} (y : tensor4 A) (B a k H W : nat) :
  shaped B (k * a) H W y →
  0 < B → 0 < a → 0 < k → 0 < H → 0 < W →
  ∃ out,
    view3 (permute_0231 y) (Z.of_nat B) (Z.of_nat k) = Some out ∧
    shaped3 B (H * W * a) k out ∧
    ∀ b h w slot j, b < B → h < H → w < W → slot < a → j < k →
      lookup3 out b ((h * W + w) * a + slot) j
      = lookup4 y b (slot * k + j) h w.
Proof.
  intros Hy HB Ha Hk HH HW.
  destruct (shaped_sizes _ _ _ _ _ Hy HB ltac:(nia) HH) as [Hs2 Hs3].
  destruct Hy as [HlenB Himgs].
  set (F := λ img : list (plane A),
         concat (concat
           (map (λ h, map (λ w, omap (λ p : plane A, p !! h ≫= (.!! w)) img)
                          (seq 0 W)) (seq 0 H)))).
  assert (flatten4 (permute_0231 y) = concat (map F y)) as Hflat.
  { rewrite flatten4_concat. unfold permute_0231.
    rewrite Hs2, Hs3, !Nat2Z.id. by rewrite map_map. }
  assert (Forall (λ l, length l = H * W * (k * a)) (map F y)) as Hlens.
  { apply Forall_fmap. eapply Forall_impl; [exact Himgs|].
    intros img [HC Hplanes]. simpl.
    apply (permute_img_flat (k * a) H W img 0 0 0); (done || nia). }
  assert (length (flatten4 (permute_0231 y)) = B * (H * W * a * k)) as Hlen.
  { rewrite Hflat, (concat_length_uniform _ _ Hlens), length_map. nia. }
  unfold view3. rewrite Hlen.
  replace (Z.of_nat (B * (H * W * a * k)))
    with (Z.of_nat (H * W * a) * (Z.of_nat B * Z.of_nat k))%Z by nia.
  replace (Z.of_nat B * Z.of_nat k <=? 0)%Z with false
    by (symmetry; apply Z.leb_gt; nia).
  rewrite Z.mod_mul by nia. rewrite Z.div_mul by nia.
  cbn [orb negb Z.eqb].
  rewrite <- Nat2Z.inj_mul, !Nat2Z.id.
  eexists. split; [reflexivity|]. split.
  { split; [by rewrite length_fmap, length_reshape, length_replicate|].
    apply Forall_fmap. eapply Forall_impl.
    { apply (reshape_chunks_length _ B (H * W * a * k)). lia. }
    intros chunk Hchunk. simpl in *. split.
    - by rewrite length_reshape, length_replicate.
    - apply reshape_chunks_length. by rewrite Hchunk. }
  intros b h w slot j Hb Hh Hw Hslot Hj.
  assert (h * W + w < H * W) as Hloc by nia.
  assert ((h * W + w) * a + slot < H * W * a) as Hanchor by nia.
  assert (slot * k + j < k * a) as Hchan by nia.
  rewrite reshape2_lookup by done.
  rewrite Hflat.
  replace (b * (H * W * a * k) + (((h * W + w) * a + slot) * k + j))
    with (b * (H * W * (k * a)) + ((h * W + w) * (k * a) + (slot * k + j)))
    by nia.
  rewrite (concat_lookup_uniform _ _ _ _ Hlens) by nia.
  rewrite list_lookup_fmap. unfold lookup4.
  destruct (y !! b) as [img|] eqn:Himg; [|done].
  cbn [fmap option_fmap option_map mbind option_bind].
  rewrite Forall_lookup in Himgs. destruct (Himgs _ _ Himg) as [HC Hplanes].
  apply (permute_img_flat (k * a) H W img h w (slot * k + j)); (done || nia).
Qed.

Lemma view3_rows_length {A} (x : tensor4 A) (d0 k : Z) out :
  (0 < k)%Z →
  view3 x d0 k = Some out →
  Forall (Forall (λ c, length c = Z.to_nat k)) out.
Proof.
  intros Hk. unfold view3.
  set (flat := flatten4 x). set (total := Z.of_nat (length flat)).
  destruct (Z.leb_spec (d0 * k) 0) as [|Hpos]; [done|].
  destruct (Z.eqb_spec (total `mod` (d0 * k)) 0) as [Hmod|]; [|done].
  cbn [orb negb]. intros [= <-].
  assert (total = d0 * k * (total `div` (d0 * k)))%Z as Htotal
    by (apply Z.div_exact; lia).
  set (m := (total `div` (d0 * k))%Z) in *.
  assert (0 <= m)%Z by (apply Z.div_pos; lia).
  assert (0 < d0)%Z by nia.
  apply Forall_fmap.
  eapply Forall_impl.
  { apply (reshape_chunks_length flat (Z.to_nat d0) (Z.to_nat (m * k))).
    unfold total in Htotal. nia. }
  intros chunk Hchunk. simpl.
  apply reshape_chunks_length. rewrite Hchunk. nia.
Qed.

Section RPNFacts.
Context {A : Type} (zero : A).
Context (numeric : prim → tensor4 A → option (tensor4 A)).
Context (softmax1 : list A → list A).

(** C5: class logits and box deltas go through the same reordering into
    [batch, anchors, 2] and [batch, anchors, 4], so flat anchor
    [(h * W + w) * a + slot] holds, in both outputs, the channels of slot
    [slot] at location [(h, w)]. *)
Theorem RPN_outputs_aligned (a : nat) (s d : Z) (x feat cl bb : tensor4 A)
    (B H W : nat) :
  0 < a → 0 < B → 0 < H → 0 < W →
  (x1 ← SamePad2d_forward zero (SamePad2d_init 3 s) x;
   x2 ← numeric (Conv2d d 512 3 s 0) x1;
   numeric ReLU x2) = Some feat →
  length feat = B →
  numeric (Conv2d 512 (2 * Z.of_nat a) 1 1 0) feat = Some cl →
  shaped B (2 * a) H W cl →
  numeric (Conv2d 512 (4 * Z.of_nat a) 1 1 0) feat = Some bb →
  shaped B (4 * a) H W bb →
  ∃ rpn_class_logits rpn_probs rpn_bbox,
    RPN_forward zero numeric softmax1 (RPN_init (Z.of_nat a) s d) x
      = Some [rpn_class_logits; rpn_probs; rpn_bbox] ∧
    shaped3 B (H * W * a) 2 rpn_class_logits ∧
    shaped3 B (H * W * a) 4 rpn_bbox ∧
    ∀ b h w slot, b < B → h < H → w < W → slot < a →
      (∀ j, j < 2 →
         lookup3 rpn_class_logits b ((h * W + w) * a + slot) j
         = lookup4 cl b (slot * 2 + j) h w) ∧
      (∀ j, j < 4 →
         lookup3 rpn_bbox b ((h * W + w) * a + slot) j
         = lookup4 bb b (slot * 4 + j) h w).
Proof.
  intros Ha HB HH HW Hfeat Hlen Hcl Hscl Hbb Hsbb.
  destruct (view3_permute cl B a 2 H W Hscl)
    as (logits & Hlogits & Hshape2 & Hlk2); [done..|lia|done|done|].
  destruct (view3_permute bb B a 4 H W Hsbb)
    as (bbox & Hbbox & Hshape4 & Hlk4); [done..|lia|done|done|].
  exists logits, (map (map softmax1) logits), bbox.
  split; [|split; [done|split; [done|]]].
  - unfold RPN_forward.
    cbn [RPN_init rpn_padding conv_shared rpn_relu conv_class rpn_softmax
         conv_bbox run_prim].
    apply bind_Some_inv in Hfeat as (x1 & -> & Hfeat).
    apply bind_Some_inv in Hfeat as (x2 & Hx2 & Hfeat).
    cbn [mbind option_bind]. rewrite Hx2. cbn [mbind option_bind].
    rewrite Hfeat. cbn [mbind option_bind].
    rewrite Hcl. cbn [mbind option_bind].
    unfold size0. rewrite Hlen.
    change 2%Z with (Z.of_nat 2). rewrite Hlogits.
    cbn [mbind option_bind call_softmax].
    rewrite Hbb. cbn [mbind option_bind].
    change 4%Z with (Z.of_nat 4). rewrite Hbbox. reflexivity.
  - intros b h w slot Hb Hh Hw Hslot. split; intros j Hj.
    + by apply Hlk2.
    + by apply Hlk4.
Qed.

(** The softmax of [RPN.forward] runs along the last dimension: whenever
    the forward pass returns, every anchor of [rpn_probs] is the library's
    softmax of the two class logits of that anchor. *)
Lemma RPN_probs_per_anchor (a s d : Z) (x : tensor4 A) outs :
  RPN_forward zero numeric softmax1 (RPN_init a s d) x = Some outs →
  ∃ rpn_class_logits rpn_probs rpn_bbox,
    outs = [rpn_class_logits; rpn_probs; rpn_bbox] ∧
    Forall (Forall (λ pair, length pair = 2)) rpn_class_logits ∧
    ∀ b i, (m ← rpn_probs !! b; m !! i)
           = softmax1 <$> (m ← rpn_class_logits !! b; m !! i).
Proof.
  unfold RPN_forward.
  cbn [RPN_init rpn_padding conv_shared rpn_relu conv_class rpn_softmax
       conv_bbox].
  intros H.
  apply bind_Some_inv in H as (x1 & _ & H).
  apply bind_Some_inv in H as (x2 & _ & H).
  apply bind_Some_inv in H as (feat & _ & H).
  apply bind_Some_inv in H as (cl & _ & H).
  apply bind_Some_inv in H as (logits & Hlogits & H).
  apply bind_Some_inv in H as (probs & Hprobs & H).
  apply bind_Some_inv in H as (bb & _ & H).
  apply bind_Some_inv in H as (bbox & _ & H).
  injection H as <-.
  exists logits, probs, bbox. split; [done|].
  injection Hprobs as <-. split.
  { apply view3_rows_length in Hlogits; [|lia]. exact Hlogits. }
  intros b i. rewrite list_lookup_fmap.
  destruct (logits !! b) as [lm|]; [|done].
  cbn [fmap option_fmap option_map mbind option_bind].
  by rewrite list_lookup_fmap.
Qed.
End RPNFacts.

Lemma RPN_outputs_aligned_witness :
  ∃ rpn_class_logits rpn_probs rpn_bbox,
    RPN_forward 0%Z numeric_sample_rpn softmax1_sample (RPN_init 1 1 256)
      sample_features
      = Some [rpn_class_logits; rpn_probs; rpn_bbox] ∧
    lookup3 rpn_class_logits 0 3 1 = Some 4%Z ∧
    lookup3 rpn_bbox 0 3 3 = Some 4%Z.
Proof.
  destruct (RPN_outputs_aligned 0%Z numeric_sample_rpn softmax1_sample
              1 1 256 sample_features sample_features
              [[ [[1; 2]; [3; 4]]; [[1; 2]; [3; 4]] ]]%Z
              [[ [[1; 2]; [3; 4]]; [[1; 2]; [3; 4]];
                 [[1; 2]; [3; 4]]; [[1; 2]; [3; 4]] ]]%Z
              1 2 2)
    as (logits & probs & bbox & Hfw & _ & _ & Hlk); try lia; try reflexivity.
  - repeat constructor.
  - repeat constructor.
  - exists logits, probs, bbox. split; [exact Hfw|].
    destruct (Hlk 0 1 1 0) as [H2 H4]; try lia.
    split; [apply (H2 1); lia | apply (H4 3); lia].
Defined.

Local Open Scope Z_scope.

(** ** Classification head *)

Lemma conv_out_size_fit (k : Z) : conv_out_size k k 1 = Some 1.
Proof.
  unfold conv_out_size. rewrite Z.ltb_irrefl. simpl.
  by rewrite Z.sub_diag.
Qed.

Lemma prim_shape_conv_fit (N cin cout k : Z) :
  prim_shape (Conv2d cin cout k 1 0) [N; cin; k; k] = Some [N; cout; 1; 1].
Proof.
  simpl. rewrite Z.eqb_refl, Z.add_0_r, conv_out_size_fit. reflexivity.
Qed.

Lemma view_shape_rows (N c : Z) :
  c ≠ 0 → c ≠ -1 →
  view_shape [-1; c] [N; c; 1; 1] = Some [N; c].
Proof.
  intros Hc Hc'. unfold view_shape.
  rewrite (filter_cons_True (λ d, d = -1)) by done.
  rewrite (filter_cons_False (λ d, d = -1)) by done.
  rewrite (filter_cons_False (λ d, d ≠ -1)) by (intros H; by apply H).
  rewrite (filter_cons_True (λ d, d ≠ -1)) by done.
  rewrite !filter_nil. simpl.
  rewrite !Z.mul_1_r.
  replace (c =? 0) with false by (symmetry; by apply Z.eqb_neq).
  rewrite Z.mod_mul by done. simpl.
  replace (c =? -1) with false by (symmetry; by apply Z.eqb_neq).
  by rewrite Z.div_mul.
Qed.

Lemma view_shape_boxes (N nc : Z) :
  0 < N →
  view_shape [N; -1; 4] [N; nc * 4] = Some [N; nc; 4].
Proof.
  intros HN. unfold view_shape.
  rewrite (filter_cons_False (λ d, d = -1)) by lia.
  rewrite (filter_cons_True (λ d, d = -1)) by done.
  rewrite (filter_cons_False (λ d, d = -1)) by done.
  rewrite (filter_cons_True (λ d, d ≠ -1)) by lia.
  rewrite (filter_cons_False (λ d, d ≠ -1)) by (intros H; by apply H).
  rewrite (filter_cons_True (λ d, d ≠ -1)) by done.
  rewrite !filter_nil. simpl.
  rewrite !Z.mul_1_r.
  replace (N * (nc * 4)) with (nc * (N * 4)) by lia.
  replace (N * 4 =? 0) with false by (symmetry; apply Z.eqb_neq; lia).
  rewrite Z.mod_mul by lia. simpl.
  replace (N =? -1) with false by (symmetry; apply Z.eqb_neq; lia).
  by rewrite Z.div_mul by lia.
Qed.

Lemma prim_shape_bn (N c h w : Z) :
  N * h * w ≠ 1 →
  prim_shape (BatchNorm2d c) [N; c; h; w] = Some [N; c; h; w].
Proof.
  intros Hvalues. simpl. rewrite Z.eqb_refl.
  by replace (N * h * w =? 1) with false by (symmetry; by apply Z.eqb_neq).
Qed.

Lemma prim_shape_bn_single (N c h w : Z) :
  N * h * w = 1 → prim_shape (BatchNorm2d c) [N; c; h; w] = None.
Proof. intros Hvalues. simpl. by rewrite Z.eqb_refl, Hvalues. Qed.

Lemma prim_shape_relu (s : list Z) : prim_shape ReLU s = Some s.
Proof. reflexivity. Qed.

Lemma prim_shape_linear (N fin fout : Z) :
  prim_shape (Linear fin fout) [N; fin] = Some [N; fout].
Proof. simpl. by rewrite Z.eqb_refl. Qed.

Lemma Classifier_features_shape_ok (depth pool N nc : Z)
    (image_shape : list Z) :
  N ≠ 1 →
  Classifier_features_shape (Classifier_init depth pool image_shape nc)
    N depth
  = Some [N; 1024].
Proof.
  intros HN. unfold Classifier_features_shape, pyramid_roi_align_shape.
  cbn [cls_conv1 cls_bn1 cls_relu cls_conv2 cls_bn2 pool_size
       Classifier_init].
  rewrite prim_shape_conv_fit; cbn [mbind option_bind].
  rewrite prim_shape_bn by lia; cbn [mbind option_bind].
  rewrite prim_shape_relu; cbn [mbind option_bind].
  rewrite (prim_shape_conv_fit N 1024 1024 1); cbn [mbind option_bind].
  rewrite prim_shape_bn by lia; cbn [mbind option_bind].
  rewrite prim_shape_relu; cbn [mbind option_bind].
  by apply view_shape_rows.
Qed.

Lemma Classifier_forward_shape_ok (depth pool N nc : Z)
    (image_shape : list Z) :
  1 < N → 0 < nc →
  Classifier_forward_shape (Classifier_init depth pool image_shape nc)
    N depth
  = Some [[N; nc]; [N; nc]; [N; nc; 4]].
Proof.
  intros HN Hnc.
  unfold Classifier_forward_shape.
  rewrite Classifier_features_shape_ok by lia.
  cbn [mbind option_bind linear_class cls_softmax linear_bbox Classifier_init].
  rewrite !prim_shape_linear; cbn [mbind option_bind].
  change (prim_shape (Softmax 1) [N; nc]) with (Some [N; nc]).
  cbn [mbind option_bind lookup list_lookup].
  by rewrite view_shape_boxes by lia.
Qed.

Local Open Scope nat_scope.

(** [x.view(-1, K)] on an [N] x [K] x 1 x 1 tensor: one row per batch
    entry, one entry per channel. *)
Lemma view2_rows {A} (x : tensor4 A) (N K : nat) :
  shaped N K 1 1 x → 0 < K →
  ∃ rows,
    view2 x (Z.of_nat K) = Some rows ∧ mat_shaped N K rows ∧
    ∀ n c, n < N → c < K →
      (r ← rows !! n; r !! c) = lookup4 x n c 0 0.
Proof.
  intros [HN Himgs] HK.
  set (F := λ img : list (plane A), concat (concat img)).
  assert (flatten4 x = concat (map F x)) as Hflat by apply flatten4_concat.
  assert (Forall (λ img : list (plane A),
            length (F img) = K ∧
            ∀ c, F img !! c = (p ← img !! c; r ← p !! 0; r !! 0)) x)
    as Hrows.
  { eapply Forall_impl; [exact Himgs|]. intros img [HC Hplanes]. simpl.
    assert (Forall (λ row : list A, length row = 1) (concat img)) as Hcells.
    { apply concat_uniform_Forall.
      eapply Forall_impl; [exact Hplanes|]. by intros p [_ Hp]. }
    assert (Forall (λ p : plane A, length p = 1) img) as Hplen.
    { eapply Forall_impl; [exact Hplanes|]. by intros p [Hp _]. }
    split.
    - unfold F. rewrite (concat_length_uniform _ 1 Hcells).
      rewrite (concat_length_uniform _ 1 Hplen). lia.
    - intros c. unfold F.
      destruct (decide (c < length img)) as [Hc|Hc].
      + replace c with (c * 1 + 0) at 1 by lia.
        rewrite (concat_lookup_uniform _ 1) by (done || lia).
        replace c with (c * 1 + 0) at 1 by lia.
        rewrite (concat_lookup_uniform _ 1) by (done || lia).
        destruct (img !! c) as [p|]; [|done].
        cbn [mbind option_bind]. by destruct (p !! 0).
      + rewrite lookup_ge_None_2.
        2:{ rewrite (concat_length_uniform _ 1 Hcells).
            rewrite (concat_length_uniform _ 1 Hplen). lia. }
        by rewrite lookup_ge_None_2 by lia. }
  assert (Forall (λ l, length l = K) (map F x)) as Hlens.
  { apply Forall_fmap. eapply Forall_impl; [exact Hrows|]. by intros ? [? _]. }
  assert (length (flatten4 x) = N * K) as Hlen.
  { by rewrite Hflat, (concat_length_uniform _ _ Hlens), length_map, HN. }
  unfold view2. rewrite Hlen.
  replace (Z.of_nat K <=? 0)%Z with false by (symmetry; apply Z.leb_gt; lia).
  rewrite Nat2Z.inj_mul, Z.mod_mul, Z.div_mul by lia.
  cbn [orb negb Z.eqb]. rewrite !Nat2Z.id.
  eexists. split; [reflexivity|]. split.
  { split; [by rewrite length_reshape, length_replicate|].
    apply reshape_chunks_length. lia. }
  intros n c Hn Hc.
  rewrite reshape_lookup by done. cbn [mbind option_bind].
  rewrite lookup_take_lt by done. rewrite lookup_drop, Hflat.
  rewrite (concat_lookup_uniform _ K) by done.
  rewrite list_lookup_fmap. unfold lookup4.
  destruct (x !! n) as [img|] eqn:Himg; [|done].
  cbn [fmap option_fmap option_map mbind option_bind].
  rewrite Forall_lookup in Hrows. by destruct (Hrows _ _ Himg) as [_ ->].
Qed.

(** [m.view(N, -1, k)] on an [N] x [nc * k] matrix: entry [j] of group [c]
    is entry [c * k + j] of the row. *)
Lemma view3_rows_groups {A} (m : list (list A)) (N nc k : nat) :
  mat_shaped N (nc * k) m → 0 < N → 0 < nc → 0 < k →
  ∃ out,
    view3_rows m (Z.of_nat N) (Z.of_nat k) = Some out ∧
    shaped3 N nc k out ∧
    ∀ n c j, n < N → c < nc → j < k →
      lookup3 out n c j = (r ← m !! n; r !! (c * k + j)).
Proof.
  intros [HN Hrows] HNpos Hnc Hk.
  assert (length (concat m) = N * (nc * k)) as Hlen
    by by rewrite (concat_length_uniform _ _ Hrows), HN.
  unfold view3_rows. rewrite Hlen.
  replace (Z.of_nat (N * (nc * k)))
    with (Z.of_nat nc * (Z.of_nat N * Z.of_nat k))%Z by lia.
  replace (Z.of_nat N * Z.of_nat k <=? 0)%Z with false
    by (symmetry; apply Z.leb_gt; nia).
  rewrite Z.mod_mul, Z.div_mul by nia.
  cbn [orb negb Z.eqb].
  rewrite <- Nat2Z.inj_mul, !Nat2Z.id.
  eexists. split; [reflexivity|]. split.
  { split; [by rewrite length_fmap, length_reshape, length_replicate|].
    apply Forall_fmap. eapply Forall_impl.
    { apply (reshape_chunks_length _ N (nc * k)). lia. }
    intros chunk Hchunk. simpl in *. split.
    - by rewrite length_reshape, length_replicate.
    - apply reshape_chunks_length. by rewrite Hchunk. }
  intros n c j Hn Hc Hj.
  rewrite reshape2_lookup by done.
  by rewrite (concat_lookup_uniform _ (nc * k)) by (done || nia).
Qed.

Section ClassifierFacts.
Context {A Rois : Type}.
Context (pyramid_roi_align :
           Rois → list (tensor4 A) → Z → list Z → option (tensor4 A)).
Context (numeric : prim → tensor4 A → option (tensor4 A)).
Context (linear : prim → list (list A) → option (list (list A))).
Context (softmax1 : list A → list A).

(** C8 (amended): for [N >= 2] pooled RoIs the head, in the training mode
    it is constructed in, takes the pooled features through its two
    convolutions to one 1024-vector per RoI and returns the class logits of
    shape [N, num_classes], the library's softmax of each RoI's row of
    logits, of the same shape, and the box deltas regrouped to
    [N, num_classes, 4], four consecutive values per class. *)
Theorem Classifier_forward_outputs (depth pool : Z) (shape : list Z)
    (N nc : nat) (x : list (tensor4 A)) (rois : Rois)
    (pooled feat : tensor4 A) (logits bbox : list (list A)) :
  let self :=
    Classifier_init depth pool shape (Z.of_nat nc) in
  2 <= N → 1 <= nc →
  (∀ v, length (softmax1 v) = length v) →
  pyramid_roi_align rois x pool shape = Some pooled →
  (x1 ← numeric (Conv2d depth 1024 pool 1 0) pooled;
   x2 ← numeric (BatchNorm2d 1024) x1;
   x3 ← numeric ReLU x2;
   x4 ← numeric (Conv2d 1024 1024 1 1 0) x3;
   x5 ← numeric (BatchNorm2d 1024) x4;
   numeric ReLU x5) = Some feat →
  shaped N 1024 1 1 feat →
  (rows ← view2 feat 1024; linear (Linear 1024 (Z.of_nat nc)) rows)
    = Some logits →
  mat_shaped N nc logits →
  (rows ← view2 feat 1024; linear (Linear 1024 (Z.of_nat nc * 4)) rows)
    = Some bbox →
  mat_shaped N (nc * 4) bbox →
  Classifier_features_shape self (Z.of_nat N) depth
    = Some [Z.of_nat N; 1024%Z] ∧
  Classifier_forward_shape self (Z.of_nat N) depth
    = Some [[Z.of_nat N; Z.of_nat nc]; [Z.of_nat N; Z.of_nat nc];
            [Z.of_nat N; Z.of_nat nc; 4%Z]] ∧
  ∃ rows mrcnn_probs mrcnn_bbox,
    view2 feat 1024 = Some rows ∧ mat_shaped N 1024 rows ∧
    (∀ n c, n < N → c < 1024 →
       (r ← rows !! n; r !! c) = lookup4 feat n c 0 0) ∧
    Classifier_forward pyramid_roi_align numeric linear softmax1 self x rois
      = Some (logits, mrcnn_probs, mrcnn_bbox) ∧
    mrcnn_probs = map softmax1 logits ∧
    mat_shaped N nc mrcnn_probs ∧
    shaped3 N nc 4 mrcnn_bbox ∧
    ∀ n c j, n < N → c < nc → j < 4 →
      lookup3 mrcnn_bbox n c j = (r ← bbox !! n; r !! (c * 4 + j)).
Proof.
  intros self HN Hnc Hsoft Hpooled Hfeat Hshape Hlogits Hslogits Hbbox Hsbbox.
  split; [apply Classifier_features_shape_ok; lia|].
  split; [apply Classifier_forward_shape_ok; lia|].
  destruct (view2_rows feat N 1024 Hshape ltac:(lia))
    as (rows & Hrows & Hsrows & Hlk).
  change (Z.of_nat 1024) with 1024%Z in Hrows.
  rewrite Hrows in Hlogits, Hbbox. cbn [mbind option_bind] in Hlogits, Hbbox.
  destruct (view3_rows_groups bbox N nc 4 Hsbbox)
    as (deltas & Hdeltas & Hsdeltas & Hlkd); [lia..|].
  exists rows, (map softmax1 logits), deltas.
  split; [done|]. split; [done|]. split; [done|]. split.
  { unfold Classifier_forward, self.
    cbn [Classifier_init pool_size image_shape cls_conv1 cls_bn1 cls_relu
         cls_conv2 cls_bn2 linear_class cls_softmax linear_bbox].
    rewrite Hpooled. cbn [mbind option_bind].
    apply bind_Some_inv in Hfeat as (x1 & -> & Hfeat).
    apply bind_Some_inv in Hfeat as (x2 & Hx2 & Hfeat).
    apply bind_Some_inv in Hfeat as (x3 & Hx3 & Hfeat).
    apply bind_Some_inv in Hfeat as (x4 & Hx4 & Hfeat).
    apply bind_Some_inv in Hfeat as (x5 & Hx5 & Hfeat).
    cbn [mbind option_bind]. rewrite Hx2. cbn [mbind option_bind].
    rewrite Hx3. cbn [mbind option_bind]. rewrite Hx4.
    cbn [mbind option_bind]. rewrite Hx5. cbn [mbind option_bind].
    rewrite Hfeat. cbn [mbind option_bind]. rewrite Hrows.
    cbn [mbind option_bind]. rewrite Hlogits.
    cbn [mbind option_bind call_softmax2].
    unfold Softmax_forward2. rewrite bool_decide_eq_true_2 by by left.
    cbn [mbind option_bind]. rewrite Hbbox. cbn [mbind option_bind].
    destruct Hsbbox as [-> _]. change 4%Z with (Z.of_nat 4).
    by rewrite Hdeltas. }
  split; [done|]. split.
  { destruct Hslogits as [Hlen Hall]. split; [by rewrite length_map|].
    apply Forall_fmap. eapply Forall_impl; [exact Hall|].
    intros r Hr. simpl. by rewrite Hsoft. }
  split; [done|]. exact Hlkd.
Qed.
End ClassifierFacts.

Local Open Scope Z_scope.

(** C8 as stated fails for a single RoI: the head as constructed is in
    training mode, where its first batch normalisation has one value per
    channel and raises. *)
Lemma Classifier_forward_single_roi :
  Classifier_forward_shape (Classifier_init 256 7 [1024; 1024; 3] 81) 1 256
  = None.
Proof. vm_compute. reflexivity. Qed.

Lemma Classifier_forward_outputs_witness :
  ∃ mrcnn_probs mrcnn_bbox,
    Classifier_forward roi_align_sample numeric_sample_head linear_sample
      softmax1_sample (Classifier_init 256 7 [1024; 1024; 3] 3) [] ()
    = Some ([[0; 1; 2]; [0; 1; 2]], mrcnn_probs, mrcnn_bbox) ∧
    mrcnn_probs = map softmax1_sample [[0; 1; 2]; [0; 1; 2]] ∧
    lookup3 mrcnn_bbox 1 2 3 = Some 11.
Proof.
  destruct (Classifier_forward_outputs roi_align_sample numeric_sample_head
              linear_sample softmax1_sample 256 7 [1024; 1024; 3] 2%nat 3%nat [] ()
              (full 2 256 7 7 0) (full 2 1024 1 1 1)
              [[0; 1; 2]; [0; 1; 2]]
              [seqZ 0 12; seqZ 0 12])
    as (_ & _ & rows & probs & bbox & _ & _ & _ & Hrun & Hprobs & _ & _ & Hlk);
    try lia; try reflexivity.
  - intros v. unfold softmax1_sample. by rewrite length_map.
  - apply full_shaped.
  - split; [reflexivity|repeat constructor].
  - split; [reflexivity|repeat constructor].
  - exists probs, bbox. split; [exact Hrun|]. split; [exact Hprobs|].
    rewrite (Hlk 1%nat 2%nat 3%nat) by lia. reflexivity.
Defined.

(** ** Loss composition *)

(** C6: [compute_loss] returns the five task losses in the order RPN class,
    RPN box, head class, head box, mask, together with their plain sum. *)
Theorem compute_loss_sum {T S : Type} (add : S → S → S) (zero : S)
    (f1 : T → T → S) (f2 : T → T → T → S) (f3 : T → T → S)
    (f4 f5 : T → T → T → S)
    (target_rpn_match target_rpn_bbox : T)
    (rpn_class_logits rpn_pred_bbox target_class_ids mrcnn_class_logits
       target_deltas mrcnn_bbox target_mask mrcnn_mask : T) (rest : list T) :
  (∀ s, add zero s = s) →
  let l1 := f1 target_rpn_match rpn_class_logits in
  let l2 := f2 target_rpn_bbox target_rpn_match rpn_pred_bbox in
  let l3 := f3 target_class_ids mrcnn_class_logits in
  let l4 := f4 target_deltas target_class_ids mrcnn_bbox in
  let l5 := f5 target_mask target_class_ids mrcnn_mask in
  compute_loss add zero f1 f2 f3 f4 f5 target_rpn_match target_rpn_bbox
    (rpn_class_logits :: rpn_pred_bbox :: target_class_ids ::
     mrcnn_class_logits :: target_deltas :: mrcnn_bbox :: target_mask ::
     mrcnn_mask :: rest)
  = Some (add (add (add (add l1 l2) l3) l4) l5, [l1; l2; l3; l4; l5]).
Proof.
  intros Hzero. simpl. unfold compute_loss, sum. simpl.
  by rewrite Hzero.
Qed.

Lemma compute_loss_sum_witness :
  compute_loss Z.add 0 (λ a b, a + b) (λ a b c, a * b * c) (λ a b, a - b)
    (λ a b c, a + b + c) (λ _ _ _, 7) 1 2 [1; 2; 3; 4; 5; 6; 7; 8]
  = Some (26, [2; 4; -1; 14; 7]).
Proof.
  apply (compute_loss_sum Z.add 0 (λ a b, a + b) (λ a b c, a * b * c)
           (λ a b, a - b) (λ a b c, a + b + c) (λ _ _ _, 7)
           1 2 1 2 3 4 5 6 7 8 []).
  intros s. reflexivity.
Defined.
(** *** The five terms *)

Lemma omap_all_None {X Y} (f : X → option Y) (l : list X) :
  Forall (λ x, f x = None) l → omap f l = [].
Proof.
  induction 1 as [|x l Hx _ IH]; [done|].
  change (omap f (x :: l))
    with (match f x with Some y => y :: omap f l | None => omap f l end).
  by rewrite Hx.
Qed.

Lemma Forall_zip_fst {X Y} (P : X → Prop) (l : list X) (k : list Y) :
  Forall P l → Forall (λ p, P p.1) (zip l k).
Proof.
  intros Hl. revert k. induction Hl as [|x l Hx _ IH]; intros [|y k]; simpl;
    constructor; auto.
Qed.

Section LossTermsFacts.
Context {S Logits Box Mask : Type} (zero : S) (mean : list S → S).
Context (cross_entropy : Logits → Z → S)
        (smooth_l1 : Box → Box → S)
        (binary_cross_entropy : Mask → Mask → S).

(** C7: each of the five loss terms is exactly zero when its target set is
    empty: no anchor that is not neutral, no positive anchor, no target
    RoI, no positive RoI. *)
Theorem loss_terms_empty_zero
    (match1 match2 : list anchor_match) (logits1 logits3 : list Logits)
    (tbox2 pbox2 tbox4 : list Box) (pbox4 : list (list Box))
    (ids4 ids5 : list Z) (tmask5 : list Mask) (pmask5 : list (list Mask)) :
  Forall (λ m, m = Neutral) match1 →
  Forall (λ m, m ≠ Foreground) match2 →
  Forall (λ c, c <= 0) ids4 →
  Forall (λ c, c <= 0) ids5 →
  rpn_class_loss zero mean cross_entropy match1 logits1 = zero ∧
  rpn_bbox_loss zero mean smooth_l1 tbox2 match2 pbox2 = zero ∧
  mrcnn_class_loss zero mean cross_entropy [] logits3 = zero ∧
  mrcnn_bbox_loss zero mean smooth_l1 tbox4 ids4 pbox4 = zero ∧
  mrcnn_mask_loss zero mean binary_cross_entropy tmask5 ids5 pmask5 = zero.
Proof.
  intros H1 H2 H4 H5.
  unfold rpn_class_loss, rpn_bbox_loss, mrcnn_class_loss, mrcnn_bbox_loss,
    mrcnn_mask_loss.
  split; [|split; [|split; [reflexivity|split]]].
  - rewrite omap_all_None; [done|].
    eapply Forall_impl; [by apply Forall_zip_fst|].
    intros [m l] Hm; simpl in *. by rewrite Hm.
  - rewrite omap_all_None; [done|].
    eapply Forall_impl; [by apply Forall_zip_fst|].
    intros [m l] Hm; simpl in *. by destruct m.
  - rewrite omap_all_None; [done|].
    eapply Forall_impl; [by apply Forall_zip_fst|].
    intros [c l] Hc; simpl in *.
    by replace (0 <? c) with false by (symmetry; apply Z.ltb_ge; lia).
  - rewrite omap_all_None; [done|].
    eapply Forall_impl; [by apply Forall_zip_fst|].
    intros [c l] Hc; simpl in *.
    by replace (0 <? c) with false by (symmetry; apply Z.ltb_ge; lia).
Qed.
End LossTermsFacts.

Lemma loss_terms_empty_zero_witness :
  rpn_class_loss 0 (λ _, 99) (λ (l c : Z), l + c) [Neutral; Neutral] [3; 4]
    = 0 ∧
  rpn_bbox_loss 0 (λ _, 99) (λ (t p : Z), t - p) [1; 2]
    [Background; Neutral] [5; 6] = 0 ∧
  mrcnn_class_loss 0 (λ _, 99) (λ (l c : Z), l + c) [] [3; 4] = 0 ∧
  mrcnn_bbox_loss 0 (λ _, 99) (λ (t p : Z), t - p) [1; 2] [0; 0]
    [[5; 6]; [7; 8]] = 0 ∧
  mrcnn_mask_loss 0 (λ _, 99) (λ (t p : Z), t * p) [1; 2] [0; 0]
    [[5; 6]; [7; 8]] = 0.
Proof.
  apply (loss_terms_empty_zero 0 (λ _, 99) (λ (l c : Z), l + c)
           (λ (t p : Z), t - p) (λ (t p : Z), t * p)).
  - repeat constructor.
  - repeat constructor; discriminate.
  - repeat constructor; lia.
  - repeat constructor; lia.
Defined.

(** * Further properties of the code *)

(** ** Shapes through the network *)

(** Division and remainder by numerals are linear arithmetic from here on. *)
Ltac Zify.zify_post_hook ::= Z.to_euclidean_division_equations.

Lemma conv_out_size_Some (n k s : Z) :
  k <= n → 0 < s → conv_out_size n k s = Some ((n - k) / s + 1).
Proof.
  intros Hk Hs. unfold conv_out_size.
  replace (n <? k) with false by (symmetry; apply Z.ltb_ge; lia).
  by replace (s <=? 0) with false by (symmetry; apply Z.leb_gt; lia).
Qed.

Lemma prim_shape_conv2d (n c cout k st pad h w : Z) :
  k <= h + 2 * pad → k <= w + 2 * pad → 0 < st →
  prim_shape (Conv2d c cout k st pad) [n; c; h; w]
  = Some [n; cout; (h + 2 * pad - k) / st + 1; (w + 2 * pad - k) / st + 1].
Proof.
  intros Hh Hw Hst. cbn [prim_shape]. rewrite Z.eqb_refl.
  by rewrite !conv_out_size_Some by done.
Qed.

Lemma prim_shape_samepad_stride1 (n c k h w : Z) :
  1 <= k → 0 <= h → 0 <= w →
  prim_shape (SamePad (SamePad2d_init k 1)) [n; c; h; w]
  = Some [n; c; h + k - 1; w + k - 1].
Proof.
  intros Hk Hh Hw. cbn [prim_shape]. rewrite SamePad2d_pads_stride1.
  cbn [mbind option_bind].
  replace (h + (k - 1) / 2 + (k - 1 - (k - 1) / 2)) with (h + k - 1) by lia.
  replace (w + (k - 1) / 2 + (k - 1 - (k - 1) / 2)) with (w + k - 1) by lia.
  replace (h + k - 1 <? 0) with false by (symmetry; apply Z.ltb_ge; lia).
  by replace (w + k - 1 <? 0) with false by (symmetry; apply Z.ltb_ge; lia).
Qed.

Lemma add_shape_same (inplace : bool) (s : list Z) :
  add_shape inplace s s = Some s.
Proof.
  unfold add_shape. rewrite bool_decide_eq_true_2 by done.
  apply mapM_Some. induction s as [|d s IH]; simpl; constructor; [|done].
  simpl. by rewrite Z.eqb_refl.
Qed.

Ltac shape_step lem := rewrite lem by lia; cbn [mbind option_bind].

(** One residual block as [make_layer] builds it. *)
Lemma Bottleneck_shape_make_layer (inplanes planes stride n h w : Z) :
  1 <= stride → 1 <= h → 1 <= w →
  n * ((h - 1) / stride + 1) * ((w - 1) / stride + 1) ≠ 1 →
  Bottleneck_shape
    (Bottleneck_init inplanes planes stride
       (if bool_decide (stride ≠ 1 ∨ inplanes ≠ planes * expansion) then
          Some [Conv2d inplanes (planes * expansion) 1 stride 0;
                BatchNorm2d (planes * expansion)]
        else None))
    [n; inplanes; h; w]
  = Some [n; planes * 4; (h - 1) / stride + 1; (w - 1) / stride + 1].
Proof.
  intros Hs Hh Hw Hvalues. unfold Bottleneck_shape.
  cbn [Bottleneck_init conv1 bn1 relu padding2 conv2 bn2 conv3 bn3 downsample].
  pose proof (Z.div_pos (h - 1) stride ltac:(lia) ltac:(lia)).
  pose proof (Z.div_pos (w - 1) stride ltac:(lia) ltac:(lia)).
  shape_step prim_shape_conv2d.
  replace (h + 2 * 0 - 1) with (h - 1) by lia.
  replace (w + 2 * 0 - 1) with (w - 1) by lia.
  set (h' := (h - 1) / stride + 1) in *.
  set (w' := (w - 1) / stride + 1) in *.
  rewrite !prim_shape_bn by exact Hvalues. cbn [mbind option_bind].
  shape_step prim_shape_relu.
  shape_step prim_shape_samepad_stride1.
  shape_step prim_shape_conv2d.
  replace ((h' + 3 - 1 + 2 * 0 - 3) / 1 + 1) with h'
    by (rewrite Z.div_1_r; lia).
  replace ((w' + 3 - 1 + 2 * 0 - 3) / 1 + 1) with w'
    by (rewrite Z.div_1_r; lia).
  rewrite !prim_shape_bn by exact Hvalues. cbn [mbind option_bind].
  shape_step prim_shape_relu.
  shape_step prim_shape_conv2d.
  replace ((h' + 2 * 0 - 1) / 1 + 1) with h' by (rewrite Z.div_1_r; lia).
  replace ((w' + 2 * 0 - 1) / 1 + 1) with w' by (rewrite Z.div_1_r; lia).
  rewrite !prim_shape_bn by exact Hvalues. cbn [mbind option_bind].
  case_bool_decide as Hds.
  - cbn [prims_shape]. shape_step prim_shape_conv2d.
    replace (h + 2 * 0 - 1) with (h - 1) by lia.
    replace (w + 2 * 0 - 1) with (w - 1) by lia.
    fold h' w'. unfold expansion.
    rewrite !prim_shape_bn by exact Hvalues. cbn [mbind option_bind].
    shape_step add_shape_same. apply prim_shape_relu.
  - assert (stride = 1 ∧ inplanes = planes * 4) as [-> ->].
    { unfold expansion in Hds. lia. }
    cbn [mbind option_bind].
    assert (h' = h ∧ w' = w) as [Eh Ew].
    { unfold h', w'. rewrite !Z.div_1_r. lia. }
    rewrite Eh, Ew.
    shape_step add_shape_same. apply prim_shape_relu.
Qed.

(** With one value per channel the first batch normalisation of a block
    raises, whatever its projection. *)
Lemma Bottleneck_shape_single (inplanes planes stride n h w : Z) downsample :
  1 <= stride → 1 <= h → 1 <= w →
  n * ((h - 1) / stride + 1) * ((w - 1) / stride + 1) = 1 →
  Bottleneck_shape (Bottleneck_init inplanes planes stride downsample)
    [n; inplanes; h; w]
  = None.
Proof.
  intros Hs Hh Hw Hvalues. unfold Bottleneck_shape.
  cbn [Bottleneck_init conv1 bn1 relu padding2 conv2 bn2 conv3 bn3].
  shape_step prim_shape_conv2d.
  replace (h + 2 * 0 - 1) with (h - 1) by lia.
  replace (w + 2 * 0 - 1) with (w - 1) by lia.
  by rewrite prim_shape_bn_single by exact Hvalues.
Qed.

(** A stage built by [make_layer], given its output sizes. *)
Lemma make_layer_stage (inplanes planes blocks stride n h w h' w' : Z) :
  1 <= stride → 1 <= h → 1 <= w →
  h' = (h - 1) / stride + 1 → w' = (w - 1) / stride + 1 →
  Sequential_shape (make_layer inplanes planes blocks stride).1
    [n; inplanes; h; w]
  = if n * h' * w' =? 1 then None else Some [n; planes * 4; h'; w'].
Proof.
  intros Hs Hh Hw -> ->.
  unfold make_layer. cbn [fst Sequential_shape layer_shape].
  destruct (Z.eqb_spec (n * ((h - 1) / stride + 1) * ((w - 1) / stride + 1))
              1) as [Hone|Hvalues].
  { by rewrite Bottleneck_shape_single by done. }
  rewrite Bottleneck_shape_make_layer by done. cbn [mbind option_bind].
  pose proof (Z.div_pos (h - 1) stride ltac:(lia) ltac:(lia)).
  pose proof (Z.div_pos (w - 1) stride ltac:(lia) ltac:(lia)).
  set (h' := (h - 1) / stride + 1) in *.
  set (w' := (w - 1) / stride + 1) in *.
  induction (seqZ 1 (blocks - 1)) as [|i l IH]; [done|].
  cbn [fmap list_fmap Sequential_shape layer_shape].
  assert ((h' - 1) / 1 + 1 = h' ∧ (w' - 1) / 1 + 1 = w') as [Eh Ew]
    by (rewrite !Z.div_1_r; lia).
  pose proof (Bottleneck_shape_make_layer (planes * 4) planes 1
                n h' w' ltac:(lia) ltac:(lia) ltac:(lia)) as Hblock.
  rewrite Eh, Ew in Hblock. specialize (Hblock Hvalues).
  rewrite bool_decide_eq_false_2 in Hblock by (intros [?|?]; done).
  unfold expansion. rewrite Hblock. cbn [mbind option_bind].
  exact IH.
Qed.

(** X1: a stage built by [make_layer] maps [inplanes] channels to
    [4 * planes] channels and divides both spatial sizes by the stride,
    rounding up; the residual addition of every block is well-shaped.  In
    the training mode the blocks are constructed in, the stage raises
    exactly when its batch normalisations see a single value per channel. *)
Theorem make_layer_shape (inplanes planes blocks stride n h w : Z) :
  1 <= inplanes → 1 <= planes → 1 <= stride → 1 <= n → 1 <= h → 1 <= w →
  Sequential_shape (make_layer inplanes planes blocks stride).1
    [n; inplanes; h; w]
  = (if n * ((h - 1) / stride + 1) * ((w - 1) / stride + 1) =? 1 then None
     else Some [n; planes * 4; (h - 1) / stride + 1; (w - 1) / stride + 1])
  ∧ (make_layer inplanes planes blocks stride).2 = planes * 4.
Proof.
  intros _ _ Hs _ Hh Hw. split; [|reflexivity].
  by apply make_layer_stage.
Qed.

Lemma prim_shape_samepad_3_2_even (n c a b : Z) :
  0 <= a → 0 <= b →
  prim_shape (SamePad (SamePad2d_init 3 2)) [n; c; 2 * a; 2 * b]
  = Some [n; c; 2 * a + 1; 2 * b + 1].
Proof.
  intros Ha Hb. cbn [prim_shape]. unfold SamePad2d_pads, ceil_div.
  cbn [SamePad2d_init stride kernel_size _pair fst snd Z.eqb mbind
       option_bind].
  replace (- (- (2 * a) / 2)) with a by lia.
  replace (- (- (2 * b) / 2)) with b by lia.
  replace ((a - 1) * 2 + 3 - 2 * a) with 1 by lia.
  replace ((b - 1) * 2 + 3 - 2 * b) with 1 by lia.
  change (1 / 2) with 0. cbn [mbind option_bind].
  replace (2 * a + 0 + (1 - 0)) with (2 * a + 1) by lia.
  replace (2 * b + 0 + (1 - 0)) with (2 * b + 1) by lia.
  replace (2 * a + 1 <? 0) with false by (symmetry; apply Z.ltb_ge; lia).
  by replace (2 * b + 1 <? 0) with false by (symmetry; apply Z.ltb_ge; lia).
Qed.

Lemma prim_shape_maxpool (n c k st h w : Z) :
  k <= h → k <= w → 0 < st →
  prim_shape (MaxPool2d k st) [n; c; h; w]
  = Some [n; c; (h - k) / st + 1; (w - k) / st + 1].
Proof.
  intros Hh Hw Hst. cbn [prim_shape].
  by rewrite !conv_out_size_Some by done.
Qed.

(** The stem [C1] quarters both sides of an image whose sides are multiples
    of four. *)
Lemma stem_shape (n a b : Z) :
  1 <= a → 1 <= b →
  Sequential_shape
    [Prim (Conv2d 3 64 7 2 3); Prim (BatchNorm2d 64); Prim ReLU;
     Prim (SamePad (SamePad2d_init 3 2)); Prim (MaxPool2d 3 2)]
    [n; 3; 4 * a; 4 * b]
  = Some [n; 64; a; b].
Proof.
  intros Ha Hb. cbn [Sequential_shape layer_shape].
  shape_step prim_shape_conv2d.
  replace ((4 * a + 2 * 3 - 7) / 2 + 1) with (2 * a) by lia.
  replace ((4 * b + 2 * 3 - 7) / 2 + 1) with (2 * b) by lia.
  shape_step prim_shape_bn. shape_step prim_shape_relu.
  shape_step prim_shape_samepad_3_2_even.
  shape_step prim_shape_maxpool.
  replace ((2 * a + 1 - 3) / 2 + 1) with a by lia.
  by replace ((2 * b + 1 - 3) / 2 + 1) with b by lia.
Qed.

Lemma ResNet_init_stages architecture self :
  ResNet_init architecture true = Some self →
  ∃ blocks,
    C1 self = [Prim (Conv2d 3 64 7 2 3); Prim (BatchNorm2d 64); Prim ReLU;
               Prim (SamePad (SamePad2d_init 3 2)); Prim (MaxPool2d 3 2)] ∧
    C2 self = (make_layer 64 64 3 1).1 ∧
    C3 self = (make_layer 256 128 4 2).1 ∧
    C4 self = (make_layer 512 256 blocks 2).1 ∧
    C5 self = Some (make_layer 1024 512 3 2).1.
Proof.
  intros Hinit. unfold ResNet_init in Hinit.
  case_bool_decide as Hin; [|discriminate].
  apply architecture_cases in Hin. destruct Hin as [-> | ->].
  - exists 6. vm_compute in Hinit. injection Hinit as <-.
    repeat split; vm_compute; reflexivity.
  - exists 23. vm_compute in Hinit. injection Hinit as <-.
    repeat split; vm_compute; reflexivity.
Qed.

Lemma halve_even (m : Z) : (2 * m - 1) / 2 + 1 = m.
Proof. lia. Qed.

(** The four lower stages on an image whose sides are multiples of 32, and
    what the fifth stage makes of their result. *)
Lemma backbone_shapes architecture self (n h w : Z) :
  ResNet_init architecture true = Some self →
  1 <= h → 1 <= w →
  ∃ stage5,
    C5 self = Some stage5 ∧
    (x ← Sequential_shape (C1 self) [n; 3; 32 * h; 32 * w];
     x ← Sequential_shape (C2 self) x;
     Some x) = Some [n; 256; 8 * h; 8 * w] ∧
    Sequential_shape (C3 self) [n; 256; 8 * h; 8 * w]
      = Some [n; 512; 4 * h; 4 * w] ∧
    Sequential_shape (C4 self) [n; 512; 4 * h; 4 * w]
      = Some [n; 1024; 2 * h; 2 * w] ∧
    Sequential_shape stage5 [n; 1024; 2 * h; 2 * w]
      = if n * h * w =? 1 then None else Some [n; 2048; h; w].
Proof.
  intros Hinit Hh Hw.
  destruct (ResNet_init_stages _ _ Hinit)
    as (blocks & HC1 & HC2 & HC3 & HC4 & HC5).
  eexists. split; [exact HC5|].
  rewrite HC1, HC2, HC3, HC4.
  replace (32 * h) with (4 * (8 * h)) by lia.
  replace (32 * w) with (4 * (8 * w)) by lia.
  split; [|split; [|split]].
  - shape_step stem_shape.
    rewrite (make_layer_stage 64 64 3 1 n (8 * h) (8 * w) (8 * h) (8 * w))
      by lia.
    by replace (n * (8 * h) * (8 * w) =? 1) with false
      by (symmetry; apply Z.eqb_neq; lia).
  - rewrite (make_layer_stage 256 128 4 2 n (8 * h) (8 * w) (4 * h) (4 * w))
      by lia.
    by replace (n * (4 * h) * (4 * w) =? 1) with false
      by (symmetry; apply Z.eqb_neq; lia).
  - rewrite (make_layer_stage 512 256 blocks 2 n (4 * h) (4 * w)
               (2 * h) (2 * w)) by lia.
    by replace (n * (2 * h) * (2 * w) =? 1) with false
      by (symmetry; apply Z.eqb_neq; lia).
  - by rewrite (make_layer_stage 1024 512 3 2 n (2 * h) (2 * w) h w) by lia.
Qed.

(** X2: the backbone with its fifth stage maps an image whose sides are
    multiples of 32 to 2048 channels at 1/32 of the resolution; in the
    training mode it is constructed in, it raises on a single image of
    32 x 32 pixels, where the fifth stage has one value per channel. *)
Theorem ResNet_forward_shape_stride32 architecture self (n h w : Z) :
  ResNet_init architecture true = Some self →
  1 <= n → 1 <= h → 1 <= w →
  ResNet_forward_shape self [n; 3; 32 * h; 32 * w]
  = if n * h * w =? 1 then None else Some [n; 2048; h; w].
Proof.
  intros Hinit Hn Hh Hw.
  destruct (backbone_shapes architecture self n h w Hinit Hh Hw)
    as (stage5 & HC5 & H12 & H3 & H4 & H5).
  unfold ResNet_forward_shape. rewrite HC5. cbn [call_shape].
  apply bind_Some_inv in H12 as (x1 & -> & H12).
  apply bind_Some_inv in H12 as (x2 & Hx2 & [= ->]).
  cbn [mbind option_bind]. rewrite Hx2. cbn [mbind option_bind].
  rewrite H3. cbn [mbind option_bind]. rewrite H4. cbn [mbind option_bind].
  rewrite H5. by destruct (n * h * w =? 1).
Qed.

Lemma ResNet_forward_shape_stride32_witness :
  ∃ self, ResNet_init "resnet101" true = Some self ∧
          ResNet_forward_shape self [2; 3; 32 * 32; 32 * 32]
          = if 2 * 32 * 32 =? 1 then None else Some [2; 2048; 32; 32].
Proof.
  eexists. split; [vm_compute; reflexivity|].
  apply (ResNet_forward_shape_stride32 "resnet101" _ 2 32 32);
    [vm_compute; reflexivity | lia | lia | lia].
Defined.

Lemma smooth_shape (n c cout h w : Z) :
  1 <= h → 1 <= w →
  prims_shape [SamePad (SamePad2d_init 3 1); Conv2d c cout 3 1 0] [n; c; h; w]
  = Some [n; cout; h; w].
Proof.
  intros Hh Hw. cbn [prims_shape].
  shape_step prim_shape_samepad_stride1.
  shape_step prim_shape_conv2d.
  rewrite !Z.div_1_r.
  replace (h + 3 - 1 + 2 * 0 - 3 + 1) with h by lia.
  by replace (w + 3 - 1 + 2 * 0 - 3 + 1) with w by lia.
Qed.

Lemma lateral_shape (n c cout h w : Z) :
  1 <= h → 1 <= w →
  prim_shape (Conv2d c cout 1 1 0) [n; c; h; w] = Some [n; cout; h; w].
Proof.
  intros Hh Hw. rewrite prim_shape_conv2d by lia. rewrite !Z.div_1_r.
  replace (h + 2 * 0 - 1 + 1) with h by lia.
  by replace (w + 2 * 0 - 1 + 1) with w by lia.
Qed.

(** X3: over a backbone with its fifth stage, an image whose sides are
    multiples of 32 yields the five pyramid maps at strides 4, 8, 16, 32 and
    64 (rounded up), each with [out_channels] channels; on a single image
    of 32 x 32 pixels the backbone, in the training mode it is constructed
    in, raises. *)
Theorem FPN_forward_shape_pyramid architecture self (out_channels n h w : Z) :
  ResNet_init architecture true = Some self →
  1 <= out_channels → 1 <= n → 1 <= h → 1 <= w →
  ∃ fpn,
    FPN_of_stages (ResNet_stages self) out_channels = Some fpn ∧
    FPN_forward_shape fpn [n; 3; 32 * h; 32 * w]
    = if n * h * w =? 1 then None
      else Some [[n; out_channels; 8 * h; 8 * w];
                 [n; out_channels; 4 * h; 4 * w];
                 [n; out_channels; 2 * h; 2 * w];
                 [n; out_channels; h; w];
                 [n; out_channels; (h - 1) / 2 + 1; (w - 1) / 2 + 1]].
Proof.
  intros Hinit Hoc Hn Hh Hw.
  destruct (backbone_shapes architecture self n h w Hinit Hh Hw)
    as (stage5 & HC5 & H12 & H3 & H4 & H5).
  eexists. split; [reflexivity|].
  unfold FPN_forward_shape.
  cbn [FPN_init fpn_C1 fpn_C2 fpn_C3 fpn_C4 fpn_C5 P6 P5_conv1 P5_conv2
       P4_conv1 P4_conv2 P3_conv1 P3_conv2 P2_conv1 P2_conv2 call_shape].
  rewrite HC5. cbn [call_shape].
  apply bind_Some_inv in H12 as (x1 & -> & H12).
  apply bind_Some_inv in H12 as (x2 & Hx2 & [= ->]).
  cbn [mbind option_bind]. rewrite Hx2. cbn [mbind option_bind].
  rewrite H3. cbn [mbind option_bind]. rewrite H4. cbn [mbind option_bind].
  rewrite H5. destruct (n * h * w =? 1); [done|].
  cbn [mbind option_bind].
  rewrite (lateral_shape n 2048 out_channels h w) by lia.
  rewrite (lateral_shape n 1024 out_channels (2 * h) (2 * w)) by lia.
  rewrite (lateral_shape n 512 out_channels (4 * h) (4 * w)) by lia.
  rewrite (lateral_shape n 256 out_channels (8 * h) (8 * w)) by lia.
  cbn [F_upsample_shape mbind option_bind].
  replace (h * 2) with (2 * h) by lia. replace (w * 2) with (2 * w) by lia.
  shape_step add_shape_same. cbn [F_upsample_shape mbind option_bind].
  replace (2 * h * 2) with (4 * h) by lia.
  replace (2 * w * 2) with (4 * w) by lia.
  shape_step add_shape_same. cbn [F_upsample_shape mbind option_bind].
  replace (4 * h * 2) with (8 * h) by lia.
  replace (4 * w * 2) with (8 * w) by lia.
  shape_step add_shape_same.
  rewrite !smooth_shape by lia. cbn [mbind option_bind].
  shape_step prim_shape_maxpool.
  reflexivity.
Qed.

Lemma FPN_forward_shape_pyramid_witness :
  ∃ self fpn,
    ResNet_init "resnet50" true = Some self ∧
    FPN_of_stages (ResNet_stages self) 256 = Some fpn ∧
    FPN_forward_shape fpn [1; 3; 32 * 3; 32 * 5]
    = if 1 * 3 * 5 =? 1 then None
      else Some [[1; 256; 8 * 3; 8 * 5]; [1; 256; 4 * 3; 4 * 5];
                 [1; 256; 2 * 3; 2 * 5]; [1; 256; 3; 5];
                 [1; 256; (3 - 1) / 2 + 1; (5 - 1) / 2 + 1]].
Proof.
  eexists.
  destruct (FPN_forward_shape_pyramid "resnet50" _ 256 1 3 5 eq_refl)
    as (fpn & Hfpn & Hshape); [lia..|].
  exists fpn. split; [reflexivity|]. split; [exact Hfpn|exact Hshape].
Defined.

Ltac mask_conv_step pool :=
  shape_step prim_shape_samepad_stride1;
  shape_step prim_shape_conv2d;
  rewrite !Z.div_1_r;
  replace (pool + 3 - 1 + 2 * 0 - 3 + 1) with pool by lia;
  shape_step prim_shape_bn; shape_step prim_shape_relu.

(** X4: for pooled RoI features of [depth] channels the mask head ends with
    one map per class at twice the pooled resolution; in the training mode
    it is constructed in, it raises on a single RoI pooled to one cell,
    where its batch normalisations have one value per channel. *)
Theorem Mask_forward_shape (depth pool N nc : Z) (image_shape : list Z) :
  1 <= depth → 1 <= pool → 1 <= N → 1 <= nc →
  Mask_forward (Mask_init depth pool image_shape nc) N depth
  = if N * pool * pool =? 1 then None
    else Some [N; nc; 2 * pool; 2 * pool].
Proof.
  intros _ Hpool _ _. unfold Mask_forward, pyramid_roi_align_shape.
  cbn [Mask_init mask_pool_size mask_padding mask_conv1 mask_bn1 mask_conv2
       mask_bn2 mask_conv3 mask_bn3 mask_conv4 mask_bn4 deconv conv5 sigmoid
       mask_relu mask_layer_shape].
  destruct (Z.eqb_spec (N * pool * pool) 1) as [Hone|Hvalues].
  { shape_step prim_shape_samepad_stride1.
    shape_step prim_shape_conv2d.
    rewrite !Z.div_1_r.
    replace (pool + 3 - 1 + 2 * 0 - 3 + 1) with pool by lia.
    by rewrite prim_shape_bn_single by exact Hone. }
  mask_conv_step pool. mask_conv_step pool.
  mask_conv_step pool. mask_conv_step pool.
  rewrite Z.eqb_refl.
  replace (0 <? pool) with true by (symmetry; apply Z.ltb_lt; lia).
  cbn [andb Z.ltb Z.compare mbind option_bind].
  shape_step prim_shape_relu.
  shape_step lateral_shape.
  replace ((pool - 1) * 2 + 2) with (2 * pool) by lia. reflexivity.
Qed.

Lemma Mask_forward_shape_witness :
  Mask_forward (Mask_init 256 14 [1024; 1024; 3] 81) 100 256
  = if 100 * 14 * 14 =? 1 then None else Some [100; 81; 2 * 14; 2 * 14].
Proof.
  apply (Mask_forward_shape 256 14 100 81 [1024; 1024; 3]); lia.
Defined.

Lemma make_layer_shape_witness :
  Sequential_shape (make_layer 256 128 4 2).1 [2; 256; 25; 38]
  = (if 2 * ((25 - 1) / 2 + 1) * ((38 - 1) / 2 + 1) =? 1 then None
     else Some [2; 128 * 4; (25 - 1) / 2 + 1; (38 - 1) / 2 + 1])
  ∧ (make_layer 256 128 4 2).2 = 128 * 4.
Proof. apply (make_layer_shape 256 128 4 2 2 25 38); lia. Defined.

(** ** The pyramid over a backbone without its fifth stage *)

Section FPNStages.
Context {A : Type} (zero : A) (add : A → A → A).
Context (numeric : prim → tensor4 A → option (tensor4 A)).

(** X5: a pyramid constructed from the stages of a ResNet built with
    [stage5=False] receives [None] as [C5] and raises on every input. *)
Theorem FPN_forward_without_stage5 architecture self out_channels fpn
    (x : tensor4 A) :
  ResNet_init architecture false = Some self →
  FPN_of_stages (ResNet_stages self) out_channels = Some fpn →
  fpn_C5 fpn = None ∧ FPN_forward zero add numeric fpn x = None.
Proof.
  intros Hinit Hfpn.
  pose proof (ResNet_init_C5 _ _ _ Hinit eq_refl) as HC5.
  unfold ResNet_stages, FPN_of_stages in Hfpn. rewrite HC5 in Hfpn.
  injection Hfpn as <-. split; [done|].
  unfold FPN_forward. cbn [FPN_init fpn_C1 fpn_C2 fpn_C3 fpn_C4 fpn_C5 call].
  destruct (Sequential_forward _ _ _ (C1 self) x) as [x1|]; [|done].
  cbn [mbind option_bind].
  destruct (Sequential_forward _ _ _ (C2 self) x1) as [x2|]; [|done].
  cbn [mbind option_bind].
  destruct (Sequential_forward _ _ _ (C3 self) x2) as [x3|]; [|done].
  cbn [mbind option_bind].
  destruct (Sequential_forward _ _ _ (C4 self) x3) as [x4|]; done.
Qed.
End FPNStages.

Lemma FPN_forward_without_stage5_witness :
  ∃ self fpn,
    ResNet_init "resnet101" false = Some self ∧
    FPN_of_stages (ResNet_stages self) 256 = Some fpn ∧
    FPN_forward 0 Z.add numeric_sample fpn (full 1 3 64 64 1) = None.
Proof.
  assert (∃ self, ResNet_init "resnet101" false = Some self) as [self Hself]
    by (eexists; vm_compute; reflexivity).
  exists self. eexists. split; [exact Hself|]. split; [reflexivity|].
  eapply proj2, (FPN_forward_without_stage5 0 Z.add numeric_sample);
    [exact Hself | reflexivity].
Defined.

(** ** More on SamePad2d *)

(** X6: on a rectangular tensor [SamePad2d.forward], when it returns, returns
    a rectangular tensor with the same batch and channel counts, and its
    spatial sizes are those of the shape calculus. *)
Theorem SamePad2d_forward_shaped {A} (zero : A) self (x y : tensor4 A)
    (N C H W : nat) :
  shaped N C H W x → (0 < N)%nat → (0 < C)%nat → (0 < H)%nat →
  SamePad2d_forward zero self x = Some y →
  ∃ H' W' : nat,
    prim_shape (SamePad self)
      [Z.of_nat N; Z.of_nat C; Z.of_nat H; Z.of_nat W]
    = Some [Z.of_nat N; Z.of_nat C; Z.of_nat H'; Z.of_nat W'] ∧
    shaped N C H' W' y.
Proof.
  intros Hx HN HC HH Hy.
  destruct (shaped_sizes _ _ _ _ _ Hx HN HC HH) as [Hs2 Hs3].
  unfold SamePad2d_forward in Hy. rewrite Hs2, Hs3 in Hy.
  apply bind_Some_inv in Hy as ([[[l r] t] b] & Hpads & Hy).
  destruct Hx as [HlenN Himgs].
  unfold F_pad in Hy. apply mapM_Some in Hy.
  assert (∀ p q, plane_shaped H W p →
            F_pad_plane zero (l, r, t, b) p = Some q →
            0 <= Z.of_nat H + t + b ∧ 0 <= Z.of_nat W + l + r ∧
            plane_shaped (Z.to_nat (Z.of_nat H + t + b))
              (Z.to_nat (Z.of_nat W + l + r)) q) as Hplane.
  { intros p q Hp Hq.
    destruct (F_pad_plane_shape zero l r t b p q H W Hp HH Hq) as [Hlen Hall].
    pose proof (F_pad_plane_cols_nonneg zero l r t b p q H W Hp HH Hq).
    split; [lia|]. split; [done|]. split; [lia|].
    eapply Forall_impl; [exact Hall|]. simpl. lia. }
  assert (0 <= Z.of_nat H + t + b ∧ 0 <= Z.of_nat W + l + r) as [Hrows Hcols].
  { destruct x as [|img x]; [simpl in HlenN; lia|].
    apply Forall_cons in Himgs as [[HlenC Hplanes] _].
    destruct img as [|p img]; [simpl in HlenC; lia|].
    apply Forall_cons in Hplanes as [Hp _].
    apply Forall2_cons_inv_l in Hy as (img' & y' & Himg' & _ & _).
    apply mapM_Some in Himg'.
    apply Forall2_cons_inv_l in Himg' as (q & img'' & Hq & _ & _).
    destruct (Hplane p q Hp Hq) as (? & ? & _). done. }
  exists (Z.to_nat (Z.of_nat H + t + b)), (Z.to_nat (Z.of_nat W + l + r)).
  split.
  - cbn [prim_shape]. rewrite Hpads. cbn [mbind option_bind].
    replace (_ <? 0) with false by (symmetry; apply Z.ltb_ge; lia).
    replace (_ <? 0) with false by (symmetry; apply Z.ltb_ge; lia).
    cbn [orb]. by rewrite !Z2Nat.id by done.
  - split; [by rewrite <- (Forall2_length _ _ _ Hy)|].
    apply Forall_lookup. intros i img' Himg'.
    destruct (Forall2_lookup_r _ _ _ _ _ Hy Himg') as (img & Himg & Hpl).
    rewrite Forall_lookup in Himgs. destruct (Himgs _ _ Himg) as [HlenC Hps].
    apply mapM_Some in Hpl. split.
    + by rewrite <- (Forall2_length _ _ _ Hpl).
    + apply Forall_lookup. intros j q Hq.
      destruct (Forall2_lookup_r _ _ _ _ _ Hpl Hq) as (p & Hp & Hpq).
      rewrite Forall_lookup in Hps.
      by destruct (Hplane p q (Hps _ _ Hp) Hpq) as (_ & _ & ?).
Qed.

Lemma SamePad2d_forward_shaped_witness :
  ∃ y H' W',
    SamePad2d_forward 0 (SamePad2d_init 3 4) (full 2 3 4 6 7) = Some y ∧
    prim_shape (SamePad (SamePad2d_init 3 4)) [2; 3; 4; 6]
    = Some [2; 3; Z.of_nat H'; Z.of_nat W'] ∧
    shaped 2 3 H' W' y.
Proof.
  assert (∃ y, SamePad2d_forward 0 (SamePad2d_init 3 4) (full 2 3 4 6 7)
               = Some y) as [y Hfw] by (eexists; vm_compute; reflexivity).
  destruct (SamePad2d_forward_shaped 0 (SamePad2d_init 3 4)
              (full 2 3 4 6 7) y 2 3 4 6) as (H' & W' & Hshape & Hy);
    [repeat constructor | lia | lia | lia | exact Hfw |].
  exists y, H', W'. split; [exact Hfw|]. split; [exact Hshape|exact Hy].
Defined.

(** X7: with stride 1 the module followed by a convolution of the same
    kernel size keeps both spatial sizes of every input, square or not. *)
Theorem samepad_conv_size_stride1 {A} (zero : A) (k : Z) (x : tensor4 A)
    (N C H W : nat) :
  shaped N C H W x →
  (0 < N)%nat → (0 < C)%nat → (0 < H)%nat → (0 < W)%nat → 1 <= k →
  samepad_conv_size zero k 1 x = Some (Z.of_nat H, Z.of_nat W).
Proof.
  intros Hx HN HC HH HW Hk.
  destruct (SamePad2d_forward_nonneg zero k 1 x ltac:(lia) Hk)
    as (l & r & t & b & y & Hpads & Hy & Hl & Ht & Hlr & Htb).
  destruct (shaped_sizes _ _ _ _ _ Hx HN HC HH) as [Hs2 Hs3].
  rewrite Hs2, Hs3, SamePad2d_pads_stride1 in Hpads.
  injection Hpads as <- <- <- <-.
  destruct (SamePad2d_forward_size zero (SamePad2d_init k 1) x y N C H W
              ((k - 1) / 2) (k - 1 - (k - 1) / 2)
              ((k - 1) / 2) (k - 1 - (k - 1) / 2))
    as [Hy2 Hy3]; [done..|apply SamePad2d_pads_stride1|done|lia|].
  unfold samepad_conv_size. rewrite Hy. cbn [mbind option_bind].
  rewrite Hy2, Hy3.
  rewrite !conv_out_size_Some by lia. cbn [mbind option_bind].
  do 2 f_equal; lia.
Qed.

Lemma samepad_conv_size_stride1_witness :
  samepad_conv_size 0 3 1 (full 1 2 4 7 5) = Some (4, 7).
Proof.
  apply (samepad_conv_size_stride1 0 3 (full 1 2 4 7 5) 1 2 4 7);
    [repeat constructor | lia..].
Defined.

(** X8: kernel 3 and stride 2, as in the stem: sides of equal parity are
    halved rounding up; when the parities differ, the odd side comes out
    one cell short, and a side of length one is then too short for the
    kernel, so that the convolution raises. *)
Theorem samepad_conv_size_3_2 {A} (zero : A) (x : tensor4 A)
    (N C H W : nat) :
  shaped N C H W x →
  (0 < N)%nat → (0 < C)%nat → (0 < H)%nat → (0 < W)%nat →
  let h := Z.of_nat H in
  let w := Z.of_nat W in
  samepad_conv_size zero 3 2 x
  = if (h =? 1) && Z.even w || (w =? 1) && Z.even h then None
    else Some ((h + 1) / 2 - (if Z.odd h && Z.even w then 1 else 0),
               (w + 1) / 2 - (if Z.odd w && Z.even h then 1 else 0)).
Proof.
  intros Hx HN HC HH HW h w.
  destruct (SamePad2d_forward_nonneg zero 3 2 x ltac:(lia) ltac:(lia))
    as (l & r & t & b & y & Hpads & Hy & Hl & Ht & Hlr & Htb).
  destruct (shaped_sizes _ _ _ _ _ Hx HN HC HH) as [Hs2 Hs3].
  rewrite Hs2, Hs3 in Hpads. fold h w in Hpads.
  destruct (SamePad2d_forward_size zero (SamePad2d_init 3 2) x y N C H W
              l r t b) as [Hy2 Hy3]; [done..|lia|].
  fold h w in Hy2, Hy3.
  unfold SamePad2d_pads, ceil_div in Hpads.
  cbn [SamePad2d_init stride kernel_size _pair fst snd Z.eqb mbind
       option_bind] in Hpads.
  injection Hpads as Hl' Hr' Ht' Hb'.
  unfold samepad_conv_size. rewrite Hy. cbn [mbind option_bind].
  rewrite Hy2, Hy3. unfold conv_out_size.
  change (2 <=? 0) with false. rewrite !orb_false_r.
  assert (0 < h ∧ 0 < w) as [Hh Hw] by (unfold h, w; lia).
  clearbody h w.
  rewrite <- !Z.negb_odd, <- !Z.bit0_odd, !Z.bit0_eqb.
  destruct (Z.eqb_spec (h mod 2) 1) as [HbH|HbH];
    destruct (Z.eqb_spec (w mod 2) 1) as [HbW|HbW];
    destruct (Z.eqb_spec h 1) as [Hh1|Hh1];
    destruct (Z.eqb_spec w 1) as [Hw1|Hw1];
    cbn [andb orb negb];
    repeat match goal with
           | |- context [?a <? 3] =>
               destruct (Z.ltb_spec a 3); cbn [mbind option_bind]
           end;
    try done; try lia; do 2 f_equal; lia.
Qed.

Lemma samepad_conv_size_3_2_witness :
  samepad_conv_size 0 3 2 (full 1 1 5 8 0) = Some (2, 4).
Proof.
  apply (samepad_conv_size_3_2 0 (full 1 1 5 8 0) 1 1 5 8);
    [repeat constructor | lia..].
Defined.

(** ** Residual blocks without a projection *)

Lemma product_not_one (n h w : Z) : 2 <= h → 1 <= w → n * h * w ≠ 1.
Proof.
  intros Hh Hw Hone.
  replace (n * h * w) with (h * (n * w)) in Hone by ring.
  apply Z.eq_mul_1_nonneg in Hone; lia.
Qed.

(** X9: a [Bottleneck] built without [downsample] adds its input to its
    output as it is: on an input with at least two channels, rows and
    columns the forward pass succeeds exactly when the stride is one and the
    input has [planes * expansion] channels; this is the negation of the
    condition under which [make_layer] supplies a [downsample]. *)
Theorem Bottleneck_without_downsample (inplanes planes stride n h w : Z) :
  2 <= inplanes → 2 <= h → 2 <= w →
  is_Some (Bottleneck_shape (Bottleneck_init inplanes planes stride None)
             [n; inplanes; h; w])
  ↔ stride = 1 ∧ inplanes = planes * expansion.
Proof.
  intros Hc Hh Hw. split.
  - intros [out Hout]. revert Hout. unfold Bottleneck_shape.
    cbn [Bottleneck_init conv1 bn1 relu padding2 conv2 bn2 conv3 bn3
           downsample].
    destruct (Z.le_gt_cases stride 0) as [Hs|Hs].
    { cbn [prim_shape]. rewrite Z.eqb_refl. unfold conv_out_size.
      replace (stride <=? 0) with true by (symmetry; apply Z.leb_le; lia).
      rewrite !orb_true_r. intros Hout. simpl in Hout. discriminate. }
    pose proof (Z.div_pos (h - 1) stride ltac:(lia) ltac:(lia)).
    pose proof (Z.div_pos (w - 1) stride ltac:(lia) ltac:(lia)).
    shape_step prim_shape_conv2d.
    replace (h + 2 * 0 - 1) with (h - 1) by lia.
    replace (w + 2 * 0 - 1) with (w - 1) by lia.
    set (h' := (h - 1) / stride + 1). set (w' := (w - 1) / stride + 1).
    destruct (Z.eq_dec (n * h' * w') 1) as [Hone|Hvalues].
    { by rewrite prim_shape_bn_single by exact Hone. }
    rewrite !prim_shape_bn by exact Hvalues. cbn [mbind option_bind].
    shape_step prim_shape_relu.
    shape_step prim_shape_samepad_stride1.
    shape_step prim_shape_conv2d.
    replace ((h' + 3 - 1 + 2 * 0 - 3) / 1 + 1) with h'
      by (rewrite Z.div_1_r; lia).
    replace ((w' + 3 - 1 + 2 * 0 - 3) / 1 + 1) with w'
      by (rewrite Z.div_1_r; lia).
    rewrite !prim_shape_bn by exact Hvalues. cbn [mbind option_bind].
    shape_step prim_shape_relu.
    shape_step prim_shape_conv2d.
    replace ((h' + 2 * 0 - 1) / 1 + 1) with h' by (rewrite Z.div_1_r; lia).
    replace ((w' + 2 * 0 - 1) / 1 + 1) with w' by (rewrite Z.div_1_r; lia).
    rewrite !prim_shape_bn by exact Hvalues. cbn [mbind option_bind].
    unfold add_shape. cbn [length bool_decide decide_rel zip zip_with mapM].
    rewrite bool_decide_eq_true_2 by done.
    cbn [mapM zip zip_with fst snd mbind option_bind].
    rewrite Z.eqb_refl. cbn [mbind option_bind].
    destruct (Z.eqb_spec (planes * 4) inplanes) as [Hp|Hp]; cycle 1.
    { replace (inplanes =? 1) with false
        by (symmetry; apply Z.eqb_neq; lia).
      cbn [negb]. rewrite !andb_false_r. intros Hout. simpl in Hout.
      discriminate. }
    destruct (Z.eqb_spec h' h) as [Hh'|Hh']; cycle 1.
    { replace (h =? 1) with false by (symmetry; apply Z.eqb_neq; lia).
      cbn [negb]. rewrite !andb_false_r. intros Hout. simpl in Hout.
      discriminate. }
    intros _. unfold expansion. split; [|lia].
    unfold h' in Hh'. nia.
  - intros [-> ->].
    pose proof (Bottleneck_shape_make_layer (planes * expansion) planes 1
                  n h w ltac:(lia) ltac:(lia) ltac:(lia)) as Hrun.
    rewrite !Z.div_1_r in Hrun.
    replace (h - 1 + 1) with h in Hrun by lia.
    replace (w - 1 + 1) with w in Hrun by lia.
    specialize (Hrun (product_not_one n h w Hh ltac:(lia))).
    rewrite bool_decide_eq_false_2 in Hrun by (intros [?|?]; done).
    by rewrite Hrun.
Qed.

Lemma Bottleneck_without_downsample_witness :
  is_Some (Bottleneck_shape (Bottleneck_init 256 64 1 None)
             [2; 256; 56; 56])
  ↔ 1 = 1 ∧ 256 = 64 * expansion.
Proof.
  apply (Bottleneck_without_downsample 256 64 1 2 56 56); lia.
Defined.

(** ** Anchors of the region proposal network *)

Lemma permute_shape_0231 (n c h w : Z) :
  permute_shape [0; 2; 3; 1]%nat [n; c; h; w] = Some [n; h; w; c].
Proof.
  unfold permute_shape. rewrite bool_decide_eq_true_2; [done|].
  split; [done|]. apply NoDup_ListNoDup. repeat constructor; simpl; lia.
Qed.

Lemma view_shape_anchors (n h w a k : Z) :
  1 <= n → 1 <= k → 0 <= h → 0 <= w → 0 <= a →
  view_shape [n; -1; k] [n; h; w; k * a] = Some [n; h * w * a; k].
Proof.
  intros Hn Hk Hh Hw Ha. unfold view_shape.
  rewrite !filter_cons. repeat case_decide; try lia.
  rewrite !filter_nil. cbn [length numel foldr map].
  replace (n * (k * 1) =? 0) with false by (symmetry; apply Z.eqb_neq; nia).
  replace (n * (h * (w * (k * a * 1)))) with ((h * w * a) * (n * (k * 1)))
    by ring.
  rewrite Z.mod_mul, Z.div_mul by nia. cbn [orb negb Z.eqb].
  repeat f_equal.
  - by replace (n =? -1) with false by (symmetry; apply Z.eqb_neq; lia).
  - by replace (k =? -1) with false by (symmetry; apply Z.eqb_neq; lia).
Qed.

Lemma RPN_heads_shape (self : RPN) (a n h w : Z) (x : list Z) :
  1 <= n → 1 <= a → 1 <= h → 1 <= w →
  conv_class self = Conv2d 512 (2 * a) 1 1 0 →
  rpn_softmax self = Softmax 2 →
  conv_bbox self = Conv2d 512 (4 * a) 1 1 0 →
  rpn_relu self = ReLU →
  (x ← prim_shape (rpn_padding self) x; prim_shape (conv_shared self) x)
    = Some [n; 512; h; w] →
  RPN_forward_shape self x
  = Some [[n; h * w * a; 2]; [n; h * w * a; 2]; [n; h * w * a; 4]].
Proof.
  intros Hn Ha Hh Hw Hclass Hsoft Hbbox Hrelu Hshared.
  unfold RPN_forward_shape.
  destruct (prim_shape (rpn_padding self) x) as [x1|]; [|done].
  cbn [mbind option_bind] in *. rewrite Hshared, Hrelu, Hclass, Hbbox, Hsoft.
  cbn [mbind option_bind].
  shape_step prim_shape_relu.
  rewrite (lateral_shape n 512 (2 * a) h w) by lia.
  rewrite (lateral_shape n 512 (4 * a) h w) by lia.
  cbn [mbind option_bind]. rewrite !permute_shape_0231.
  cbn [mbind option_bind lookup list_lookup].
  rewrite (view_shape_anchors n h w a 2) by lia.
  rewrite (view_shape_anchors n h w a 4) by lia.
  cbn [mbind option_bind]. reflexivity.
Qed.

(** X10: with [anchor_stride = 1] the network proposes
    [anchors_per_location] anchors for every pixel of the feature map: on a
    [N x depth x H x W] map the three outputs have [H * W * anchors]
    rows of 2, 2 and 4 entries. *)
Theorem RPN_forward_shape_stride1 (a depth n h w : Z) :
  1 <= n → 1 <= a → 1 <= h → 1 <= w →
  RPN_forward_shape (RPN_init a 1 depth) [n; depth; h; w]
  = Some [[n; h * w * a; 2]; [n; h * w * a; 2]; [n; h * w * a; 4]].
Proof.
  intros Hn Ha Hh Hw.
  apply (RPN_heads_shape _ a n h w); try done.
  cbn [RPN_init rpn_padding conv_shared].
  shape_step prim_shape_samepad_stride1.
  rewrite prim_shape_conv2d by lia.
  apply (f_equal Some).
  repeat (apply (f_equal2 cons); [lia|]). reflexivity.
Qed.

Lemma RPN_forward_shape_stride1_witness :
  RPN_forward_shape (RPN_init 3 1 256) [2; 256; 32; 48]
  = Some [[2; 32 * 48 * 3; 2]; [2; 32 * 48 * 3; 2]; [2; 32 * 48 * 3; 4]].
Proof. apply (RPN_forward_shape_stride1 3 256 2 32 48); lia. Defined.

(** X11: with [anchor_stride = 2] and a feature map of even height and
    width the anchors sit at every other pixel: a [N x depth x 2H x 2W] map
    gives [H * W * anchors] rows. *)
Theorem RPN_forward_shape_stride2 (a depth n h w : Z) :
  1 <= n → 1 <= a → 1 <= h → 1 <= w →
  RPN_forward_shape (RPN_init a 2 depth) [n; depth; 2 * h; 2 * w]
  = Some [[n; h * w * a; 2]; [n; h * w * a; 2]; [n; h * w * a; 4]].
Proof.
  intros Hn Ha Hh Hw.
  apply (RPN_heads_shape _ a n h w); try done.
  cbn [RPN_init rpn_padding conv_shared].
  shape_step prim_shape_samepad_3_2_even.
  rewrite prim_shape_conv2d by lia.
  apply (f_equal Some).
  repeat (apply (f_equal2 cons); [lia|]). reflexivity.
Qed.

Lemma RPN_forward_shape_stride2_witness :
  RPN_forward_shape (RPN_init 3 2 256) [2; 256; 2 * 16; 2 * 24]
  = Some [[2; 16 * 24 * 3; 2]; [2; 16 * 24 * 3; 2]; [2; 16 * 24 * 3; 4]].
Proof. apply (RPN_forward_shape_stride2 3 256 2 16 24); lia. Defined.

(** ** Training loops *)

Lemma py_mod_Ok (a b : Z) : b ≠ 0 → py_mod a b = Ok (a mod b).
Proof.
  intros Hb. unfold py_mod.
  by replace (b =? 0) with false by (symmetry; by apply Z.eqb_neq).
Qed.

Lemma py_ceil_div_bounds (n b : Z) :
  0 <= n → 1 <= b →
  ∃ c, py_ceil_div n b = Ok c ∧ 0 <= c <= n ∧ (1 <= n → 1 <= c).
Proof.
  intros Hn Hb. unfold py_ceil_div.
  replace (b =? 0) with false by (symmetry; apply Z.eqb_neq; lia).
  eexists. split; [reflexivity|].
  pose proof (Z.div_mod (- n) b ltac:(lia)).
  pose proof (Z.mod_pos_bound (- n) b ltac:(lia)).
  nia.
Qed.

Section TrainingFacts.
Context {P G Batch S : Type}.
Context (loss_of : P → Batch → S) (grad_of : P → Batch → G).
Context (gzero : G) (gadd : G → G → G) (clip_grad_norm : G → G).
Context (optimizer_step : P → G → P).
Context (szero : S) (sadd : S → S → S) (sdiv : S → Z → S).

Local Abbreviation loop_new :=
  (train_epoch_new_loop loss_of grad_of gzero gadd clip_grad_norm
     optimizer_step sadd sdiv).
Local Abbreviation run_new :=
  (train_epoch_new loss_of grad_of gzero gadd clip_grad_norm
     optimizer_step szero sadd sdiv).
Local Abbreviation loop_old :=
  (train_epoch_loop loss_of grad_of gzero gadd clip_grad_norm
     optimizer_step sadd sdiv).
Local Abbreviation run_old :=
  (train_epoch loss_of grad_of gzero gadd clip_grad_norm
     optimizer_step szero sadd sdiv).
Local Abbreviation update :=
  (sgd_update grad_of gzero gadd clip_grad_norm optimizer_step).

Lemma train_epoch_new_loop_ok config start_iter iter_per_epoch save_iter_base
    (iters : list Z) (data : list Batch) (w : World (P:=P) (G:=G))
    (loss_sum : S) :
  SHOW_INTERVAL config ≠ 0 → iter_per_epoch ≠ 0 → save_iter_base ≠ 0 →
  (length iters <= length data)%nat →
  ∃ w' total,
    loop_new config start_iter iter_per_epoch save_iter_base iters data w
      loss_sum = (w', Ok total) ∧
    params w'
      = sgd grad_of gzero gadd clip_grad_norm optimizer_step (params w)
          (take (length iters) data) ∧
    (saved w').*1
      = (saved w).*1 ++ filter (λ i, i mod save_iter_base = 0) iters.
Proof.
  intros Hshow Hipe Hbase. revert data w loss_sum.
  induction iters as [|i iters IH]; intros data w loss_sum Hlen.
  - exists w, loss_sum. simpl. by rewrite app_nil_r.
  - destruct data as [|b data]; [simpl in Hlen; lia|].
    cbn [train_epoch_new_loop]. rewrite !py_mod_Ok by done.
    replace (iter_per_epoch =? 0) with false
      by (symmetry; by apply Z.eqb_neq).
    match goal with
    | |- ∃ w' total, loop_new _ _ _ _ _ _ ?w1 ?l1 = _ ∧ _ =>
        destruct (IH data w1 l1) as (w' & total & Hrun & Hp & Hs);
          [simpl in Hlen; lia|]
    end.
    exists w', total. split; [exact Hrun|]. split.
    + rewrite Hp. cbn [length take]. unfold sgd. cbn [foldl].
      f_equal. by destruct ((_ =? 0) || _), (_ =? 0).
    + rewrite Hs. rewrite filter_cons.
      destruct (Z.eqb_spec (i mod save_iter_base) 0) as [Hi|Hi].
      * rewrite decide_True by done.
        destruct ((_ =? 0) || _); cbn [torch_save saved print_log];
          by rewrite fmap_app, <- app_assoc.
      * rewrite decide_False by done.
        by destruct ((_ =? 0) || _).
Qed.

(** X12: an epoch of [train_epoch_new] that has at least as many iterations
    as checkpoints per epoch completes without exhausting the loader: it
    applies one single-batch update per iteration to the first batches of
    the loader and writes a checkpoint exactly at the iterations divisible
    by [save_iter_base]. *)
Theorem train_epoch_new_completes config (data_loader : list Batch)
    (start_iter : Z) (w : World (P:=P) (G:=G)) iter_per_epoch save_iter_base :
  1 <= BATCH_SIZE config → 1 <= SAVE_TIME_WITHIN_EPOCH config →
  SHOW_INTERVAL config ≠ 0 → 1 <= start_iter →
  py_ceil_div (Z.of_nat (length data_loader)) (BATCH_SIZE config)
    = Ok iter_per_epoch →
  py_floor_div iter_per_epoch (SAVE_TIME_WITHIN_EPOCH config)
    = Ok save_iter_base →
  1 <= save_iter_base →
  ∃ w' total,
    run_new config data_loader start_iter w = (w', Ok total) ∧
    params w'
      = sgd grad_of gzero gadd clip_grad_norm optimizer_step (params w)
          (take (Z.to_nat (iter_per_epoch + 1 - start_iter)) data_loader) ∧
    (saved w').*1
      = (saved w).*1
        ++ filter (λ i, i mod save_iter_base = 0)
             (range start_iter (iter_per_epoch + 1)).
Proof.
  intros HBS Hsave Hshow Hstart Hipe Hbase Hbase1.
  destruct (py_ceil_div_bounds (Z.of_nat (length data_loader))
              (BATCH_SIZE config) ltac:(lia) HBS) as (c & Hc & Hcn & _).
  rewrite Hc in Hipe. injection Hipe as <-.
  assert (c ≠ 0) as Hc0.
  { intros ->. unfold py_floor_div in Hbase.
    destruct (_ =? 0); [done|]. injection Hbase as <-.
    rewrite Z.div_0_l in Hbase1 by lia. lia. }
  unfold train_epoch_new. rewrite Hc, Hbase.
  destruct (train_epoch_new_loop_ok config start_iter c save_iter_base
              (range start_iter (c + 1)) data_loader w szero)
    as (w' & total & Hrun & Hp & Hs); [done | done | lia | |].
  { unfold range. rewrite length_seqZ. lia. }
  exists w', total. split; [exact Hrun|]. split; [|exact Hs].
  rewrite Hp. unfold range. by rewrite length_seqZ.
Qed.


Lemma train_epoch_loop_params config steps (data : list Batch)
    (w : World (P:=P) (G:=G)) batch_count loss_sum step :
  BATCH_SIZE config ≠ 0 → SHOW_INTERVAL config ≠ 0 →
  0 <= step < steps →
  ∃ w' total,
    loop_old config steps data w batch_count loss_sum step = (w', Ok total) ∧
    params w'
      = sgd_every grad_of gzero gadd clip_grad_norm optimizer_step
          (BATCH_SIZE config) (params w) batch_count
          (take (Z.to_nat (steps - step)) data).
Proof.
  intros HBS Hshow. revert w batch_count loss_sum step.
  induction data as [|b data IH]; intros w batch_count loss_sum step Hstep.
  - exists w, loss_sum. by rewrite take_nil.
  - cbn [train_epoch_loop]. rewrite !py_mod_Ok by done.
    replace (steps =? 0) with false by (symmetry; apply Z.eqb_neq; lia).
    replace (Z.to_nat (steps - step))
      with (Datatypes.S (Z.to_nat (steps - (step + 1)))) by lia.
    cbn [take sgd_every].
    destruct (Z.eqb_spec step (steps - 1)) as [Hlast|Hnext].
    + eexists _, _. split; [reflexivity|].
      replace (Z.to_nat (steps - (step + 1))) with 0%nat by lia.
      cbn [take sgd_every].
      destruct ((batch_count + 1) mod BATCH_SIZE config =? 0);
        by destruct (step mod SHOW_INTERVAL config =? 0).
    + match goal with
      | |- ∃ w' total, loop_old _ _ _ ?w1 ?c1 ?l1 _ = _ ∧ _ =>
          destruct (IH w1 c1 l1 (step + 1)) as (w' & total & Hrun & Hp);
            [lia|]
      end.
      exists w', total. split; [exact Hrun|]. rewrite Hp.
      destruct ((batch_count + 1) mod BATCH_SIZE config =? 0);
        by destruct (step mod SHOW_INTERVAL config =? 0).
Qed.

(** X14: [train_epoch] updates the parameters at every [BATCH_SIZE]-th batch
    only, and then from the clipped gradient of that batch alone: the
    gradients of the batches in between, and those left in the buffers by
    earlier calls, never reach the parameters. *)
Theorem train_epoch_params config (datagenerator : list Batch) (steps : Z)
    (w : World (P:=P) (G:=G)) :
  BATCH_SIZE config ≠ 0 → SHOW_INTERVAL config ≠ 0 → 1 <= steps →
  ∃ w' total,
    run_old config datagenerator steps w = (w', Ok total) ∧
    params w'
      = sgd_every grad_of gzero gadd clip_grad_norm optimizer_step
          (BATCH_SIZE config) (params w) 0
          (take (Z.to_nat steps) datagenerator).
Proof.
  intros HBS Hshow Hsteps. unfold train_epoch.
  destruct (train_epoch_loop_params config steps datagenerator w 0 szero 0)
    as (w' & total & Hrun & Hp); [done | done | lia |].
  exists w', total. split; [exact Hrun|].
  by replace (steps - 0) with steps in Hp by lia.
Qed.

(** X15: with [steps = 0], or a zero [BATCH_SIZE] or [SHOW_INTERVAL],
    [train_epoch] raises [ZeroDivisionError] at the first batch. *)
Theorem train_epoch_zero_division config (b : Batch)
    (datagenerator : list Batch) (steps : Z) (w : World (P:=P) (G:=G)) :
  BATCH_SIZE config = 0 ∨ SHOW_INTERVAL config = 0 ∨ steps = 0 →
  (run_old config (b :: datagenerator) steps w).2 = Raise ZeroDivisionError.
Proof.
  intros Hzero. unfold train_epoch. cbn [train_epoch_loop].
  unfold py_mod.
  destruct (Z.eqb_spec (BATCH_SIZE config) 0) as [|HBS]; [done|].
  destruct (Z.eqb_spec (SHOW_INTERVAL config) 0) as [|Hshow]; [done|].
  destruct Hzero as [? | [? | Hs] ]; [done..|]. by rewrite Hs.
Qed.

End TrainingFacts.

Lemma train_epoch_new_completes_witness :
  ∃ w' total,
    toy_train_epoch_new (toy_config 2 2) [1; 2; 3; 4; 5; 6; 7; 8] 1 toy_world
      = (w', Ok total) ∧
    params w' = toy_sgd 100 (take 4 [1; 2; 3; 4; 5; 6; 7; 8]) ∧
    (saved w').*1 = [] ++ filter (λ i, i mod 2 = 0) (range 1 5).
Proof.
  apply (train_epoch_new_completes toy_loss toy_grad 0 Z.add toy_clip
           Z.add 0 Z.add Z.div (toy_config 2 2) [1; 2; 3; 4; 5; 6; 7; 8]
           1 toy_world 4 2);
    simpl; first [lia | reflexivity | discriminate].
Defined.



Lemma train_epoch_params_witness :
  ∃ w' total,
    toy_train_epoch (toy_config 3 1) [1; 2; 3; 4; 5; 6; 7; 8] 7 toy_world
      = (w', Ok total) ∧
    params w'
      = toy_sgd_every 3 100 0 (take 7 [1; 2; 3; 4; 5; 6; 7; 8]).
Proof.
  apply (train_epoch_params toy_loss toy_grad 0 Z.add toy_clip
           Z.add 0 Z.add Z.div (toy_config 3 1) [1; 2; 3; 4; 5; 6; 7; 8] 7
           toy_world);
    simpl; first [lia | discriminate].
Defined.

Lemma train_epoch_zero_division_witness :
  (toy_train_epoch (toy_config 0 1) [1; 2; 3] 7 toy_world).2
    = Raise ZeroDivisionError.
Proof.
  apply (train_epoch_zero_division toy_loss toy_grad 0 Z.add toy_clip
           Z.add 0 Z.add Z.div (toy_config 0 1) 1 [2; 3] 7 toy_world).
  left. reflexivity.
Defined.

(** ** Evaluation loop *)

Lemma py_index_Ok {A} (l : list A) (i : Z) (a : A) :
  lookupZ l i = Some a → py_index l i = Ok a.
Proof.
  unfold py_index, lookupZ. cbn zeta.
  destruct (Z.ltb_spec i 0); [done|].
  destruct (Z.ltb_spec i 0); [lia|]. by intros ->.
Qed.


Lemma lookupZ_Some_lt {A} (l : list A) (i : Z) :
  0 <= i < Z.of_nat (length l) → ∃ a, lookupZ l i = Some a.
Proof.
  intros Hi. unfold lookupZ.
  replace (i <? 0) with false by (symmetry; apply Z.ltb_ge; lia).
  apply lookup_lt_is_Some_2. lia.
Qed.

Lemma py_slice_take_drop {A} (l : list A) (a b : Z) :
  0 <= a <= b → b <= Z.of_nat (length l) →
  py_slice l a b = take (Z.to_nat (b - a)) (drop (Z.to_nat a) l).
Proof.
  intros Ha Hb. unfold py_slice.
  replace (a <? 0) with false by (symmetry; apply Z.ltb_ge; lia).
  replace (b <? 0) with false by (symmetry; apply Z.ltb_ge; lia).
  by rewrite !Z.min_l by lia.
Qed.

Lemma py_slice_prefix {A} (l : list A) (b : Z) :
  0 <= b → py_slice l 0 b = take (Z.to_nat b) l.
Proof.
  intros Hb. unfold py_slice. cbn [Z.ltb Z.compare].
  replace (b <? 0) with false by (symmetry; apply Z.ltb_ge; lia).
  rewrite (Z.min_l 0) by lia. rewrite Z.sub_0_r, drop_0.
  destruct (Z.le_gt_cases b (Z.of_nat (length l))).
  - by rewrite Z.min_l by lia.
  - rewrite Z.min_r by lia. by rewrite !take_ge by lia.
Qed.

Lemma flat_map_ext_Forall {A B} (f g : A → list B) (l : list A) :
  Forall (λ a, f a = g a) l → flat_map f l = flat_map g l.
Proof. induction 1 as [|a l Ha _ IH]; [done|]. simpl. by rewrite Ha, IH. Qed.

Lemma mapM_py_index (image_info image_ids : list Z) :
  Forall (λ id, 0 <= id < Z.of_nat (length image_info)) image_ids →
  ∃ coco_image_ids,
    mapM (py_index image_info) image_ids = Ok coco_image_ids ∧
    Forall2 (λ id c, lookupZ image_info id = Some c) image_ids
      coco_image_ids.
Proof.
  induction 1 as [|id ids Hid _ (coco & Hrun & Hall)].
  - by exists [].
  - destruct (lookupZ_Some_lt image_info id Hid) as [c Hc].
    exists (c :: coco). split; [|by constructor].
    cbn [mapM]. rewrite (py_index_Ok _ _ _ Hc). cbn.
    cbn [mapM] in Hrun. by rewrite Hrun.
Qed.

Lemma test_model_prologue {D} (image_info dataset_image_ids : list Z)
    (detections_of : list Z → nat → list D) config limit image_ids
    (ids : list Z) :
  test_image_ids dataset_image_ids limit image_ids = ids →
  1 <= BATCH_SIZE config → GPU_COUNT config ≠ 0 →
  (Z.of_nat (length ids) mod BATCH_SIZE config) mod GPU_COUNT config = 0 →
  ids ≠ [] →
  Forall (λ id, 0 <= id < Z.of_nat (length image_info)) ids →
  ∃ coco_image_ids total_iter,
    Forall2 (λ id c, lookupZ image_info id = Some c) ids coco_image_ids ∧
    1 <= total_iter ∧
    (total_iter - 1) * BATCH_SIZE config < Z.of_nat (length ids) ∧
    Z.of_nat (length ids) <= total_iter * BATCH_SIZE config ∧
    test_model image_info dataset_image_ids detections_of config limit
      image_ids
    = ('(results, cnt) ←
         test_model_loop detections_of config ids coco_image_ids
           (seqZ 0 total_iter) [] 0;
       Ok results).
Proof.
  intros Hids HBS HGPU Hassert Hne Hinfo.
  destruct (mapM_py_index image_info ids Hinfo) as (coco & Hcoco & Hall).
  destruct (py_ceil_div_bounds (Z.of_nat (length ids)) (BATCH_SIZE config)
              ltac:(lia) HBS) as (c & Hc & Hcn & Hc1).
  assert (1 <= Z.of_nat (length ids)) as Hn
    by (destruct ids; [done|simpl; lia]).
  exists coco, c. split; [done|]. split; [auto|].
  assert ((c - 1) * BATCH_SIZE config < Z.of_nat (length ids)
          ∧ Z.of_nat (length ids) <= c * BATCH_SIZE config) as [Hlo Hhi].
  { unfold py_ceil_div in Hc.
    destruct (BATCH_SIZE config =? 0); [done|]. injection Hc as <-.
    pose proof (Z.div_mod (- Z.of_nat (length ids)) (BATCH_SIZE config)
                  ltac:(lia)).
    pose proof (Z.mod_pos_bound (- Z.of_nat (length ids))
                  (BATCH_SIZE config) ltac:(lia)).
    nia. }
  do 2 (split; [done|]).
  unfold test_model. rewrite Hids.
  rewrite py_mod_Ok by lia. cbn [mbind result_bind].
  rewrite py_mod_Ok by lia. cbn [mbind result_bind].
  rewrite Hassert. cbn [Z.eqb negb].
  rewrite Hcoco, Hc. cbn [mbind result_bind].
  unfold range. rewrite Z.sub_0_r.
  destruct (test_model_loop _ _ _ _ _ _ _) as [[results cnt]|e]; [|done].
  cbn [mbind result_bind].
  by replace (Z.of_nat (length ids) =? 0) with false
    by (symmetry; apply Z.eqb_neq; lia).
Qed.

Section TestingFacts.
Context {D : Type}.
Context (image_info : list Z) (dataset_image_ids : list Z).
Context (detections_of : list Z → nat → list D).

(** The detections of an image do not depend on the batch it is in. *)
Context (det : Z → list D).
Hypothesis detections_per_image : ∀ curr_image_ids i id,
  curr_image_ids !! i = Some id → detections_of curr_image_ids i = det id.

Local Abbreviation entries image_ids :=
  (λ id, map (pair (curr_coco_id_of image_info image_ids id)) (det id)).

Lemma test_model_images_ok (image_ids coco_image_ids curr : list Z)
    (i : nat) (results : list (Z * D)) :
  Forall2 (λ id c, lookupZ image_info id = Some c) image_ids coco_image_ids →
  Forall (λ id, 0 <= id < Z.of_nat (length image_ids)) curr →
  test_model_images detections_of coco_image_ids curr i (drop i curr) results
    = Ok (results ++ flat_map (entries image_ids) (drop i curr)).
Proof.
  intros Hcoco Hcurr.
  remember (length curr - i)%nat as k eqn:Hk.
  revert i results Hk. induction k as [|k IH]; intros i results Hk.
  - rewrite drop_ge by lia. simpl. by rewrite app_nil_r.
  - destruct (lookup_lt_is_Some_2 curr i ltac:(lia)) as [id Hid].
    rewrite (drop_S _ _ _ Hid). cbn [test_model_images flat_map].
    rewrite (py_index_Ok curr (Z.of_nat i) id).
    2:{ unfold lookupZ.
        replace (Z.of_nat i <? 0) with false
          by (symmetry; apply Z.ltb_ge; lia).
        by rewrite Nat2Z.id. }
    cbn [mbind result_bind].
    pose proof (proj1 (Forall_lookup _ _) Hcurr i id Hid) as Hrange.
    cbn beta in Hrange.
    destruct (lookup_lt_is_Some_2 image_ids (Z.to_nat id) ltac:(lia))
      as [ind Hind].
    destruct (Forall2_lookup_l _ _ _ _ _ Hcoco Hind) as (c & Hc & Hinfo).
    rewrite (py_index_Ok coco_image_ids id c).
    2:{ unfold lookupZ.
        by replace (id <? 0) with false by (symmetry; apply Z.ltb_ge; lia). }
    cbn [mbind result_bind].
    rewrite IH by lia. rewrite <- (assoc_L (++)). do 2 f_equal.
    rewrite (detections_per_image _ _ _ Hid).
    unfold curr_coco_id_of.
    replace (lookupZ image_ids id) with (Some ind).
    2:{ unfold lookupZ. by destruct (Z.ltb_spec id 0); [lia|]. }
    cbn [mbind option_bind]. by rewrite Hinfo.
Qed.

Lemma test_model_loop_ok config (image_ids coco_image_ids : list Z)
    (m : nat) (k : Z) (results : list (Z * D)) (cnt : Z) :
  1 <= BATCH_SIZE config → SHOW_INTERVAL config ≠ 0 →
  Forall2 (λ id c, lookupZ image_info id = Some c) image_ids coco_image_ids →
  Forall (λ id, 0 <= id < Z.of_nat (length image_ids)) image_ids →
  0 <= k →
  (k + Z.of_nat m - 1) * BATCH_SIZE config < Z.of_nat (length image_ids)
    ∨ m = 0%nat →
  Z.of_nat (length image_ids) <= (k + Z.of_nat m) * BATCH_SIZE config →
  test_model_loop detections_of config image_ids coco_image_ids
    (seqZ k (Z.of_nat m)) results cnt
  = Ok (results
          ++ flat_map (entries image_ids)
               (drop (Z.to_nat (k * BATCH_SIZE config)) image_ids),
        cnt + (Z.of_nat (length image_ids)
               - Z.min (k * BATCH_SIZE config)
                   (Z.of_nat (length image_ids)))).
Proof.
  intros HBS Hshow Hcoco Hids. revert k results cnt.
  induction m as [|m IH]; intros k results cnt Hk Hlast Hall.
  - simpl. rewrite drop_ge by lia. simpl. rewrite app_nil_r.
    do 2 f_equal. lia.
  - destruct Hlast as [Hlast|?]; [|done].
    rewrite seqZ_cons by lia. cbn [test_model_loop].
    set (n := Z.of_nat (length image_ids)) in *.
    set (B := BATCH_SIZE config) in *.
    assert (k * B < n) as Hstart by nia.
    rewrite py_slice_take_drop by (fold n; nia).
    set (curr := take _ (drop _ image_ids)).
    assert (curr ≠ []) as Hne.
    { intros Hnil. apply (f_equal length) in Hnil.
      unfold curr in Hnil. rewrite length_take, length_drop in Hnil.
      simpl in Hnil. fold n in Hnil. nia. }
    assert (Forall (λ id, 0 <= id < n) curr) as Hcurr.
    { unfold curr. by apply Forall_take, Forall_drop. }
    unfold _mold_inputs. destruct curr as [|id0 curr0] eqn:Ecurr; [done|].
    rewrite <- Ecurr in *. cbn [mbind result_bind].
    pose proof (test_model_images_ok image_ids coco_image_ids curr 0 results
                  Hcoco Hcurr) as Himages.
    rewrite drop_0 in Himages. rewrite Himages. cbn [mbind result_bind].
    rewrite py_mod_Ok by lia. cbn [mbind result_bind].
    replace (Z.succ k) with (k + 1) by lia.
    replace (Z.pred (Z.of_nat (Datatypes.S m))) with (Z.of_nat m) by lia.
    rewrite IH; [|lia| |lia].
    2:{ destruct m; [by right|left]. lia. }
    apply (f_equal Ok), (f_equal2 pair).
    + rewrite <- (assoc_L (++)). apply (f_equal (app _)).
      rewrite <- flat_map_app. apply (f_equal (flat_map _)).
      unfold curr.
      rewrite <- (take_drop (Z.to_nat (Z.min (k * B + B) n - k * B))
                    (drop (Z.to_nat (k * B)) image_ids)) at 2.
      apply (f_equal (app _)). rewrite drop_drop.
      replace ((k + 1) * B) with (k * B + B) by ring.
      assert (0 <= k * B) by nia.
      destruct (Z.le_gt_cases (k * B + B) n).
      * f_equal. lia.
      * rewrite !drop_ge; [done|fold n; lia..].
    + unfold curr. rewrite length_take, length_drop. fold n.
      replace ((k + 1) * B) with (k * B + B) by ring.
      assert (0 <= k * B) by nia. lia.
Qed.
(** X17: [test_model] evaluates every selected image exactly once and in
    order, whatever the batch size; the ["image_id"] it writes for image
    [id] is [coco_image_ids[id]], the id of the image at POSITION [id] of
    the selected list, so an image is reported under its own id only where
    the selected list holds [id] at position [id]. *)
Theorem test_model_results config limit image_ids (ids : list Z) :
  test_image_ids dataset_image_ids limit image_ids = ids →
  1 <= BATCH_SIZE config → SHOW_INTERVAL config ≠ 0 →
  GPU_COUNT config ≠ 0 →
  (Z.of_nat (length ids) mod BATCH_SIZE config) mod GPU_COUNT config = 0 →
  ids ≠ [] →
  Forall (λ id, 0 <= id < Z.of_nat (length ids)) ids →
  Forall (λ id, 0 <= id < Z.of_nat (length image_info)) ids →
  test_model image_info dataset_image_ids detections_of config limit image_ids
    = Ok (flat_map
            (λ id, map (pair (curr_coco_id_of image_info ids id)) (det id))
            ids).
Proof.
  intros Hids HBS Hshow HGPU Hassert Hne Hself Hinfo.
  destruct (test_model_prologue image_info dataset_image_ids detections_of
              config limit image_ids ids Hids HBS HGPU Hassert Hne Hinfo)
    as (coco & c & Hcoco & Hc1 & Hlo & Hhi & ->).
  replace c with (Z.of_nat (Z.to_nat c)) at 1 by lia.
  rewrite (test_model_loop_ok config ids coco (Z.to_nat c) 0 [] 0)
    by first [done | lia | left; by rewrite Z2Nat.id by lia
             | by rewrite Z2Nat.id by lia].
  done.
Qed.

(** X18: on the images [0 .. n-1] of a dataset, with or without a [limit],
    [test_model] reports the detections of every evaluated image under the
    image's own id [image_info[id]], for any batch size. *)
Theorem test_model_all_images config limit (n : Z) :
  dataset_image_ids = seqZ 0 (Z.of_nat (length image_info)) →
  n = (if 0 <? limit then Z.min limit (Z.of_nat (length image_info))
       else Z.of_nat (length image_info)) →
  1 <= n →
  1 <= BATCH_SIZE config → SHOW_INTERVAL config ≠ 0 →
  GPU_COUNT config ≠ 0 →
  (n mod BATCH_SIZE config) mod GPU_COUNT config = 0 →
  test_model image_info dataset_image_ids detections_of config limit None
    = Ok (flat_map
            (λ id, map (pair (default 0 (lookupZ image_info id))) (det id))
            (seqZ 0 n)).
Proof.
  intros Hds Hn Hn1 HBS Hshow HGPU Hassert.
  assert (test_image_ids dataset_image_ids limit None = seqZ 0 n) as Hids.
  { unfold test_image_ids. rewrite Hds.
    destruct (Z.ltb_spec 0 limit); [|by subst n].
    rewrite py_slice_prefix by lia. subst n.
    destruct (Z.le_gt_cases limit (Z.of_nat (length image_info))).
    - rewrite Z.min_l by lia.
      replace (Z.of_nat (length image_info))
        with (limit + (Z.of_nat (length image_info) - limit)) by lia.
      rewrite seqZ_app by lia.
      by rewrite take_app_length' by (rewrite length_seqZ; lia).
    - rewrite Z.min_r by lia.
      by rewrite take_ge by (rewrite length_seqZ; lia). }
  assert (n <= Z.of_nat (length image_info)) as Hle
    by (destruct (0 <? limit); lia).
  destruct (test_model_prologue image_info dataset_image_ids detections_of
              config limit None (seqZ 0 n) Hids HBS HGPU)
    as (coco & c & Hcoco & Hc1 & Hlo & Hhi & ->).
  { by rewrite length_seqZ, Z2Nat.id by lia. }
  { intros Hnil. apply (f_equal length) in Hnil.
    rewrite length_seqZ in Hnil. simpl in Hnil. lia. }
  { apply Forall_seqZ. intros id Hid. lia. }
  rewrite length_seqZ, Z2Nat.id in Hlo, Hhi by lia.
  replace c with (Z.of_nat (Z.to_nat c)) at 1 by lia.
  rewrite (test_model_loop_ok config (seqZ 0 n) coco (Z.to_nat c) 0 [] 0)
    by first [done | lia
             | apply Forall_seqZ; intros id Hid; rewrite length_seqZ; lia
             | left; by rewrite length_seqZ, !Z2Nat.id by lia
             | by rewrite length_seqZ, !Z2Nat.id by lia].
  cbn [mbind result_bind app]. rewrite Z.mul_0_l. cbn [Z.to_nat drop].
  apply (f_equal Ok), flat_map_ext_Forall, Forall_seqZ. intros id Hid.
  apply (f_equal (λ c, map (pair c) (det id))).
  unfold curr_coco_id_of.
  replace (lookupZ (seqZ 0 n) id) with (Some id); [done|].
  unfold lookupZ. destruct (Z.ltb_spec id 0); [lia|].
  rewrite (lookup_seqZ_lt 0 n (Z.to_nat id)) by lia. f_equal. lia.
Qed.
End TestingFacts.

Section TestingErrors.
Context {D : Type}.
Context (image_info : list Z) (dataset_image_ids : list Z).
Context (detections_of : list Z → nat → list D).

(** X19: with no image to evaluate, [test_model] raises
    [ZeroDivisionError] for every configuration, before anything is saved. *)
Theorem test_model_no_images config limit image_ids :
  test_image_ids dataset_image_ids limit image_ids = [] →
  test_model image_info dataset_image_ids detections_of config limit image_ids
    = Raise ZeroDivisionError.
Proof.
  intros Hids. unfold test_model. rewrite Hids. cbn [length Z.of_nat].
  unfold py_mod at 2, py_ceil_div.
  destruct (Z.eqb_spec (BATCH_SIZE config) 0) as [|HBS]; [done|].
  rewrite Z.mod_0_l by done. cbn [mbind result_bind].
  unfold py_mod.
  destruct (Z.eqb_spec (GPU_COUNT config) 0) as [|HGPU]; [done|].
  rewrite Z.mod_0_l by done. cbn [mbind result_bind Z.eqb negb mapM].
  by rewrite Z.div_0_l by done.
Qed.

End TestingErrors.

Lemma toy_detections_per_image (curr_image_ids : list Z) (i : nat) (id : Z) :
  curr_image_ids !! i = Some id →
  toy_detections curr_image_ids i = toy_det id.
Proof. intros Hid. unfold toy_detections. by rewrite Hid. Qed.

Lemma test_model_results_witness :
  test_model [100; 101; 102; 103; 104] [0; 1; 2; 3; 4] toy_detections
    (toy_config 2 1) 0 (Some [1; 0])
  = Ok (flat_map
          (λ id, map (pair (curr_coco_id_of [100; 101; 102; 103; 104]
                              [1; 0] id)) (toy_det id))
          [1; 0]).
Proof.
  apply (test_model_results [100; 101; 102; 103; 104] [0; 1; 2; 3; 4]
           toy_detections toy_det toy_detections_per_image (toy_config 2 1)
           0 (Some [1; 0]) [1; 0]);
    first [reflexivity | discriminate | simpl; lia
          | repeat constructor; simpl; lia].
Defined.

Lemma test_model_all_images_witness :
  test_model [100; 101; 102; 103; 104] [0; 1; 2; 3; 4] toy_detections
    (toy_config 2 1) 3 None
  = Ok (flat_map
          (λ id, map (pair (default 0
                              (lookupZ [100; 101; 102; 103; 104] id)))
                   (toy_det id))
          (seqZ 0 3)).
Proof.
  apply (test_model_all_images [100; 101; 102; 103; 104] [0; 1; 2; 3; 4]
           toy_detections toy_det toy_detections_per_image (toy_config 2 1)
           3 3);
    first [reflexivity | discriminate | simpl; lia].
Defined.

Lemma test_model_no_images_witness :
  test_model [100; 101; 102] [] toy_detections (toy_config 2 1) 4 (Some [])
  = Raise ZeroDivisionError.
Proof.
  apply (test_model_no_images [100; 101; 102] [] toy_detections
           (toy_config 2 1) 4 (Some [])).
  reflexivity.
Defined.

